(** * SQL-QA-Agent: the analysis and decision engine of [sqlqa]

    A shallow embedding of the Python package [sqlqa] (reporter, baseline,
    static rules, optimizer and the dynamic-checks stage of the graph) and
    the properties its specification states about it.

    Conventions of the embedding:
    - a Python [str] is a [string] holding its UTF-8 bytes;
    - a Python [int] is a [Z], a Python [float] is a binary64 [float]
      (Rocq's primitive floats), with the mixed int/float arithmetic of
      Python written out in [PyNum];
    - [Optional[T]] is [option T]; a call that may raise returns [option]
      (or [outcome]) and the handlers of the source are written out;
    - a [Dict[str, V]] is a [gmap string V];
    - the collaborators that live outside the package (the sqlglot parser
      and generator, the MySQL connection, the json codec) are the
      variables of [Section Engine]. *)

From Stdlib Require Import ZArith List String Ascii Bool Floats Lia.
From Stdlib Require Import DecimalString.
From Stdlib Require DecimalZ.
From stdpp Require Import gmap strings fin_maps.
Import ListNotations.

Set Warnings "-inexact-float,-register-all".
Local Open Scope string_scope.
Local Open Scope list_scope.
Local Open Scope Z_scope.

(** ** Python built-ins used by the package *)

Module Py.

(** Truthiness of a [str]: the empty string is falsy. *)
Definition truthy_str (s : string) : bool := negb (String.eqb s "").

(** Truthiness of an [Optional[str]]. *)
Definition truthy_opt_str (o : option string) : bool :=
  match o with
  | Some s => truthy_str s
  | None => false
  end.

(** Truthiness of an [Optional[bool]], that is [bool(x)]. *)
Definition truthy_opt_bool (o : option bool) : bool :=
  match o with
  | Some b => b
  | None => false
  end.

(** Truthiness of a [float]: [0.0] and [-0.0] are falsy, [nan] is truthy. *)
Definition truthy_float (x : float) : bool := negb (PrimFloat.is_zero x).

(** [a or b] on two [Optional[float]] values. *)
Definition or_opt_float (a b : option float) : option float :=
  match a with
  | Some x => if truthy_float x then Some x else b
  | None => b
  end.

(** [sep.join(parts)]. *)
Fixpoint join (sep : string) (parts : list string) : string :=
  match parts with
  | [] => ""
  | [p] => p
  | p :: rest => p +:+ sep +:+ join sep rest
  end.

Definition rev_string (s : string) : string :=
  string_of_list_ascii (List.rev (list_ascii_of_string s)).

Definition mem_ascii (c : ascii) (cs : list ascii) : bool :=
  existsb (Ascii.eqb c) cs.

Fixpoint lstrip_chars (cs : list ascii) (s : string) : string :=
  match s with
  | String c rest => if mem_ascii c cs then lstrip_chars cs rest else s
  | EmptyString => EmptyString
  end.

(** [s.strip(chars)]. *)
Definition strip_chars (cs : list ascii) (s : string) : string :=
  rev_string (lstrip_chars cs (rev_string (lstrip_chars cs s))).

(** The ASCII whitespace removed by [s.strip()]: space, tab, line feed,
    vertical tab, form feed, carriage return and the four separators
    0x1c to 0x1f. *)
Definition whitespace : list ascii :=
  List.map ascii_of_nat [32; 9; 10; 11; 12; 13; 28; 29; 30; 31]%nat.

Definition strip (s : string) : string := strip_chars whitespace s.

(** The two characters removed by the source's quote-stripping call:
    the apostrophe (39) and the double quote (34). *)
Definition quote_chars : list ascii := List.map ascii_of_nat [39; 34]%nat.

(** [s.startswith(p)]. *)
Definition startswith (p s : string) : bool := String.prefix p s.

Definition lower_ascii (c : ascii) : ascii :=
  let n := nat_of_ascii c in
  if ((65 <=? n) && (n <=? 90))%nat then ascii_of_nat (n + 32) else c.

(** [s.lower()] on the ASCII letters; the bytes of other characters are
    kept (no character outside ASCII lower-cases to an ASCII letter of
    the one needle this package searches for). *)
Fixpoint lower (s : string) : string :=
  match s with
  | String c rest => String (lower_ascii c) (lower rest)
  | EmptyString => EmptyString
  end.

(** [needle in s]. *)
Fixpoint contains (needle s : string) : bool :=
  String.prefix needle s ||
  match s with
  | String _ rest => contains needle rest
  | EmptyString => false
  end.

(** [d.get(name)] on a dictionary with string keys, held as the list
    of its items (each key once). *)
Fixpoint get {A : Type} (name : string) (d : list (string * A)) : option A :=
  match d with
  | [] => None
  | (k, v) :: rest => if String.eqb k name then Some v else get name rest
  end.

(** [o is not None] *)
Definition is_not_None {A : Type} (o : option A) : bool :=
  match o with
  | Some _ => true
  | None => false
  end.

(** [str(n)] for an [int]. *)
Definition str_of_int (z : Z) : string := NilZero.string_of_int (Z.to_int z).

End Py.

(** ** Python numbers: [int] against [float] *)

Module PyNum.

Local Open Scope float_scope.

(** The result of an expression that may raise. *)
Inductive outcome (A : Type) : Type :=
| Returned (a : A)
| OverflowError.
Arguments Returned {A} a.
Arguments OverflowError {A}.

(** [float(z)]: the nearest binary64 value, ties to even; Python raises
    [OverflowError] where the rounded value leaves the finite range. *)
Definition float_of_int (z : Z) : outcome float :=
  let f := SF2Prim (binary_normalize prec emax z 0 false) in
  if PrimFloat.is_infinity f then OverflowError else Returned f.

(** [z * x] for an [int] [z] and a [float] [x]. *)
Definition int_mul_float (z : Z) (x : float) : outcome float :=
  match float_of_int z with
  | Returned f => Returned (f * x)
  | OverflowError => OverflowError
  end.

(** [1 + x] for a [float] [x]. *)
Definition one_plus (x : float) : float := 1 + x.

(** [x > y] on floats. *)
Definition float_gt (x y : float) : bool := PrimFloat.ltb y x.

(** [z > x] for an [int] [z] and a [float] [x]: Python compares the
    exact values and never raises. *)
Definition int_gt_float (z : Z) (x : float) : bool :=
  match Prim2SF x with
  | S754_nan => false
  | S754_infinity negative => negative
  | S754_zero _ => (0 <? z)%Z
  | S754_finite negative m e =>
      let v := if negative then Z.neg m else Z.pos m in
      if (0 <=? e)%Z then (v * 2 ^ e <? z)%Z
      else (v <? z * 2 ^ (- e))%Z
  end.

(** [x > n] for a [float] [x] and a small [int] constant [n] (exactly
    representable, as 500 is). *)
Definition float_gt_const (x : float) (n : Z) : bool :=
  PrimFloat.ltb (SF2Prim (binary_normalize prec emax n 0 false)) x.

Definition two_digits (n : Z) : string :=
  (if (n <? 10)%Z then "0" else "") +:+ Py.str_of_int n.

(** [format(x, ".2f")]: the exact value of [x] rounded to two decimals,
    ties to even. *)
Definition format_2f (x : float) : string :=
  match Prim2SF x with
  | S754_nan => "nan"
  | S754_infinity negative => if negative then "-inf" else "inf"
  | S754_zero negative => if negative then "-0.00" else "0.00"
  | S754_finite negative m e =>
      let hundredths :=
        if (0 <=? e)%Z then (Z.pos m * 2 ^ e * 100)%Z
        else
          let num := (Z.pos m * 100)%Z in
          let den := (2 ^ (- e))%Z in
          let q := (num / den)%Z in
          let r := (num mod den)%Z in
          if (den <? 2 * r)%Z then (q + 1)%Z
          else if (2 * r =? den)%Z && Z.odd q then (q + 1)%Z
          else q in
      (if negative then "-" else "") +:+
      Py.str_of_int (hundredths / 100) +:+ "." +:+
      two_digits (hundredths mod 100)
  end.

End PyNum.

(** ** [hashlib.sha1(...).hexdigest()] *)

Module Sha1.

Definition mask32 : Z := 2 ^ 32 - 1.

(** Addition of 32-bit words, wrapping around. *)
Definition add32 (a b : Z) : Z := Z.land (a + b) mask32.

(** Rotation of a 32-bit word to the left by [n] bits. *)
Definition rotl32 (n x : Z) : Z :=
  Z.land (Z.lor (Z.shiftl x n) (Z.shiftr x (32 - n))) mask32.

Definition bytes_of_string (s : string) : list Z :=
  List.map (fun c => Z.of_nat (nat_of_ascii c)) (list_ascii_of_string s).

(** The [width] low bytes of [n], most significant first. *)
Fixpoint be_bytes (width : nat) (n : Z) : list Z :=
  match width with
  | O => []
  | S w => Z.land (Z.shiftr n (8 * Z.of_nat w)) 255 :: be_bytes w n
  end.

(** Padding: the bit 1, zero bytes up to 56 modulo 64, and the length
    of the message in bits as a 64-bit big-endian number. *)
Definition pad (msg : list Z) : list Z :=
  let len := Z.of_nat (List.length msg) in
  (msg ++ [128] ++ List.repeat 0 (Z.to_nat ((55 - len) mod 64))
       ++ be_bytes 8 (8 * len))%list.

Fixpoint word_of_bytes (acc : Z) (bs : list Z) : Z :=
  match bs with
  | [] => acc
  | b :: rest => word_of_bytes (Z.lor (Z.shiftl acc 8) b) rest
  end.

(** The big-endian 32-bit words of a block, [count] of them. *)
Fixpoint words_of_block (count : nat) (block : list Z) : list Z :=
  match count with
  | O => []
  | S c => word_of_bytes 0 (firstn 4 block) :: words_of_block c (skipn 4 block)
  end.

Definition word_at (ws : list Z) (t : nat) : Z := nth t ws 0.

(** The message schedule: the 16 words of the block extended to 80. *)
Definition schedule (block : list Z) : list Z :=
  fold_left
    (fun ws t =>
       (ws ++ [rotl32 1 (Z.lxor (Z.lxor (word_at ws (t - 3)) (word_at ws (t - 8)))
                                (Z.lxor (word_at ws (t - 14)) (word_at ws (t - 16))))])%list)
    (seq 16 64) (words_of_block 16 block).

Definition lnot32 (x : Z) : Z := Z.lxor x mask32.

Definition round_f (t : nat) (b c d : Z) : Z :=
  if (t <? 20)%nat then Z.lor (Z.land b c) (Z.land (lnot32 b) d)
  else if (t <? 40)%nat then Z.lxor (Z.lxor b c) d
  else if (t <? 60)%nat then Z.lor (Z.lor (Z.land b c) (Z.land b d)) (Z.land c d)
  else Z.lxor (Z.lxor b c) d.

Definition round_k (t : nat) : Z :=
  if (t <? 20)%nat then 1518500249        (* 0x5A827999 *)
  else if (t <? 40)%nat then 1859775393   (* 0x6ED9EBA1 *)
  else if (t <? 60)%nat then 2400959708   (* 0x8F1BBCDC *)
  else 3395469782.                        (* 0xCA62C1D6 *)

Record state : Type := State { h0 : Z; h1 : Z; h2 : Z; h3 : Z; h4 : Z }.

(** 0x67452301, 0xEFCDAB89, 0x98BADCFE, 0x10325476, 0xC3D2E1F0 *)
Definition initial : state :=
  State 1732584193 4023233417 2562383102 271733878 3285377520.

Definition round (ws : list Z) (s : state) (t : nat) : state :=
  let temp :=
    add32 (add32 (add32 (add32 (rotl32 5 (h0 s)) (round_f t (h1 s) (h2 s) (h3 s)))
                        (h4 s)) (round_k t)) (word_at ws t) in
  State temp (h0 s) (rotl32 30 (h1 s)) (h2 s) (h3 s).

Definition compress (s : state) (block : list Z) : state :=
  let r := fold_left (round (schedule block)) (seq 0 80) s in
  State (add32 (h0 s) (h0 r)) (add32 (h1 s) (h1 r)) (add32 (h2 s) (h2 r))
        (add32 (h3 s) (h3 r)) (add32 (h4 s) (h4 r)).

Fixpoint digest_blocks (count : nat) (s : state) (bytes : list Z) : state :=
  match count with
  | O => s
  | S c => digest_blocks c (compress s (firstn 64 bytes)) (skipn 64 bytes)
  end.

Definition digest (msg : list Z) : state :=
  let padded := pad msg in
  digest_blocks (List.length padded / 64) initial padded.

Definition hex_digit (n : Z) : ascii :=
  ascii_of_nat (Z.to_nat (if n <? 10 then 48 + n else 87 + n)).

(** The [digits] low hexadecimal digits of [n], most significant first. *)
Fixpoint hex (digits : nat) (n : Z) : string :=
  match digits with
  | O => EmptyString
  | S d => String (hex_digit (Z.land (Z.shiftr n (4 * Z.of_nat d)) 15)) (hex d n)
  end.

Definition hexdigest (msg : list Z) : string :=
  let s := digest msg in
  hex 8 (h0 s) +:+ hex 8 (h1 s) +:+ hex 8 (h2 s) +:+ hex 8 (h3 s) +:+ hex 8 (h4 s).

End Sha1.

(** ** JSON documents ([json] values, and the [dict] of a plan) *)

Inductive Json : Type :=
| JNull
| JBool (b : bool)
| JInt (z : Z)
| JFloat (x : float)
| JStr (s : string)
| JList (items : list Json)
| JObject (members : list (string * Json)).

(** ** config.py *)

Module SeverityLevel.
Inductive t : Type := info | warning | error.

(** The string a level is in the source. *)
Definition to_str (l : t) : string :=
  match l with
  | info => "info"
  | warning => "warning"
  | error => "error"
  end.
End SeverityLevel.

Module StaticRuleSettings.
Record t : Type := Make {
  forbid_select_star : bool;
  forbid_update_delete_without_where : bool;
  forbid_leading_wildcard_like : bool;
  max_in_list : Z;
  require_explicit_columns_in_joins : bool
}.
End StaticRuleSettings.

Module SeverityConfig.
Record t : Type := Make {
  select_star : SeverityLevel.t;
  update_delete_without_where : SeverityLevel.t;
  leading_wildcard_like : SeverityLevel.t;
  non_sargable_predicate : SeverityLevel.t;
  long_in_list : SeverityLevel.t
}.
End SeverityConfig.

Module Targets.
Record t : Type := Make {
  include_paths : list string;
  exclude_paths : list string
}.
End Targets.

Module PolicyConfig.
Record t : Type := Make {
  targets : Targets.t;
  static_rules : StaticRuleSettings.t;
  severity : SeverityConfig.t
}.
End PolicyConfig.

(** ** models.py *)

Module QueryKind.
Inductive t : Type := select | update | delete | insert | other.
End QueryKind.

Module Query.
Record t : Type := Make {
  id : string;
  sql : string;
  raw_sql : string;
  source_path : string;
  lineno : Z;
  kind : QueryKind.t
}.
End Query.

Module StaticFinding.
Record t : Type := Make {
  rule_id : string;
  severity : string;
  message : string
}.
End StaticFinding.

Module DynamicMetrics.
Record t : Type := Make {
  p95_ms : option float;
  avg_ms : option float;
  rows_examined : option Z;
  using_filesort : option bool;
  using_temp_table : option bool;
  chosen_key : option string;
  plan_json : option Json;
  plan_hash : option string
}.

(** [DynamicMetrics()]: every field at its default [None]. *)
Definition empty : t := Make None None None None None None None None.
End DynamicMetrics.

Module SuggestionType.
Inductive t : Type := query_rewrite | index_ddl.
End SuggestionType.

Module Suggestion.
Record t : Type := Make {
  suggestion_id : string;
  type : SuggestionType.t;
  title : string;
  description : string;
  sql_before : option string;
  sql_after : option string;
  ddl : option string;
  validated_improvement : option DynamicMetrics.t
}.
End Suggestion.

Module BaselineEntry.
Record t : Type := Make {
  p95_ms : option float;
  rows_examined : option Z;
  chosen_key : option string;
  plan_hash : option string
}.
End BaselineEntry.

Module QueryResult.
Record t : Type := Make {
  query : Query.t;
  findings : list StaticFinding.t;
  dynamic : option DynamicMetrics.t;
  suggestions : list Suggestion.t;
  baseline_regression : option string
}.
End QueryResult.

(** ** The syntax trees of sqlglot

    An [Expression] of sqlglot is a node with a class and a dictionary
    [args] from argument names to a child, a list of children or a plain
    value.  The class is kept as its [key] (the lower-cased class name,
    as in [Expression.key]); [isinstance(e, exp.C)] is the test that the
    key of [e] is the key of [C], none of the classes tested by the
    package having a subclass of its own in the trees considered. *)

Module Sqlglot.

Inductive Arg (E : Type) : Type :=
| AExp (e : E)
| AList (es : list E)
| AStr (s : string)
| ABool (b : bool).
Arguments AExp {E} e.
Arguments AList {E} es.
Arguments AStr {E} s.
Arguments ABool {E} b.

Inductive Expression : Type :=
| Exp (key : string) (args : list (string * Arg Expression)).

Definition key (e : Expression) : string :=
  match e with Exp k _ => k end.

Definition args (e : Expression) : list (string * Arg Expression) :=
  match e with Exp _ a => a end.

Definition isinstance (e : Expression) (cls : string) : bool :=
  String.eqb (key e) cls.

(** [e.args.get(name)] *)
Definition get {A : Type} (name : string) (d : list (string * A)) : option A :=
  Py.get name d.

(** [e.args.get(name)] where the value is an expression. *)
Definition get_exp (name : string) (e : Expression) : option Expression :=
  match get name (args e) with
  | Some (AExp c) => Some c
  | _ => None
  end.

(** [e.this], [e.left] of a binary node. *)
Definition this (e : Expression) : option Expression := get_exp "this" e.
Definition left (e : Expression) : option Expression := get_exp "this" e.
(** [e.expression], [e.right] of a binary node. *)
Definition right (e : Expression) : option Expression := get_exp "expression" e.

(** [e.expressions] *)
Definition expressions (e : Expression) : list Expression :=
  match get "expressions" (args e) with
  | Some (AList es) => es
  | _ => []
  end.

(** [e.this] where it is a [str], as in a literal or an identifier. *)
Definition this_str (e : Expression) : string :=
  match get "this" (args e) with
  | Some (AStr s) => s
  | _ => ""
  end.

(** [Expression.text]: the text of a string argument, of an
    identifier, literal or variable, or of a star or null. *)
Definition text (name : string) (e : Expression) : string :=
  match get name (args e) with
  | Some (AStr s) => s
  | Some (AExp f) =>
      if isinstance f "identifier" || isinstance f "literal" || isinstance f "var"
      then this_str f
      else if isinstance f "star" then "*"
      else if isinstance f "null" then "NULL"
      else ""
  | _ => ""
  end.

(** [e.name]; on a table whose [this] is an identifier, the name of
    the table. *)
Definition name (e : Expression) : string := text "this" e.

Definition arg_expressions (a : Arg Expression) : list Expression :=
  match a with
  | AExp c => [c]
  | AList cs => cs
  | _ => []
  end.

(** [Expression.iter_expressions]: the children, in the order of the
    arguments. *)
Definition iter_expressions (e : Expression) : list Expression :=
  flat_map (fun kv => arg_expressions (snd kv)) (args e).

(** The number of nodes of a tree. *)
Fixpoint size (e : Expression) : nat :=
  match e with
  | Exp _ a =>
      S ((fix args_size (l : list (string * Arg Expression)) : nat :=
            match l with
            | [] => O
            | (_, AExp c) :: rest => (size c + args_size rest)%nat
            | (_, AList cs) :: rest =>
                ((fix list_size (l' : list Expression) : nat :=
                    match l' with
                    | [] => O
                    | c :: rest' => (size c + list_size rest')%nat
                    end) cs + args_size rest)%nat
            | _ :: rest => args_size rest
            end) a)
  end.

Definition forest_size (q : list Expression) : nat :=
  fold_right (fun e n => (size e + n)%nat) O q.

(** [Expression.bfs]: the queue is a list, a node is taken from its
    front and its children are put at its back.  The loop runs once
    for each node, and [fuel] bounds the number of iterations. *)
Fixpoint bfs (fuel : nat) (queue : list Expression) : list Expression :=
  match fuel, queue with
  | S n, node :: rest => node :: bfs n (rest ++ iter_expressions node)
  | _, _ => []
  end.

(** [e.walk(bfs=True)] *)
Definition walk (e : Expression) : list Expression := bfs (size e) [e].

(** [e.find_all(exp.C)], breadth first as is the default. *)
Definition find_all (cls : string) (e : Expression) : list Expression :=
  List.filter (fun n => isinstance n cls) (walk e).

(** [e.find(exp.C)]: the first node of [find_all], or [None]. *)
Definition find (cls : string) (e : Expression) : option Expression :=
  List.head (find_all cls e).

End Sqlglot.

(** ** The state of the graph (graph.py)

    [GraphState] is a [TypedDict] with [total=False]: each key may be
    missing.  A node returns the keys it sets, and the graph writes them
    over the state. *)

Module GraphState.
Record t : Type := Make {
  config : option PolicyConfig.t;
  queries : option (list Query.t);
  results : option (list QueryResult.t);
  decision : option string;
  report_md : option string;
  baseline : option (gmap string BaselineEntry.t)
}.

(** The update [{}]. *)
Definition empty : t := Make None None None None None None.

Definition over {A : Type} (new old : option A) : option A :=
  match new with
  | Some a => Some a
  | None => old
  end.

(** The state after the keys of [upd] are written over [state]. *)
Definition update (state upd : t) : t :=
  Make (over (config upd) (config state))
       (over (queries upd) (queries state))
       (over (results upd) (results state))
       (over (decision upd) (decision state))
       (over (report_md upd) (report_md state))
       (over (baseline upd) (baseline state)).
End GraphState.

(** ** Well-formed JSON documents: the keys of an object are distinct,
    as they are in the [dict] a document is in Python. *)

Fixpoint distinct_keys (keys : list string) : bool :=
  match keys with
  | [] => true
  | k :: rest => negb (existsb (String.eqb k) rest) && distinct_keys rest
  end.

Fixpoint well_formed (v : Json) : bool :=
  match v with
  | JList items =>
      (fix all_items (l : list Json) : bool :=
         match l with
         | [] => true
         | x :: rest => well_formed x && all_items rest
         end) items
  | JObject members =>
      distinct_keys (List.map fst members) &&
      (fix all_members (l : list (string * Json)) : bool :=
         match l with
         | [] => true
         | (_, x) :: rest => well_formed x && all_members rest
         end) members
  | _ => true
  end.

(** ** JSON values as Python sees them *)

Module PyJson.

(** Truthiness of a decoded JSON value. *)
Definition truthy (v : Json) : bool :=
  match v with
  | JNull => false
  | JBool b => b
  | JInt z => negb (z =? 0)
  | JFloat x => Py.truthy_float x
  | JStr s => Py.truthy_str s
  | JList items => negb (Nat.eqb (List.length items) 0)
  | JObject members => negb (Nat.eqb (List.length members) 0)
  end.

(** [a or b] *)
Definition or_else (a b : Json) : Json := if truthy a then a else b.

(** [d.get(name)] on the members of an object: [None] is [JNull]. *)
Definition get (name : string) (members : list (string * Json)) : Json :=
  default JNull (Py.get name members).

(** A value as an [Optional]: [null] is [None]. *)
Definition not_none (v : Json) : option Json :=
  match v with
  | JNull => None
  | _ => Some v
  end.

(** [int(x)] on a float: the integer part, [None] where it raises (on
    a NaN and on an infinity). *)
Definition int_of_float (x : float) : option Z :=
  match Prim2SF x with
  | S754_nan => None
  | S754_infinity _ => None
  | S754_zero _ => Some 0
  | S754_finite negative m e =>
      let magnitude := if 0 <=? e then Z.pos m * 2 ^ e else Z.pos m / 2 ^ (- e) in
      Some (if negative then - magnitude else magnitude)
  end.

End PyJson.

(** ** Python strings by characters

    A [str] is held as its UTF-8 bytes: a character is a byte that is
    not a continuation byte, with the continuation bytes after it. *)

Module PyText.

(** The bytes [10xxxxxx]. *)
Definition is_continuation (c : ascii) : bool :=
  match c with
  | Ascii _ _ _ _ _ _ b6 b7 => b7 && negb b6
  end.

(** [len(s)] *)
Fixpoint len (s : string) : Z :=
  match s with
  | EmptyString => 0
  | String c rest => if is_continuation c then len rest else 1 + len rest
  end.

(** The first [n] characters of [s]. *)
Fixpoint take (n : nat) (s : string) : string :=
  match s with
  | EmptyString => EmptyString
  | String c rest =>
      if is_continuation c then String c (take n rest)
      else match n with
           | O => EmptyString
           | S m => String c (take m rest)
           end
  end.

(** [s[:stop]]: a negative [stop] counts from the end. *)
Definition slice_to (stop : Z) (s : string) : string :=
  if 0 <=? stop then take (Z.to_nat stop) s else take (Z.to_nat (len s + stop)) s.

(** [s.replace(old, new)] for two characters of ASCII. *)
Fixpoint replace_char (old new : ascii) (s : string) : string :=
  match s with
  | EmptyString => EmptyString
  | String c rest =>
      String (if Ascii.eqb c old then new else c) (replace_char old new rest)
  end.

(** The line feed. *)
Definition newline : string := String (ascii_of_nat 10) EmptyString.

(** [str(b)] for an [Optional[bool]] and an [Optional[int]]. *)
Definition str_of_opt_bool (o : option bool) : string :=
  match o with
  | Some true => "True"
  | Some false => "False"
  | None => "None"
  end.

Definition str_of_opt_int (o : option Z) : string :=
  match o with
  | Some z => Py.str_of_int z
  | None => "None"
  end.

(** The characters [str.isspace] holds for, as their UTF-8 bytes: the
    ten of ASCII, U+0085, U+00A0, U+1680, U+2000 to U+200A, U+2028,
    U+2029, U+202F, U+205F and U+3000. *)
Definition bytes (codes : list nat) : string :=
  string_of_list_ascii (List.map ascii_of_nat codes).

Definition space_encodings : list string :=
  List.map bytes
           [[9]; [10]; [11]; [12]; [13]; [28]; [29]; [30]; [31]; [32];
            [194; 133]; [194; 160]; [225; 154; 128];
            [226; 128; 128]; [226; 128; 129]; [226; 128; 130]; [226; 128; 131];
            [226; 128; 132]; [226; 128; 133]; [226; 128; 134]; [226; 128; 135];
            [226; 128; 136]; [226; 128; 137]; [226; 128; 138];
            [226; 128; 168]; [226; 128; 169]; [226; 128; 175];
            [226; 129; 159]; [227; 128; 128]]%nat.

(** [s] without the prefix [p], where it starts with it. *)
Fixpoint drop_prefix (p s : string) : option string :=
  match p with
  | EmptyString => Some s
  | String a p' =>
      match s with
      | String b s' => if Ascii.eqb a b then drop_prefix p' s' else None
      | EmptyString => None
      end
  end.

(** [s] without the first of [encodings] it starts with. *)
Fixpoint drop_first (encodings : list string) (s : string) : option string :=
  match encodings with
  | [] => None
  | e :: rest =>
      match drop_prefix e s with
      | Some s' => Some s'
      | None => drop_first rest s
      end
  end.

(** At most [fuel] leading characters of [encodings] removed. *)
Fixpoint lstrip_fuel (encodings : list string) (fuel : nat) (s : string) : string :=
  match fuel with
  | O => s
  | S fuel' =>
      match drop_first encodings s with
      | Some s' => lstrip_fuel encodings fuel' s'
      | None => s
      end
  end.

(** The leading characters of [encodings] removed: each has a byte at
    least, so that the length of [s] is fuel enough. *)
Definition lstrip_of (encodings : list string) (s : string) : string :=
  lstrip_fuel encodings (String.length s) s.

(** [s.lstrip()], [s.rstrip()] and [s.strip()]: in UTF-8 a text ends
    with the bytes of a character exactly where this is its last
    character. *)
Definition lstrip (s : string) : string := lstrip_of space_encodings s.

Definition rstrip (s : string) : string :=
  Py.rev_string (lstrip_of (List.map Py.rev_string space_encodings) (Py.rev_string s)).

Definition strip (s : string) : string := rstrip (lstrip s).

(** [s.split(sep)] for a character of ASCII. *)
Fixpoint split (sep : ascii) (s : string) : list string :=
  match s with
  | EmptyString => [EmptyString]
  | String c rest =>
      if Ascii.eqb c sep then EmptyString :: split sep rest
      else match split sep rest with
           | piece :: pieces => String c piece :: pieces
           | [] => [String c EmptyString]
           end
  end.

(** [enumerate(l, start)] *)
Fixpoint enumerate {A : Type} (start : Z) (l : list A) : list (Z * A) :=
  match l with
  | [] => []
  | x :: rest => (start, x) :: enumerate (start + 1) rest
  end.

End PyText.

Module SQLState.
Record t : Type := Make {
  config : option PolicyConfig.t;
  queries : list Query.t;
  results : list QueryResult.t;
  decision : option string;
  report_md : option string;
  baseline : gmap string BaselineEntry.t
}.
End SQLState.


(** ** Statements used as examples, with the trees sqlglot parses them to *)

Module Examples.
Import Sqlglot.

Definition identifier (s : string) : Expression :=
  Exp "identifier" [("this", AStr s); ("quoted", ABool false)].

Definition column (s : string) : Expression :=
  Exp "column" [("this", AExp (identifier s))].

Definition column_of (tbl s : string) : Expression :=
  Exp "column" [("this", AExp (identifier s)); ("table", AExp (identifier tbl))].

Definition number (s : string) : Expression :=
  Exp "literal" [("this", AStr s); ("is_string", ABool false)].

Definition table (s : string) : Expression :=
  Exp "table" [("this", AExp (identifier s))].

Definition mk_eq (l r : Expression) : Expression :=
  Exp "eq" [("this", AExp l); ("expression", AExp r)].

Definition mk_or (l r : Expression) : Expression :=
  Exp "or" [("this", AExp l); ("expression", AExp r)].

Definition star : Expression := Exp "star" [].

(** The text sqlglot generates for the columns and the numbers of the
    examples: the name, after the name of the table and a dot where
    the column has one, and the digits. *)
Definition sql_of (e : Expression) : string :=
  if isinstance e "column"
  then match get_exp "table" e with
       | Some t => this_str t +:+ "." +:+ name e
       | None => name e
       end
  else if isinstance e "literal"
  then match get "is_string" (args e) with
       | Some (ABool true) => "'" +:+ this_str e +:+ "'"
       | _ => this_str e
       end
  else "".

(** An equality on [b], then a chain of three equalities on [a] in
    parentheses. *)
Definition or_chain_sql : string :=
  "SELECT * FROM users WHERE b = 4 OR (a = 1 OR a = 2 OR a = 3)".

Definition or_chain : Expression :=
  Exp "select"
      [("expressions", AList [star]);
       ("from", AExp (Exp "from" [("this", AExp (table "users"))]));
       ("where",
        AExp (Exp "where"
                  [("this",
                    AExp (mk_or (mk_eq (column "b") (number "4"))
                                (Exp "paren"
                                     [("this",
                                       AExp (mk_or (mk_or (mk_eq (column "a") (number "1"))
                                                          (mk_eq (column "a") (number "2")))
                                                   (mk_eq (column "a") (number "3"))))])))]))].

(** A join of two tables with a filter on one column. *)
Definition join_sql : string :=
  "SELECT * FROM a JOIN b ON a.id = b.a_id WHERE a.z = 1".

Definition join : Expression :=
  Exp "select"
      [("expressions", AList [star]);
       ("from", AExp (Exp "from" [("this", AExp (table "a"))]));
       ("joins",
        AList [Exp "join"
                   [("this", AExp (table "b"));
                    ("on", AExp (mk_eq (column_of "a" "id") (column_of "b" "a_id")))]]);
       ("where",
        AExp (Exp "where" [("this", AExp (mk_eq (column_of "a" "z") (number "1")))]))].

(** The statement of tests/test_optimizer.py. *)
Definition paged_sql : string :=
  "SELECT * FROM users WHERE id = 1 OR id = 2 OR id = 3 ORDER BY created_at LIMIT 10 OFFSET 20".

Definition paged : Expression :=
  Exp "select"
      [("expressions", AList [star]);
       ("from", AExp (Exp "from" [("this", AExp (table "users"))]));
       ("where",
        AExp (Exp "where"
                  [("this",
                    AExp (mk_or (mk_or (mk_eq (column "id") (number "1"))
                                       (mk_eq (column "id") (number "2")))
                                (mk_eq (column "id") (number "3"))))]));
       ("order",
        AExp (Exp "order"
                  [("expressions",
                    AList [Exp "ordered" [("this", AExp (column "created_at"));
                                          ("nulls_first", ABool true)]])]));
       ("limit", AExp (Exp "limit" [("expression", AExp (number "10"))]));
       ("offset", AExp (Exp "offset" [("expression", AExp (number "20"))]))].

(** The statement of tests/test_static_rules.py. *)
Definition bad_sql : string :=
  "SELECT * FROM users WHERE LOWER(email) LIKE '%foo' AND id IN (1,2,3,4,5,6)".

Definition bad : Expression :=
  Exp "select"
      [("expressions", AList [star]);
       ("from", AExp (Exp "from" [("this", AExp (table "users"))]));
       ("where",
        AExp (Exp "where"
                  [("this",
                    AExp (Exp "and"
                              [("this",
                                AExp (Exp "like"
                                          [("this",
                                            AExp (Exp "lower"
                                                      [("this", AExp (column "email"))]));
                                           ("expression",
                                            AExp (Exp "literal"
                                                      [("this", AStr "%foo");
                                                       ("is_string", ABool true)]))]));
                               ("expression",
                                AExp (Exp "in"
                                          [("this", AExp (column "id"));
                                           ("expressions",
                                            AList (List.map number
                                                            ["1"; "2"; "3"; "4"; "5"; "6"]))]))]))]))].

(** A statement the tokenizer refuses: its string is not closed. *)
Definition unparsable_sql : string := "SELECT 'abc FROM users".

(** The parser on the statements above. *)
Definition parse_one (sql : string) : option Expression :=
  if String.eqb sql or_chain_sql then Some or_chain
  else if String.eqb sql join_sql then Some join
  else if String.eqb sql paged_sql then Some paged
  else if String.eqb sql bad_sql then Some bad
  else None.

Definition query_of (id sql : string) : Query.t :=
  Query.Make id sql sql "x.sql" 1 QueryKind.select.

(** The metrics of tests/test_optimizer.py. *)
Definition slow_metrics : DynamicMetrics.t :=
  DynamicMetrics.Make (Some 800%float) None (Some 20000) (Some true) (Some true)
                      None None None.

(** A connection on which both probes raise. *)
Definition failing_probe (q : Query.t) (c : unit) : option DynamicMetrics.t := None.
Definition failing_latency_probe (q : Query.t) (c : unit) (runs : Z)
  : option DynamicMetrics.t := None.
Definition connect (dsn : string) : option unit := Some tt.
Definition close (c : unit) : bool := true.

(** Plan metrics with a latency and a latency probe that measured 0.0. *)
Definition plan_metrics : DynamicMetrics.t :=
  DynamicMetrics.Make (Some 15%float) (Some 10%float) (Some 100) (Some true) (Some true)
                      (Some "idx_users_email") None None.
Definition zero_latency : DynamicMetrics.t :=
  DynamicMetrics.Make (Some 0%float) (Some 0%float) None None None None None None.

(** A connection whose probes return these metrics for every query. *)
Definition plan_probe (q : Query.t) (c : unit) : option DynamicMetrics.t :=
  Some plan_metrics.
Definition zero_latency_probe (q : Query.t) (c : unit) (runs : Z)
  : option DynamicMetrics.t := Some zero_latency.

(** A baseline with one entry whose latency is not a number. *)
Definition nan_baseline : gmap string BaselineEntry.t :=
  {[ "fp" := BaselineEntry.Make (Some nan) None None None ]}.

(** The baseline of tests/test_baseline.py. *)
Definition test_baseline : gmap string BaselineEntry.t :=
  {[ "fp" := BaselineEntry.Make (Some 100%float) (Some 500) (Some "idx_users") None ]}.

(** Two queries with the same text at different places. *)
Definition first_copy : Query.t :=
  Query.Make "app/users.py:1" "SELECT id FROM users" "select id from users"
             "app/users.py" 12 QueryKind.select.
Definition second_copy : Query.t :=
  Query.Make "db/report.sql:4" "SELECT id FROM users" "SELECT id  FROM users"
             "db/report.sql" 40 QueryKind.other.

(** The policy with every default of config.py. *)
Definition default_config : PolicyConfig.t :=
  PolicyConfig.Make
    (Targets.Make ["**/*.py"; "**/*.sql"] ["tests/**"; "migrations/**"])
    (StaticRuleSettings.Make true true true 100 true)
    (SeverityConfig.Make SeverityLevel.warning SeverityLevel.error SeverityLevel.warning
                         SeverityLevel.warning SeverityLevel.info).

(** The policy of the test of the rules: at most five items in a list. *)
Definition strict_config : PolicyConfig.t :=
  PolicyConfig.Make
    (Targets.Make ["**/*.py"; "**/*.sql"] ["tests/**"; "migrations/**"])
    (StaticRuleSettings.Make true true true 5 true)
    (SeverityConfig.Make SeverityLevel.warning SeverityLevel.error SeverityLevel.warning
                         SeverityLevel.warning SeverityLevel.info).

(** A state after the static checks, with two results. *)
Definition checked_state : GraphState.t :=
  GraphState.Make (Some default_config)
                  (Some [query_of "q1" paged_sql; query_of "q2" join_sql])
                  (Some [QueryResult.Make (query_of "q1" paged_sql) [] None [] None;
                         QueryResult.Make (query_of "q2" join_sql) [] None [] None])
                  None None None.

(** A codec whose text is the document itself. *)
Definition dumps (v : Json) : Json := v.
Definition loads (text : Json) : option Json := Some text.
Definition no_coercion {A : Type} (v : Json) : option A := None.

(** The plan of tests/test_dynamic_runner.py. *)
Definition test_plan : Json :=
  JObject [("execution_time_ms", JObject [("p95", JInt 15); ("avg", JInt 10)]);
           ("query_block",
            JObject [("table", JObject [("rows_examined_per_scan", JInt 100);
                                        ("key", JStr "idx_users_email")])]);
           ("used_temp_table", JBool true);
           ("used_filesort", JBool true)].

(** The numbers read from the strings of a plan: the plans here hold
    none.  The text a plan is hashed as is not modelled, the examples
    take one for every plan; the floats they print are whole numbers. *)
Definition no_float (s : string) : option float := None.
Definition no_int (s : string) : option Z := None.
Definition plan_text (plan : Json) : option string := Some "{}".
Definition plan_repr (plan : Json) : string := "{}".
Definition float_text (x : float) : string :=
  match PyJson.int_of_float x with
  | Some z => Py.str_of_int z +:+ ".0"
  | None => "nan"
  end.

(** A repository with the policy of the defaults and two statements. *)
Definition load_policy (policy_path : string) : option PolicyConfig.t :=
  Some default_config.
Definition extract (repo_path : string) (config : PolicyConfig.t)
  : option (list Query.t) :=
  Some [query_of "q1" bad_sql; query_of "q2" join_sql].

(** A file system with a baseline: the first statement at a latency of
    10 ms. *)
Definition baseline_file : gmap string Json :=
  {[ "baseline.json" :=
       JObject [(Sha1.hexdigest (Sha1.bytes_of_string bad_sql),
                 JObject [("p95_ms", JFloat 10)])] ]}.

(** A state after the dynamic checks, with the metrics of the plan on
    both results. *)
Definition measured_state : GraphState.t :=
  GraphState.Make (Some default_config)
                  (Some [query_of "q1" paged_sql; query_of "q2" join_sql])
                  (Some [QueryResult.Make (query_of "q1" paged_sql) []
                                          (Some plan_metrics) [] None;
                         QueryResult.Make (query_of "q2" join_sql) []
                                          (Some plan_metrics) [] None])
                  None None None.

End Examples.

Section Engine.

(** *** The collaborators *)

(** [sqlglot.parse_one(sql, error_level="ignore")]: the tree, or [None]
    where the call raises ([ParseError], [TokenError]). *)
Variable parse_one : string -> option Sqlglot.Expression.

(** [e.sql()], the text sqlglot generates for a tree. *)
Variable sql_of : Sqlglot.Expression -> string.

(** A MySQL connection, and [_connect_mysql], [None] where it raises. *)
Variable Conn : Type.
Variable _connect_mysql : string -> option Conn.

(** [conn.close()]: [true] where it returns, [false] where it raises. *)
Variable conn_close : Conn -> bool.

(** The two probes of dynamic_runner.py on a connection, [None] where
    the probe raises. *)
Variable run_explain_analyze : Query.t -> Conn -> option DynamicMetrics.t.
Variable run_latency_probe : Query.t -> Conn -> Z -> option DynamicMetrics.t.

(** The json codec on the text of a file: [json.dumps(v, indent=2)] and
    [json.loads], [None] where the latter raises. *)
Variable Text : Type.
Variable json_dumps : Json -> Text.
Variable json_loads : Text -> option Json.

(** pydantic's lax conversion of a JSON value that is neither [null]
    nor of the type of the field, [None] where validation fails. *)
Variable coerce_float : Json -> option float.
Variable coerce_int : Json -> option Z.
Variable coerce_str : Json -> option string.

(** The codec reads back the document it wrote. *)
Hypothesis json_round_trip :
  forall v, well_formed v = true -> json_loads (json_dumps v) = Some v.

(** *** reporter.py *)

Definition compute_decision (results : list QueryResult.t) : string :=
  let has_error :=
    existsb (fun r =>
               existsb (fun f => String.eqb (StaticFinding.severity f) "error")
                       (QueryResult.findings r)) results in
  let has_regression :=
    existsb (fun r => Py.truthy_opt_str (QueryResult.baseline_regression r)) results in
  if has_error || has_regression then "fail" else "pass".

(** *** baseline.py *)

Definition fingerprint_query (query : Query.t) : string :=
  Sha1.hexdigest (Sha1.bytes_of_string (Query.sql query)).

Definition build_baseline_entry (metrics : DynamicMetrics.t) : BaselineEntry.t :=
  BaselineEntry.Make (DynamicMetrics.p95_ms metrics)
                     (DynamicMetrics.rows_examined metrics)
                     (DynamicMetrics.chosen_key metrics)
                     (DynamicMetrics.plan_hash metrics).

Definition json_of_option {A : Type} (f : A -> Json) (o : option A) : Json :=
  match o with
  | Some a => f a
  | None => JNull
  end.

(** [v.model_dump()] *)
Definition model_dump (v : BaselineEntry.t) : Json :=
  JObject [("p95_ms", json_of_option JFloat (BaselineEntry.p95_ms v));
           ("rows_examined", json_of_option JInt (BaselineEntry.rows_examined v));
           ("chosen_key", json_of_option JStr (BaselineEntry.chosen_key v));
           ("plan_hash", json_of_option JStr (BaselineEntry.plan_hash v))].

(** Validation of a field of type [Optional[float]], [Optional[int]],
    [Optional[str]]; a missing key is the default [None]. *)
Definition validate_float (field : option Json) : option (option float) :=
  match field with
  | None | Some JNull => Some None
  | Some (JFloat x) => Some (Some x)
  | Some other => option_map Some (coerce_float other)
  end.

Definition validate_int (field : option Json) : option (option Z) :=
  match field with
  | None | Some JNull => Some None
  | Some (JInt z) => Some (Some z)
  | Some other => option_map Some (coerce_int other)
  end.

Definition validate_str (field : option Json) : option (option string) :=
  match field with
  | None | Some JNull => Some None
  | Some (JStr s) => Some (Some s)
  | Some other => option_map Some (coerce_str other)
  end.

(** The entry built from the keywords of [v], as the constructor of
    [BaselineEntry] validates them; [None] where it raises. *)
Definition validate_entry (v : Json) : option BaselineEntry.t :=
  match v with
  | JObject members =>
      match validate_float (Py.get "p95_ms" members),
            validate_int (Py.get "rows_examined" members),
            validate_str (Py.get "chosen_key" members),
            validate_str (Py.get "plan_hash" members) with
      | Some p, Some r, Some c, Some h => Some (BaselineEntry.Make p r c h)
      | _, _, _, _ => None
      end
  | _ => None
  end.

(** The comprehension of [load_baseline]: the entry of each item of
    [raw.items()], in order. *)
Fixpoint validate_items (items : list (string * Json))
  : option (list (string * BaselineEntry.t)) :=
  match items with
  | [] => Some []
  | (k, v) :: rest =>
      match validate_entry v, validate_items rest with
      | Some e, Some es => Some ((k, e) :: es)
      | _, _ => None
      end
  end.

(** An item of the dictionary [serializable] of [save_baseline]. *)
Definition dump_item (kv : string * BaselineEntry.t) : string * Json :=
  (fst kv, model_dump (snd kv)).

(** The files of the file system: the text at each path that exists. *)
Definition FileSystem : Type := gmap string Text.

(** [load_baseline(path)], [None] where it raises. *)
Definition load_baseline (path : string) (fs : FileSystem)
  : option (gmap string BaselineEntry.t) :=
  match fs !! path with
  | None => Some ∅
  | Some content =>
      match json_loads content with
      | Some (JObject items) =>
          match validate_items items with
          | Some entries => Some (list_to_map entries)
          | None => None
          end
      | _ => None
      end
  end.

(** [save_baseline(path, data)]: the file system after the call.
    Directories are not part of the model: creating the parent and
    writing the text return. *)
Definition save_baseline (path : string) (data : gmap string BaselineEntry.t)
           (fs : FileSystem) : FileSystem :=
  let serializable :=
    JObject (List.map dump_item (map_to_list data)) in
  <[path := json_dumps serializable]> fs.

(** The reasons of [compare_to_baseline]. *)
Definition p95_reason (current baseline : float) : string :=
  "p95_ms regression: " +:+ PyNum.format_2f current +:+ "ms > baseline "
    +:+ PyNum.format_2f baseline +:+ "ms".

Definition rows_reason (current baseline : Z) : string :=
  "rows examined regression: " +:+ Py.str_of_int current +:+ " > baseline "
    +:+ Py.str_of_int baseline.

(** The second test of [compare_to_baseline], on the rows examined. *)
Definition compare_rows (dynamic : DynamicMetrics.t) (baseline : BaselineEntry.t)
           (threshold : float) : PyNum.outcome (bool * string) :=
  match DynamicMetrics.rows_examined dynamic, BaselineEntry.rows_examined baseline with
  | Some current, Some base =>
      match PyNum.int_mul_float base (PyNum.one_plus threshold) with
      | PyNum.Returned limit =>
          if PyNum.int_gt_float current limit
          then PyNum.Returned (true, rows_reason current base)
          else PyNum.Returned (false, "")
      | PyNum.OverflowError => PyNum.OverflowError
      end
  | _, _ => PyNum.Returned (false, "")
  end.

Definition compare_to_baseline (dynamic : DynamicMetrics.t) (baseline : BaselineEntry.t)
           (threshold : float) : PyNum.outcome (bool * string) :=
  match DynamicMetrics.p95_ms dynamic, BaselineEntry.p95_ms baseline with
  | Some current, Some base =>
      if PyNum.float_gt current (base * PyNum.one_plus threshold)%float
      then PyNum.Returned (true, p95_reason current base)
      else compare_rows dynamic baseline threshold
  | _, _ => compare_rows dynamic baseline threshold
  end.

(** [a == b] on two entries: the fields compared with [==], on floats
    the comparison of IEEE 754. *)
Definition eq_opt {A : Type} (eqb : A -> A -> bool) (a b : option A) : bool :=
  match a, b with
  | Some x, Some y => eqb x y
  | None, None => true
  | _, _ => false
  end.

Definition entry_eq (a b : BaselineEntry.t) : bool :=
  eq_opt PrimFloat.eqb (BaselineEntry.p95_ms a) (BaselineEntry.p95_ms b)
  && eq_opt Z.eqb (BaselineEntry.rows_examined a) (BaselineEntry.rows_examined b)
  && eq_opt String.eqb (BaselineEntry.chosen_key a) (BaselineEntry.chosen_key b)
  && eq_opt String.eqb (BaselineEntry.plan_hash a) (BaselineEntry.plan_hash b).

(** [a == b] on two baseline maps: as many keys, and each key of [a]
    in [b] with an equal entry. *)
Definition dict_eq (a b : gmap string BaselineEntry.t) : bool :=
  Nat.eqb (size a) (size b)
  && forallb (fun kv => match b !! fst kv with
                        | Some w => entry_eq (snd kv) w
                        | None => false
                        end) (map_to_list a).

(** *** static_rules.py *)

(** [getattr(config.severity, rule_key)], called with the five rule
    keys only. *)
Definition _severity (config : PolicyConfig.t) (rule_key : string) : string :=
  let s := PolicyConfig.severity config in
  if String.eqb rule_key "select_star"
  then SeverityLevel.to_str (SeverityConfig.select_star s)
  else if String.eqb rule_key "update_delete_without_where"
  then SeverityLevel.to_str (SeverityConfig.update_delete_without_where s)
  else if String.eqb rule_key "leading_wildcard_like"
  then SeverityLevel.to_str (SeverityConfig.leading_wildcard_like s)
  else if String.eqb rule_key "non_sargable_predicate"
  then SeverityLevel.to_str (SeverityConfig.non_sargable_predicate s)
  else SeverityLevel.to_str (SeverityConfig.long_in_list s).

Definition rule_select_star (query : Query.t) (config : PolicyConfig.t)
           (expression : Sqlglot.Expression) : list StaticFinding.t :=
  if negb (StaticRuleSettings.forbid_select_star (PolicyConfig.static_rules config))
  then []
  else if negb (Sqlglot.isinstance expression "select") then []
  else if existsb (fun p => Sqlglot.isinstance p "star") (Sqlglot.expressions expression)
  then [StaticFinding.Make "select_star" (_severity config "select_star")
                           "Query selects all columns with '*'."]
  else [].

Definition rule_update_delete_without_where (query : Query.t) (config : PolicyConfig.t)
           (expression : Sqlglot.Expression) : list StaticFinding.t :=
  if negb (StaticRuleSettings.forbid_update_delete_without_where
             (PolicyConfig.static_rules config))
  then []
  else if (Sqlglot.isinstance expression "update" || Sqlglot.isinstance expression "delete")
          && negb (Py.is_not_None (Sqlglot.get "where" (Sqlglot.args expression)))
  then [StaticFinding.Make "update_delete_without_where"
                           (_severity config "update_delete_without_where")
                           "UPDATE/DELETE statement without WHERE clause."]
  else [].

(** The pattern of a LIKE node: its argument [expression], or else its
    argument [pattern] (both are expressions where they are present). *)
Definition like_pattern (like : Sqlglot.Expression) : option Sqlglot.Expression :=
  match Sqlglot.get_exp "expression" like with
  | Some p => Some p
  | None => Sqlglot.get_exp "pattern" like
  end.

Definition rule_leading_wildcard_like (query : Query.t) (config : PolicyConfig.t)
           (expression : Sqlglot.Expression) : list StaticFinding.t :=
  if negb (StaticRuleSettings.forbid_leading_wildcard_like
             (PolicyConfig.static_rules config))
  then []
  else
    flat_map
      (fun like =>
         match like_pattern like with
         | Some pattern =>
             let value := Py.strip_chars Py.quote_chars (Py.strip (sql_of pattern)) in
             if Py.startswith "%" value
             then [StaticFinding.Make
                     "leading_wildcard_like"
                     (_severity config "leading_wildcard_like")
                     "LIKE pattern starts with a wildcard, which is non-sargable."]
             else []
         | None => []
         end)
      (Sqlglot.find_all "like" expression).

Definition non_sargable_types : list string := ["lower"; "upper"; "date"; "substring"].

Definition rule_non_sargable_predicate (query : Query.t) (config : PolicyConfig.t)
           (expression : Sqlglot.Expression) : list StaticFinding.t :=
  match Sqlglot.get_exp "where" expression with
  | None => []
  | Some where_clause =>
      if existsb
           (fun node_type =>
              existsb (fun func => Py.is_not_None (Sqlglot.find "column" func))
                      (Sqlglot.find_all node_type where_clause))
           non_sargable_types
      then [StaticFinding.Make "non_sargable_predicate"
                               (_severity config "non_sargable_predicate")
                               "Non-sargable predicate using a function on a column."]
      else []
  end.

(** [in_expr.args.get("expressions") or []] where it is a list (an
    argument of another type does not occur under this name). *)
Definition in_list_items (in_expr : Sqlglot.Expression)
  : option (list Sqlglot.Expression) :=
  match Sqlglot.get "expressions" (Sqlglot.args in_expr) with
  | Some (Sqlglot.AList es) => Some es
  | None => Some []
  | Some _ => None
  end.

Definition rule_long_in_list (query : Query.t) (config : PolicyConfig.t)
           (expression : Sqlglot.Expression) : list StaticFinding.t :=
  let max_len := StaticRuleSettings.max_in_list (PolicyConfig.static_rules config) in
  flat_map
    (fun in_expr =>
       match in_list_items in_expr with
       | Some es =>
           let n := Z.of_nat (List.length es) in
           if max_len <? n
           then [StaticFinding.Make
                   "long_in_list" (_severity config "long_in_list")
                   ("IN list has " +:+ Py.str_of_int n +:+ " items (max "
                      +:+ Py.str_of_int max_len +:+ ").")]
           else []
       | None => []
       end)
    (Sqlglot.find_all "in" expression).

Definition RULES
  : list (Query.t -> PolicyConfig.t -> Sqlglot.Expression -> list StaticFinding.t) :=
  [rule_select_star;
   rule_update_delete_without_where;
   rule_leading_wildcard_like;
   rule_non_sargable_predicate;
   rule_long_in_list].

Definition analyze_query (query : Query.t) (config : PolicyConfig.t)
  : list StaticFinding.t :=
  match parse_one (Query.sql query) with
  | None => []
  | Some expression => flat_map (fun rule => rule query config expression) RULES
  end.

Definition run_static_checks (queries : list Query.t) (config : PolicyConfig.t)
  : list QueryResult.t :=
  List.map (fun query => QueryResult.Make query (analyze_query query config) None [] None)
           queries.

(** *** optimizer.py *)

Definition _table_name (expression : Sqlglot.Expression) : option string :=
  match Sqlglot.find "table" expression with
  | Some table =>
      if Py.truthy_str (Sqlglot.name table) then Some (Sqlglot.name table) else None
  | None => None
  end.

Definition mem_str (s : string) (l : list string) : bool := existsb (String.eqb s) l.

Definition _where_columns (expression : Sqlglot.Expression) : list string :=
  match Sqlglot.get_exp "where" expression with
  | None => []
  | Some where_ =>
      fold_left
        (fun cols col =>
           if Py.truthy_str (Sqlglot.name col) && negb (mem_str (Sqlglot.name col) cols)
           then cols ++ [Sqlglot.name col]
           else cols)
        (Sqlglot.find_all "column" where_) []
  end.

Definition has_offset (node : Sqlglot.Expression) : bool :=
  Py.is_not_None (Sqlglot.get "offset" (Sqlglot.args node)).

Definition _has_offset_limit (expression : Sqlglot.Expression) : bool :=
  match Sqlglot.get_exp "limit" expression with
  | Some limit => Sqlglot.isinstance limit "limit" && has_offset limit
  | None => false
  end
  || existsb has_offset (Sqlglot.find_all "limit" expression).

(** The pair collected for a comparison [column = literal]. *)
Definition eq_pair (comp : Sqlglot.Expression) : list (string * string) :=
  match Sqlglot.left comp, Sqlglot.right comp with
  | Some l, Some r =>
      if Sqlglot.isinstance l "column" && Sqlglot.isinstance r "literal"
      then [(sql_of l, Sqlglot.this_str r)]
      else []
  | _, _ => []
  end.

(** The list [eqs] of [_or_chain_to_in]. *)
Definition collected_eqs (expression : Sqlglot.Expression) : list (string * string) :=
  flat_map (fun or_expr => flat_map eq_pair (Sqlglot.find_all "eq" or_expr))
           (Sqlglot.find_all "or" expression).

Definition values_of (col : string) (eqs : list (string * string)) : list string :=
  List.map snd (List.filter (fun cv => String.eqb (fst cv) col) eqs).

Definition _or_chain_to_in (expression : Sqlglot.Expression)
  : option (string * list string) :=
  match collected_eqs expression with
  | [] => None
  | (first_col, _) :: _ =>
      let values := values_of first_col (collected_eqs expression) in
      if (3 <=? List.length values)%nat then Some (first_col, values) else None
  end.

Definition _leading_wildcard_like (expression : Sqlglot.Expression) : bool :=
  existsb
    (fun like =>
       match like_pattern like with
       | Some pattern =>
           Py.startswith "%" (Py.strip_chars Py.quote_chars (sql_of pattern))
       | None => false
       end)
    (Sqlglot.find_all "like" expression).

(** The flag [slow] of [optimize_query]. *)
Definition slow_flag (dynamic : option DynamicMetrics.t) : bool :=
  match dynamic with
  | None => false
  | Some d =>
      match DynamicMetrics.p95_ms d with
      | Some x => if Py.truthy_float x then PyNum.float_gt_const x 500 else false
      | None => false
      end
      || (10000 <? default 0 (DynamicMetrics.rows_examined d))
      || Py.truthy_opt_bool (DynamicMetrics.using_filesort d)
      || Py.truthy_opt_bool (DynamicMetrics.using_temp_table d)
  end.

Definition index_ddl (table : string) (cols : list string) : string :=
  "CREATE INDEX idx_" +:+ table +:+ "_composite ON " +:+ table +:+ " ("
    +:+ Py.join ", " cols +:+ ");".

Definition index_suggestion (query : Query.t) (table : string) (cols : list string)
  : Suggestion.t :=
  Suggestion.Make (Query.id query +:+ "-idx") SuggestionType.index_ddl
                  "Add composite index for WHERE/JOIN columns"
                  "Align index with filtered columns to avoid full scans and temp tables."
                  (Some (Query.sql query)) None (Some (index_ddl table cols)) None.

Definition date_suggestion (query : Query.t) (col_sql : string) : Suggestion.t :=
  Suggestion.Make (Query.id query +:+ "-date") SuggestionType.query_rewrite
                  "Rewrite DATE(column) predicate"
                  ("Use a range filter on " +:+ col_sql +:+ " to stay sargable.")
                  (Some (Query.sql query))
                  (Some (Query.sql query
                           +:+ " -- Suggest range filter instead of DATE(column)"))
                  None None.

Definition offset_suggestion (query : Query.t) : Suggestion.t :=
  Suggestion.Make (Query.id query +:+ "-offset") SuggestionType.query_rewrite
                  "Replace OFFSET pagination with keyset"
                  "Use keyset pagination to avoid scanning skipped rows."
                  (Some (Query.sql query))
                  (Some (Query.sql query
                           +:+ " -- Apply keyset pagination using last seen id"))
                  None None.

Definition in_suggestion (query : Query.t) (col : string) (values : list string)
  : Suggestion.t :=
  Suggestion.Make (Query.id query +:+ "-in") SuggestionType.query_rewrite
                  "Convert OR chain to IN"
                  ("Use IN list on " +:+ col +:+ " to simplify predicates and aid indexing.")
                  (Some (Query.sql query))
                  (Some (Query.sql query +:+ " -- Consider " +:+ col +:+ " IN ("
                           +:+ Py.join ", " values +:+ ")"))
                  None None.

Definition fulltext_suggestion (query : Query.t) : Suggestion.t :=
  Suggestion.Make (Query.id query +:+ "-fulltext") SuggestionType.query_rewrite
                  "Replace leading wildcard LIKE"
                  "Consider FULLTEXT index or inverted index for prefix/suffix searches."
                  (Some (Query.sql query))
                  (Some (Query.sql query +:+ " -- Consider FULLTEXT index"))
                  None None.

(** The suggestion of each heuristic of [optimize_query], as the list
    it appends: empty, or one suggestion. *)
Definition index_part (query : Query.t) (dynamic : option DynamicMetrics.t)
           (expression : Sqlglot.Expression) : list Suggestion.t :=
  match _table_name expression, _where_columns expression with
  | Some table, (_ :: _) as cols =>
      if slow_flag dynamic then [index_suggestion query table cols] else []
  | _, _ => []
  end.

Definition this_is_column (func : Sqlglot.Expression) : bool :=
  match Sqlglot.this func with
  | Some c => Sqlglot.isinstance c "column"
  | None => false
  end.

Definition date_part (query : Query.t) (expression : Sqlglot.Expression)
  : list Suggestion.t :=
  match List.find this_is_column (Sqlglot.find_all "date" expression) with
  | Some func =>
      match Sqlglot.this func with
      | Some c => [date_suggestion query (sql_of c)]
      | None => []
      end
  | None => []
  end.

Definition offset_part (query : Query.t) (expression : Sqlglot.Expression)
  : list Suggestion.t :=
  if _has_offset_limit expression || Py.contains " offset " (Py.lower (Query.sql query))
  then [offset_suggestion query]
  else [].

Definition in_part (query : Query.t) (expression : Sqlglot.Expression)
  : list Suggestion.t :=
  match _or_chain_to_in expression with
  | Some (col, values) => [in_suggestion query col values]
  | None => []
  end.

Definition fulltext_part (query : Query.t) (expression : Sqlglot.Expression)
  : list Suggestion.t :=
  if _leading_wildcard_like expression then [fulltext_suggestion query] else [].

(** The last loop of [optimize_query]: with a connection, the plan of
    each rewritten text is attached, or [None] where the probe raises. *)
Definition validate (query : Query.t) (conn : option Conn) (s : Suggestion.t)
  : Suggestion.t :=
  match conn, Suggestion.sql_after s with
  | Some c, Some after =>
      if Py.truthy_str after
      then
        let temp_query :=
          Query.Make (Suggestion.suggestion_id s) after after
                     (Query.source_path query) (Query.lineno query) (Query.kind query) in
        Suggestion.Make (Suggestion.suggestion_id s) (Suggestion.type s)
                        (Suggestion.title s) (Suggestion.description s)
                        (Suggestion.sql_before s) (Suggestion.sql_after s)
                        (Suggestion.ddl s) (run_explain_analyze temp_query c)
      else s
  | _, _ => s
  end.

Definition optimize_query (query : Query.t) (dynamic : option DynamicMetrics.t)
           (conn : option Conn) : list Suggestion.t :=
  match parse_one (Query.sql query) with
  | None => []
  | Some expression =>
      List.map (validate query conn)
               (index_part query dynamic expression
                  ++ date_part query expression
                  ++ offset_part query expression
                  ++ in_part query expression
                  ++ fulltext_part query expression)
  end.

(** *** graph.py: the node of the dynamic checks *)

(** The value a probe leaves in the loop: its result, or the empty
    metrics of the handler. *)
Definition or_empty (probe : option DynamicMetrics.t) : DynamicMetrics.t :=
  default DynamicMetrics.empty probe.

(** The metrics [merged] of the loop. *)
Definition merged (plan_metrics latency_metrics : DynamicMetrics.t) : DynamicMetrics.t :=
  DynamicMetrics.Make
    (Py.or_opt_float (DynamicMetrics.p95_ms latency_metrics)
                     (DynamicMetrics.p95_ms plan_metrics))
    (Py.or_opt_float (DynamicMetrics.avg_ms latency_metrics)
                     (DynamicMetrics.avg_ms plan_metrics))
    (DynamicMetrics.rows_examined plan_metrics)
    (DynamicMetrics.using_filesort plan_metrics)
    (DynamicMetrics.using_temp_table plan_metrics)
    (DynamicMetrics.chosen_key plan_metrics)
    (DynamicMetrics.plan_json plan_metrics)
    (DynamicMetrics.plan_hash plan_metrics).

(** One iteration of the loop: [res] with [res.dynamic = merged]. *)
Definition check_result (conn : Conn) (res : QueryResult.t) : QueryResult.t :=
  let plan_metrics := or_empty (run_explain_analyze (QueryResult.query res) conn) in
  let latency_metrics := or_empty (run_latency_probe (QueryResult.query res) conn 3) in
  QueryResult.Make (QueryResult.query res) (QueryResult.findings res)
                   (Some (merged plan_metrics latency_metrics))
                   (QueryResult.suggestions res) (QueryResult.baseline_regression res).

(** [dynamic_checks_node(state)] for the [dsn] of [build_graph]: the
    keys the node returns, or [None] where connecting or closing
    raises. *)
Definition dynamic_checks_node (dsn : option string) (state : GraphState.t)
  : option GraphState.t :=
  if negb (Py.truthy_opt_str dsn) then Some GraphState.empty
  else
    match _connect_mysql (default "" dsn) with
    | None => None
    | Some conn =>
        let results := List.map (check_result conn) (default [] (GraphState.results state)) in
        if conn_close conn
        then Some (GraphState.Make None None (Some results) None None None)
        else None
    end.

(** The state after the stage of the dynamic checks. *)
Definition dynamic_checks_stage (dsn : option string) (state : GraphState.t)
  : option GraphState.t :=
  option_map (GraphState.update state) (dynamic_checks_node dsn state).

(** *** The conditions the specification names *)

(** The current latency exceeds the baseline by more than the
    threshold: both are present and [current > base * (1 + threshold)]. *)
Definition p95_regresses (dynamic : DynamicMetrics.t) (baseline : BaselineEntry.t)
           (threshold : float) : Prop :=
  exists current base,
    DynamicMetrics.p95_ms dynamic = Some current
    /\ BaselineEntry.p95_ms baseline = Some base
    /\ PyNum.float_gt current (base * PyNum.one_plus threshold)%float = true.

(** The same on the rows examined, where the product has a value. *)
Definition rows_regresses (dynamic : DynamicMetrics.t) (baseline : BaselineEntry.t)
           (threshold : float) : Prop :=
  exists current base limit,
    DynamicMetrics.rows_examined dynamic = Some current
    /\ BaselineEntry.rows_examined baseline = Some base
    /\ PyNum.int_mul_float base (PyNum.one_plus threshold) = PyNum.Returned limit
    /\ PyNum.int_gt_float current limit = true.

Definition p95_only (x : float) : DynamicMetrics.t :=
  DynamicMetrics.Make (Some x) None None None None None None None.

Definition baseline_p95 (x : float) : BaselineEntry.t :=
  BaselineEntry.Make (Some x) None None None.

(** The literals compared with the column [col] by the equalities
    below the OR node [or_expr]. *)
Definition comparisons_on (col : string) (or_expr : Sqlglot.Expression) : list string :=
  values_of col (flat_map eq_pair (Sqlglot.find_all "eq" or_expr)).

(** Some OR chain holds three or more equalities of one column with a
    literal. *)
Definition or_chain_qualifies (expression : Sqlglot.Expression) : Prop :=
  exists or_expr col,
    In or_expr (Sqlglot.find_all "or" expression)
    /\ (3 <= List.length (comparisons_on col or_expr))%nat.

(** The statement references a single table. *)
Definition references_single_table (expression : Sqlglot.Expression) : Prop :=
  List.length (Sqlglot.find_all "table" expression) = 1%nat.

(** The optimizer emits a suggestion of the type [index_ddl]. *)
Definition emits_index (suggestions : list Suggestion.t) : Prop :=
  exists s, In s suggestions /\ Suggestion.type s = SuggestionType.index_ddl.

(** The non-empty names of a list that are not in [seen], each once,
    in the order of their first occurrence. *)
Fixpoint distinct_from (seen names : list string) : list string :=
  match names with
  | [] => []
  | n :: rest =>
      if Py.truthy_str n && negb (mem_str n seen)
      then n :: distinct_from (seen ++ [n]) rest
      else distinct_from seen rest
  end.

Definition distinct_in_order (names : list string) : list string :=
  distinct_from [] names.

(** No latency of the baseline is a NaN. *)
Definition nan_free (data : gmap string BaselineEntry.t) : Prop :=
  forall k e x, data !! k = Some e -> BaselineEntry.p95_ms e = Some x ->
                PrimFloat.is_nan x = false.

(** The tags of the five heuristics of the optimizer. *)
Definition heuristic_tags : list string := ["idx"; "date"; "offset"; "in"; "fulltext"].

(** *** The rules and their switches *)

(** The keys of the five rules, in the order of [RULES]. *)
Definition rule_keys : list string :=
  ["select_star"; "update_delete_without_where"; "leading_wildcard_like";
   "non_sargable_predicate"; "long_in_list"].

(** The switch of a rule in the policy; the last two rules have none. *)
Definition rule_enabled (config : PolicyConfig.t) (rule_key : string) : bool :=
  let rules := PolicyConfig.static_rules config in
  if String.eqb rule_key "select_star"
  then StaticRuleSettings.forbid_select_star rules
  else if String.eqb rule_key "update_delete_without_where"
  then StaticRuleSettings.forbid_update_delete_without_where rules
  else if String.eqb rule_key "leading_wildcard_like"
  then StaticRuleSettings.forbid_leading_wildcard_like rules
  else true.

(** The IN nodes of a tree whose list is longer than the policy allows. *)
Definition long_in_lists (config : PolicyConfig.t) (expression : Sqlglot.Expression)
  : list Sqlglot.Expression :=
  List.filter
    (fun in_expr =>
       match in_list_items in_expr with
       | Some es =>
           StaticRuleSettings.max_in_list (PolicyConfig.static_rules config)
           <? Z.of_nat (List.length es)
       | None => false
       end)
    (Sqlglot.find_all "in" expression).

Definition has_rule (rule_key : string) (f : StaticFinding.t) : bool :=
  String.eqb (StaticFinding.rule_id f) rule_key.

(** *** The shape of a suggestion *)

(** The query [optimize_query] builds to validate a suggestion whose
    rewritten text is [after]. *)
Definition validation_query (query : Query.t) (s : Suggestion.t) (after : string)
  : Query.t :=
  Query.Make (Suggestion.suggestion_id s) after after
             (Query.source_path query) (Query.lineno query) (Query.kind query).

(** A suggestion is either an index, with a DDL and nothing else, or a
    rewrite, whose text is the statement followed by a line comment. *)
Definition well_shaped (query : Query.t) (s : Suggestion.t) : Prop :=
  Suggestion.sql_before s = Some (Query.sql query)
  /\ match Suggestion.type s with
     | SuggestionType.index_ddl =>
         Suggestion.sql_after s = None
         /\ (exists ddl, Suggestion.ddl s = Some ddl)
         /\ Suggestion.validated_improvement s = None
     | SuggestionType.query_rewrite =>
         Suggestion.ddl s = None
         /\ exists note, Suggestion.sql_after s = Some (Query.sql query +:+ " -- " +:+ note)
     end.

(** *** dynamic_runner.py: reading a plan *)

(** [float(s)] and [int(s)] on a string, [None] where they raise
    [ValueError]. *)
Variable float_of_str : string -> option float.
Variable int_of_str : string -> option Z.

(** [json.dumps(plan, sort_keys=True)], [None] where it raises, and
    [str(plan)]. *)
Variable json_dumps_sorted : Json -> option string.
Variable str_of_json : Json -> string.

(** [_num(value)]: [None] where it raises (an [int] too large for a
    float), else the optional float. *)
Definition _num (value : Json) : option (option float) :=
  match value with
  | JBool b => Some (Some (if b then 1%float else 0%float))
  | JInt z =>
      match PyNum.float_of_int z with
      | PyNum.Returned f => Some (Some f)
      | PyNum.OverflowError => None
      end
  | JFloat x => Some (Some x)
  | JStr s => Some (float_of_str s)
  | _ => Some None
  end.

(** [_search_keys(obj, keys)] *)
Fixpoint _search_keys (obj : Json) (keys : list string) : option Json :=
  match obj with
  | JObject members =>
      (fix search_items (items : list (string * Json)) : option Json :=
         match items with
         | [] => None
         | (k, v) :: rest =>
             if mem_str k keys then PyJson.not_none v
             else match _search_keys v keys with
                  | Some found => Some found
                  | None => search_items rest
                  end
         end) members
  | JList items =>
      (fix search_list (l : list Json) : option Json :=
         match l with
         | [] => None
         | item :: rest =>
             match _search_keys item keys with
             | Some found => Some found
             | None => search_list rest
             end
         end) items
  | _ => None
  end.

Definition _compute_plan_hash (plan : Json) : string :=
  let dumped :=
    match json_dumps_sorted plan with
    | Some text => text
    | None => str_of_json plan
    end in
  Sha1.hexdigest (Sha1.bytes_of_string dumped).

(** [int(x)] on a value that is not [None]; [None] where it raises. *)
Definition int_of_json (v : Json) : option Z :=
  match v with
  | JBool b => Some (if b then 1 else 0)
  | JInt z => Some z
  | JFloat x => PyJson.int_of_float x
  | JStr s => int_of_str s
  | _ => None
  end.

Definition p95_names : list string := ["p95_ms"; "p95"].
Definition avg_names : list string := ["avg_ms"; "avg"].
Definition rows_names : list string := ["rows_examined_per_scan"; "rows_examined"; "rows"].
Definition filesort_names : list string := ["used_filesort"; "using_filesort"].
Definition temp_table_names : list string := ["used_temp_table"; "using_temporary"].
Definition key_names : list string := ["key"; "possible_keys"; "chosen_key"].

(** The latency read from the dictionary [exec_time], then from the
    keys of the plan where it is still [None]. *)
Definition plan_latency (plan exec_time : Json) (name : string) (names : list string)
  : option (option float) :=
  let first :=
    match exec_time with
    | JObject members => _num (PyJson.get name members)
    | _ => Some None
    end in
  match first with
  | Some None => _num (default JNull (_search_keys plan names))
  | other => other
  end.

(** [parse_explain_plan(plan)], [None] where it raises. *)
Definition parse_explain_plan (plan : Json) : option DynamicMetrics.t :=
  if negb (PyJson.truthy plan) then Some DynamicMetrics.empty
  else
    match plan with
    | JObject members =>
        let exec_time :=
          PyJson.or_else (PyJson.get "execution_time_ms" members)
                         (PyJson.get "execution_time" members) in
        match plan_latency plan exec_time "p95" p95_names,
              plan_latency plan exec_time "avg" avg_names,
              match _search_keys plan rows_names with
              | Some candidate => option_map Some (int_of_json candidate)
              | None => Some None
              end with
        | Some p95, Some avg, Some rows =>
            Some (DynamicMetrics.Make
                    p95 avg rows
                    (option_map PyJson.truthy (_search_keys plan filesort_names))
                    (option_map PyJson.truthy (_search_keys plan temp_table_names))
                    (match _search_keys plan key_names with
                     | Some (JStr key) => Some key
                     | _ => None
                     end)
                    (Some plan)
                    (Some (_compute_plan_hash plan)))
        | _, _, _ => None
        end
    | _ => None
    end.

(** [v] is the value of a member whose key is one of [keys], in [obj]
    or in an object nested in it. *)
Inductive held_under (keys : list string) (v : Json) : Json -> Prop :=
| held_here (members : list (string * Json)) (k : string) :
    In (k, v) members -> In k keys -> held_under keys v (JObject members)
| held_in_member (members : list (string * Json)) (k : string) (child : Json) :
    In (k, child) members -> held_under keys v child ->
    held_under keys v (JObject members)
| held_in_item (items : list Json) (child : Json) :
    In child items -> held_under keys v child -> held_under keys v (JList items).

(** Some key of [keys] occurs in [obj] or in an object nested in it. *)
Fixpoint mentions (keys : list string) (obj : Json) : bool :=
  match obj with
  | JObject members =>
      (fix in_members (items : list (string * Json)) : bool :=
         match items with
         | [] => false
         | (k, v) :: rest => mem_str k keys || mentions keys v || in_members rest
         end) members
  | JList items =>
      (fix in_items (l : list Json) : bool :=
         match l with
         | [] => false
         | item :: rest => mentions keys item || in_items rest
         end) items
  | _ => false
  end.

(** *** reporter.py: the report *)

(** [str(x)] for a float. *)
Variable float_str : float -> string.

Definition _truncate (text : string) (limit : Z) : string :=
  if PyText.len text <=? limit then text
  else PyText.slice_to (limit - 3) text +:+ "...".

(** The texts of the two literal types. *)
Definition kind_name (kind : QueryKind.t) : string :=
  match kind with
  | QueryKind.select => "select"
  | QueryKind.update => "update"
  | QueryKind.delete => "delete"
  | QueryKind.insert => "insert"
  | QueryKind.other => "other"
  end.

Definition type_name (type : SuggestionType.t) : string :=
  match type with
  | SuggestionType.query_rewrite => "query_rewrite"
  | SuggestionType.index_ddl => "index_ddl"
  end.

(** [x or 'n/a'] in a replacement field, on the three types. *)
Definition float_or_na (o : option float) : string :=
  match o with
  | Some x => if Py.truthy_float x then float_str x else "n/a"
  | None => "n/a"
  end.

Definition int_or_na (o : option Z) : string :=
  match o with
  | Some z => if z =? 0 then "n/a" else Py.str_of_int z
  | None => "n/a"
  end.

Definition str_or_na (o : option string) : string :=
  match o with
  | Some s => if Py.truthy_str s then s else "n/a"
  | None => "n/a"
  end.

(** The three counters of the summary. *)
Definition count_findings (severity : string) (results : list QueryResult.t) : Z :=
  Z.of_nat
    (List.length
       (flat_map (fun r => List.filter
                             (fun f => String.eqb (StaticFinding.severity f) severity)
                             (QueryResult.findings r))
                 results)).

Definition count_regressions (results : list QueryResult.t) : Z :=
  Z.of_nat
    (List.length
       (List.filter (fun r => Py.truthy_opt_str (QueryResult.baseline_regression r))
                    results)).

Definition heading (result : QueryResult.t) : string :=
  "## Query `" +:+ Query.id (QueryResult.query result) +:+ "`".

Definition dynamic_lines (dynamic : option DynamicMetrics.t) : list string :=
  match dynamic with
  | Some d =>
      ["- Dynamic metrics:";
       "  - p95_ms: " +:+ float_or_na (DynamicMetrics.p95_ms d)
         +:+ ", avg_ms: " +:+ float_or_na (DynamicMetrics.avg_ms d)
         +:+ ", rows_examined: " +:+ int_or_na (DynamicMetrics.rows_examined d);
       "  - filesort: " +:+ PyText.str_of_opt_bool (DynamicMetrics.using_filesort d)
         +:+ ", temp_table: " +:+ PyText.str_of_opt_bool (DynamicMetrics.using_temp_table d)
         +:+ ", key: " +:+ str_or_na (DynamicMetrics.chosen_key d)]
  | None => []
  end.

Definition regression_lines (regression : option string) : list string :=
  match regression with
  | Some reason =>
      if Py.truthy_str reason
      then ["- Baseline: regression detected -> " +:+ reason]
      else []
  | None => []
  end.

Definition finding_line (finding : StaticFinding.t) : string :=
  "  - [" +:+ StaticFinding.severity finding +:+ "] " +:+ StaticFinding.rule_id finding
    +:+ ": " +:+ StaticFinding.message finding.

Definition findings_lines (findings : list StaticFinding.t) : list string :=
  match findings with
  | [] => ["- Findings: none"]
  | _ => "- Findings:" :: List.map finding_line findings
  end.

Definition suggestion_lines (s : Suggestion.t) : list string :=
  ("  - (" +:+ type_name (Suggestion.type s) +:+ ") " +:+ Suggestion.title s
     +:+ ": " +:+ Suggestion.description s)
    :: (match Suggestion.ddl s with
        | Some ddl => if Py.truthy_str ddl then ["    DDL: `" +:+ ddl +:+ "`"] else []
        | None => []
        end)
    ++ (match Suggestion.sql_after s with
        | Some after =>
            if Py.truthy_str after
            then ["    Rewrite: `" +:+ _truncate after 200 +:+ "`"]
            else []
        | None => []
        end)
    ++ (match Suggestion.validated_improvement s with
        | Some improvement =>
            match DynamicMetrics.p95_ms improvement with
            | Some p95 =>
                ["    Validated p95_ms: " +:+ float_str p95 +:+ " rows_examined: "
                   +:+ PyText.str_of_opt_int (DynamicMetrics.rows_examined improvement)]
            | None => []
            end
        | None => []
        end).

Definition suggestions_lines (suggestions : list Suggestion.t) : list string :=
  match suggestions with
  | [] => []
  | _ => "- Suggestions:" :: flat_map suggestion_lines suggestions
  end.

(** The lines one iteration of the loop over the results appends. *)
Definition result_lines (result : QueryResult.t) : list string :=
  let query := QueryResult.query result in
  [heading result;
   "- Source: `" +:+ Query.source_path query +:+ "` (line "
     +:+ Py.str_of_int (Query.lineno query) +:+ ")";
   "- Kind: " +:+ kind_name (Query.kind query);
   "- Raw SQL: `"
     +:+ _truncate (PyText.replace_char (ascii_of_nat 10) " " (Query.raw_sql query)) 200
     +:+ "`"]
    ++ dynamic_lines (QueryResult.dynamic result)
    ++ regression_lines (QueryResult.baseline_regression result)
    ++ findings_lines (QueryResult.findings result)
    ++ suggestions_lines (QueryResult.suggestions result)
    ++ [""].

(** The list [lines] at the end of [build_markdown_report]. *)
Definition report_lines (results : list QueryResult.t) : list string :=
  "# SQLQA Report"
    :: ""
    :: ("- Queries scanned: " +:+ Py.str_of_int (Z.of_nat (List.length results)))
    :: ("- Errors: " +:+ Py.str_of_int (count_findings "error" results))
    :: ("- Warnings: " +:+ Py.str_of_int (count_findings "warning" results))
    :: (if count_regressions results =? 0 then []
        else ["- Baseline regressions: " +:+ Py.str_of_int (count_regressions results)])
    ++ "" :: flat_map result_lines results.

Definition build_markdown_report (state : SQLState.t) : string :=
  Py.join PyText.newline (report_lines (SQLState.results state)).


(** *** graph.py: the other nodes and the run

    A node returns the keys it writes, [None] where it raises; the
    graph runs its nodes in the order of its edges, the keys of each
    written over the state. *)

(** [load_config(policy_path)] of config.py and [extract_queries] of
    extractor.py, [None] where they raise. *)
Variable load_config : string -> option PolicyConfig.t.
Variable extract_queries : string -> PolicyConfig.t -> option (list Query.t).

Definition load_config_node (policy_path : string) (state : GraphState.t)
  : option GraphState.t :=
  match load_config policy_path with
  | Some config => Some (GraphState.Make (Some config) None None None None None)
  | None => None
  end.

Definition extract_node (repo_path : string) (state : GraphState.t)
  : option GraphState.t :=
  match GraphState.config state with
  | Some config =>
      match extract_queries repo_path config with
      | Some queries => Some (GraphState.Make None (Some queries) None None None None)
      | None => None
      end
  | None => None
  end.

Definition static_checks_node (state : GraphState.t) : option GraphState.t :=
  match GraphState.config state with
  | Some config =>
      let queries := default [] (GraphState.queries state) in
      Some (GraphState.Make None None (Some (run_static_checks queries config))
                            None None None)
  | None => None
  end.

(** One iteration of the loop of the optimizer node: [res] with its
    suggestions set. *)
Definition suggest (conn : option Conn) (res : QueryResult.t) : QueryResult.t :=
  QueryResult.Make (QueryResult.query res) (QueryResult.findings res)
                   (QueryResult.dynamic res)
                   (optimize_query (QueryResult.query res) (QueryResult.dynamic res) conn)
                   (QueryResult.baseline_regression res).

(** [optimizer_node(state)]; a connection is a true value. *)
Definition optimizer_node (dsn : option string) (state : GraphState.t)
  : option GraphState.t :=
  let results conn := List.map (suggest conn) (default [] (GraphState.results state)) in
  if Py.truthy_opt_str dsn
  then
    match _connect_mysql (default "" dsn) with
    | Some conn =>
        if conn_close conn
        then Some (GraphState.Make None None (Some (results (Some conn))) None None None)
        else None
    | None => None
    end
  else Some (GraphState.Make None None (Some (results None)) None None None).

(** [res] after [res.baseline_regression = reason]. *)
Definition with_regression (res : QueryResult.t) (reason : string) : QueryResult.t :=
  QueryResult.Make (QueryResult.query res) (QueryResult.findings res)
                   (QueryResult.dynamic res) (QueryResult.suggestions res)
                   (Some reason).

(** One iteration of the loop of the baseline node, on the dictionary
    [baseline_data] and the results already visited: [None] where the
    comparison raises. *)
Definition baseline_step (save_baseline_flag : bool)
           (acc : option (gmap string BaselineEntry.t * list QueryResult.t))
           (res : QueryResult.t)
  : option (gmap string BaselineEntry.t * list QueryResult.t) :=
  match acc with
  | None => None
  | Some (baseline_data, visited) =>
      match QueryResult.dynamic res with
      | None => Some (baseline_data, visited ++ [res])
      | Some dynamic =>
          let fp := fingerprint_query (QueryResult.query res) in
          let compared :=
            match baseline_data !! fp with
            | Some existing =>
                match compare_to_baseline dynamic existing 0.2 with
                | PyNum.Returned (reg, reason) =>
                    Some (if reg then with_regression res reason else res)
                | PyNum.OverflowError => None
                end
            | None => Some res
            end in
          match compared with
          | Some res' =>
              Some (if save_baseline_flag
                    then <[fp := build_baseline_entry dynamic]> baseline_data
                    else baseline_data,
                    visited ++ [res'])
          | None => None
          end
      end
  end.

(** [baseline_node(state)] on a file system: the keys it returns, the
    results of the state as the loop leaves them (it assigns to the
    objects of the list of the state), and the file system. *)
Definition baseline_node (baseline_path : option string) (save_baseline_flag : bool)
           (state : GraphState.t) (fs : FileSystem)
  : option (GraphState.t * option (list QueryResult.t) * FileSystem) :=
  if negb (Py.truthy_opt_str baseline_path)
  then Some (GraphState.empty, GraphState.results state, fs)
  else
    let path := default "" baseline_path in
    match load_baseline path fs with
    | None => None
    | Some loaded =>
        match fold_left (baseline_step save_baseline_flag)
                        (default [] (GraphState.results state))
                        (Some (loaded, [])) with
        | None => None
        | Some (baseline_data, visited) =>
            Some (GraphState.Make None None None None None (Some baseline_data),
                  option_map (fun _ => visited) (GraphState.results state),
                  if save_baseline_flag then save_baseline path baseline_data fs else fs)
        end
    end.

Definition decision_and_report_node (state : GraphState.t) : GraphState.t :=
  let results := default [] (GraphState.results state) in
  let decision := compute_decision results in
  let sql_state :=
    SQLState.Make (GraphState.config state) (default [] (GraphState.queries state))
                  results (Some decision) None (default ∅ (GraphState.baseline state)) in
  GraphState.Make None None None (Some decision)
                  (Some (build_markdown_report sql_state)) None.

(** The state after a node that returns. *)
Definition stage (node : GraphState.t -> option GraphState.t) (state : GraphState.t)
  : option GraphState.t :=
  option_map (GraphState.update state) (node state).

(** The state with the results the baseline node leaves. *)
Definition with_results (state : GraphState.t) (results : option (list QueryResult.t))
  : GraphState.t :=
  GraphState.Make (GraphState.config state) (GraphState.queries state) results
                  (GraphState.decision state) (GraphState.report_md state)
                  (GraphState.baseline state).

Definition baseline_stage (baseline_path : option string) (save_baseline_flag : bool)
           (state : GraphState.t) (fs : FileSystem)
  : option (GraphState.t * FileSystem) :=
  match baseline_node baseline_path save_baseline_flag state fs with
  | Some (upd, results, fs') =>
      Some (GraphState.update (with_results state results) upd, fs')
  | None => None
  end.

(** [app.invoke({})]: the nodes in the order of the edges. *)
Definition invoke (policy_path repo_path : string) (dsn baseline_path : option string)
           (save_baseline_flag : bool) (fs : FileSystem)
  : option (GraphState.t * FileSystem) :=
  match stage (load_config_node policy_path) GraphState.empty with
  | None => None
  | Some loaded =>
  match stage (extract_node repo_path) loaded with
  | None => None
  | Some extracted =>
  match stage static_checks_node extracted with
  | None => None
  | Some checked =>
  match stage (dynamic_checks_node dsn) checked with
  | None => None
  | Some measured =>
  match stage (optimizer_node dsn) measured with
  | None => None
  | Some optimized =>
  match baseline_stage baseline_path save_baseline_flag optimized fs with
  | None => None
  | Some (compared, fs') =>
      Some (GraphState.update compared (decision_and_report_node compared), fs')
  end end end end end end.

Definition run_sqlqa (policy_path repo_path : string) (dsn baseline_path : option string)
           (save_baseline_flag : bool) (fs : FileSystem)
  : option (SQLState.t * FileSystem) :=
  match invoke policy_path repo_path dsn baseline_path save_baseline_flag fs with
  | Some (result_state, fs') =>
      Some (SQLState.Make (GraphState.config result_state)
                          (default [] (GraphState.queries result_state))
                          (default [] (GraphState.results result_state))
                          (GraphState.decision result_state)
                          (GraphState.report_md result_state)
                          (default ∅ (GraphState.baseline result_state)),
            fs')
  | None => None
  end.

(** *** cli.py: the code [check] exits with for the state of the run. *)
Definition exit_code (state : SQLState.t) : Z :=
  match SQLState.decision state with
  | Some decision => if String.eqb decision "pass" then 0 else 1
  | None => 1
  end.


(** What one iteration of the baseline node may do to a result: leave
    it, or note the reason of a comparison that found a regression. *)
Definition marked (res res' : QueryResult.t) : Prop :=
  res' = res
  \/ exists dynamic existing reason,
      QueryResult.dynamic res = Some dynamic
      /\ compare_to_baseline dynamic existing 0.2 = PyNum.Returned (true, reason)
      /\ res' = with_regression res reason.

(** The fingerprints of the results that have metrics. *)
Definition measured (results : list QueryResult.t) : list string :=
  flat_map (fun res => match QueryResult.dynamic res with
                       | Some _ => [fingerprint_query (QueryResult.query res)]
                       | None => []
                       end) results.


(** *** extractor.py: the statements of a SQL file *)

Definition SQL_KEYWORDS : list string := ["select"; "update"; "delete"; "insert"; "with"].

(** [_normalize_sql(sql)]: the text sqlglot generates, or the stripped
    text where the parser raises or returns nothing (the generator is
    taken to return on every tree). *)
Definition _normalize_sql (sql : string) : string :=
  match parse_one sql with
  | Some expression => sql_of expression
  | None => PyText.strip sql
  end.

(** [_determine_kind(sql)].  The lower case is taken on the letters of
    ASCII: the characters outside ASCII whose lower case has a letter
    of ASCII are U+0130 and U+212A, which give an i before U+0307 and a
    k, and no keyword has either. *)
Definition _determine_kind (sql : string) : QueryKind.t :=
  let lowered := Py.lower (PyText.lstrip sql) in
  if Py.startswith "select" lowered then QueryKind.select
  else if Py.startswith "update" lowered then QueryKind.update
  else if Py.startswith "delete" lowered then QueryKind.delete
  else if Py.startswith "insert" lowered then QueryKind.insert
  else QueryKind.other.

Definition _looks_like_sql (text : string) : bool :=
  let lowered := Py.lower text in
  existsb (fun kw => Py.contains kw lowered) SQL_KEYWORDS.

(** The list [parts] of [_extract_from_sql_file]. *)
Definition sql_parts (content : string) : list string :=
  List.map PyText.strip
           (List.filter (fun part => Py.truthy_str (PyText.strip part))
                        (PyText.split ";" content)).

(** [_extract_from_sql_file(path, start_index, root)] for the text
    [content] of the file and its path [rel] relative to the root. *)
Definition _extract_from_sql_file (rel content : string) (start_index : Z)
  : list Query.t :=
  List.map (fun entry =>
              let idx := fst entry in
              let raw := snd entry in
              Query.Make (rel +:+ ":" +:+ Py.str_of_int (idx + 1))
                         (_normalize_sql raw) raw rel 1 (_determine_kind raw))
           (PyText.enumerate 0 (sql_parts content)).


(** ** Properties *)

(** *** Strings and lists *)

Lemma append_inj_prefix (s a b : string) :
  String.append s a = String.append s b -> a = b.
Proof.
  induction s as [|c s IH]; cbn [String.append]; intros H.
  - exact H.
  - apply IH. injection H as H. exact H.
Qed.

Lemma truthy_opt_str_true (o : option string) :
  Py.truthy_opt_str o = true <-> exists s, o = Some s /\ s <> "".
Proof.
  destruct o as [s|]; simpl.
  - unfold Py.truthy_str. rewrite negb_true_iff. split.
    + intros H. exists s. split; [reflexivity|].
      intros ->. discriminate H.
    + intros (s' & Hs & Hne). inversion Hs; subst s'.
      destruct (String.eqb_spec s ""); [contradiction|reflexivity].
  - split; [discriminate|]. intros (s & Hs & _). discriminate.
Qed.

(** *** reporter.py *)

Lemma has_error_true (results : list QueryResult.t) :
  existsb (fun r =>
             existsb (fun f => String.eqb (StaticFinding.severity f) "error")
                     (QueryResult.findings r)) results = true
  <-> exists r f, In r results /\ In f (QueryResult.findings r)
                  /\ StaticFinding.severity f = "error".
Proof.
  rewrite existsb_exists. split.
  - intros (r & Hr & Hf). apply existsb_exists in Hf as (f & Hf & He).
    apply String.eqb_eq in He. eauto.
  - intros (r & f & Hr & Hf & He). exists r. split; [assumption|].
    apply existsb_exists. exists f. split; [assumption|].
    now apply String.eqb_eq.
Qed.

Lemma has_regression_true (results : list QueryResult.t) :
  existsb (fun r => Py.truthy_opt_str (QueryResult.baseline_regression r)) results = true
  <-> exists r reason, In r results
                       /\ QueryResult.baseline_regression r = Some reason
                       /\ reason <> "".
Proof.
  rewrite existsb_exists. split.
  - intros (r & Hr & Ht). apply truthy_opt_str_true in Ht as (s & Hs & Hne). eauto.
  - intros (r & s & Hr & Hs & Hne). exists r. split; [assumption|].
    apply truthy_opt_str_true. eauto.
Qed.

(** C1.  The decision is "fail" exactly when some finding of some
    result has the severity "error" or some result carries a non-empty
    regression reason, and it is "pass" otherwise. *)
Theorem compute_decision_fail_iff (results : list QueryResult.t) :
  (compute_decision results = "fail"
   <-> (exists r f, In r results /\ In f (QueryResult.findings r)
                    /\ StaticFinding.severity f = "error")
       \/ (exists r reason, In r results
                            /\ QueryResult.baseline_regression r = Some reason
                            /\ reason <> ""))
  /\ (compute_decision results = "fail" \/ compute_decision results = "pass").
Proof.
  unfold compute_decision.
  rewrite <- has_error_true, <- has_regression_true, <- orb_true_iff.
  destruct (_ || _); split.
  - split; reflexivity.
  - left; reflexivity.
  - split; discriminate.
  - right; reflexivity.
Qed.

(** *** baseline.py: the fingerprint *)

(** C7.  Two queries with the same normalized SQL text have the same
    fingerprint, whatever their ids, raw texts, paths, line numbers and
    kinds. *)
Theorem fingerprint_query_depends_on_sql_only (q1 q2 : Query.t) :
  Query.sql q1 = Query.sql q2 -> fingerprint_query q1 = fingerprint_query q2.
Proof.
  intros H. unfold fingerprint_query. rewrite H. reflexivity.
Qed.

(** *** Parse failures *)

(** C6.  Where the SQL of a query does not parse, the rule engine
    returns no finding and the optimizer no suggestion; both return. *)
Theorem unparsable_query_is_skipped (query : Query.t) (config : PolicyConfig.t)
        (dynamic : option DynamicMetrics.t) (conn : option Conn) :
  parse_one (Query.sql query) = None ->
  analyze_query query config = [] /\ optimize_query query dynamic conn = [].
Proof.
  intros H. unfold analyze_query, optimize_query. rewrite H. split; reflexivity.
Qed.

(** *** optimizer.py: the identifiers of the suggestions *)

Lemma validate_preserves (query : Query.t) (conn : option Conn) (s : Suggestion.t) :
  Suggestion.suggestion_id (validate query conn s) = Suggestion.suggestion_id s
  /\ Suggestion.type (validate query conn s) = Suggestion.type s
  /\ Suggestion.ddl (validate query conn s) = Suggestion.ddl s
  /\ Suggestion.sql_after (validate query conn s) = Suggestion.sql_after s.
Proof.
  unfold validate.
  destruct conn as [c|]; destruct (Suggestion.sql_after s) as [after|] eqn:Ha;
    try destruct (Py.truthy_str after); simpl; auto.
Qed.

Lemma map_validate_ids (query : Query.t) (conn : option Conn) (l : list Suggestion.t) :
  List.map Suggestion.suggestion_id (List.map (validate query conn) l)
  = List.map Suggestion.suggestion_id l.
Proof.
  induction l as [|s l IH]; simpl; [reflexivity|].
  rewrite IH. f_equal. apply validate_preserves.
Qed.

Lemma index_part_cases (query : Query.t) (dynamic : option DynamicMetrics.t)
      (expression : Sqlglot.Expression) :
  index_part query dynamic expression = []
  \/ exists table cols, index_part query dynamic expression
                        = [index_suggestion query table cols].
Proof.
  unfold index_part.
  destruct (_table_name expression) as [table|]; [|left; reflexivity].
  destruct (_where_columns expression) as [|c cols]; [left; reflexivity|].
  destruct (slow_flag dynamic); [right; eauto|left; reflexivity].
Qed.

Lemma date_part_cases (query : Query.t) (expression : Sqlglot.Expression) :
  date_part query expression = []
  \/ exists col_sql, date_part query expression = [date_suggestion query col_sql].
Proof.
  unfold date_part.
  destruct (List.find _ _) as [func|]; [|left; reflexivity].
  destruct (Sqlglot.this func); [right; eauto|left; reflexivity].
Qed.

Lemma offset_part_cases (query : Query.t) (expression : Sqlglot.Expression) :
  offset_part query expression = []
  \/ offset_part query expression = [offset_suggestion query].
Proof.
  unfold offset_part. destruct (_ || _); [right|left]; reflexivity.
Qed.

Lemma in_part_cases (query : Query.t) (expression : Sqlglot.Expression) :
  in_part query expression = []
  \/ exists col values, in_part query expression = [in_suggestion query col values].
Proof.
  unfold in_part.
  destruct (_or_chain_to_in expression) as [[col values]|]; [right; eauto|left; reflexivity].
Qed.

Lemma fulltext_part_cases (query : Query.t) (expression : Sqlglot.Expression) :
  fulltext_part query expression = []
  \/ fulltext_part query expression = [fulltext_suggestion query].
Proof.
  unfold fulltext_part. destruct (_leading_wildcard_like expression); [right|left]; reflexivity.
Qed.

Ltac distinct_tags :=
  repeat (constructor;
          [ simpl; intros Hin;
            repeat (destruct Hin as [Hin|Hin];
                    [apply append_inj_prefix in Hin; discriminate Hin|]);
            exact Hin
          | ]);
  try constructor.

Ltac tagged_ids :=
  repeat (constructor;
          [ first [ exists "idx"; split; [simpl; auto 6|reflexivity]
                  | exists "date"; split; [simpl; auto 6|reflexivity]
                  | exists "offset"; split; [simpl; auto 6|reflexivity]
                  | exists "in"; split; [simpl; auto 6|reflexivity]
                  | exists "fulltext"; split; [simpl; auto 6|reflexivity] ]
          | ]);
  try constructor.

(** C9.  The suggestions the optimizer produces for one query have
    pairwise distinct identifiers, each the id of the query followed
    by a dash and the tag of a heuristic. *)
Theorem suggestion_ids_distinct (query : Query.t) (dynamic : option DynamicMetrics.t)
        (conn : option Conn) :
  List.NoDup (List.map Suggestion.suggestion_id (optimize_query query dynamic conn))
  /\ Forall (fun id => exists tag, In tag heuristic_tags
                                   /\ id = Query.id query +:+ "-" +:+ tag)
            (List.map Suggestion.suggestion_id (optimize_query query dynamic conn)).
Proof.
  unfold optimize_query.
  destruct (parse_one (Query.sql query)) as [expression|];
    [|split; constructor].
  rewrite map_validate_ids.
  destruct (index_part_cases query dynamic expression) as [-> | (t & c & ->)];
    destruct (date_part_cases query expression) as [-> | (cs & ->)];
    destruct (offset_part_cases query expression) as [-> | ->];
    destruct (in_part_cases query expression) as [-> | (col & vs & ->)];
    destruct (fulltext_part_cases query expression) as [-> | ->];
    simpl; (split; [distinct_tags | tagged_ids]).
Qed.

(** *** graph.py: the merge of the dynamic checks *)

(** The fields the merge copies from the plan, and the latency it
    takes from the probe where the probe has a truthy one. *)
Lemma merged_fields (plan_metrics latency_metrics : DynamicMetrics.t) :
  DynamicMetrics.rows_examined (merged plan_metrics latency_metrics)
  = DynamicMetrics.rows_examined plan_metrics
  /\ DynamicMetrics.using_filesort (merged plan_metrics latency_metrics)
     = DynamicMetrics.using_filesort plan_metrics
  /\ DynamicMetrics.using_temp_table (merged plan_metrics latency_metrics)
     = DynamicMetrics.using_temp_table plan_metrics
  /\ DynamicMetrics.chosen_key (merged plan_metrics latency_metrics)
     = DynamicMetrics.chosen_key plan_metrics
  /\ DynamicMetrics.plan_json (merged plan_metrics latency_metrics)
     = DynamicMetrics.plan_json plan_metrics
  /\ DynamicMetrics.plan_hash (merged plan_metrics latency_metrics)
     = DynamicMetrics.plan_hash plan_metrics.
Proof. repeat split. Qed.

Lemma or_opt_float_present (x : float) (fallback : option float) :
  Py.truthy_float x = true -> Py.or_opt_float (Some x) fallback = Some x.
Proof. intros H. simpl. rewrite H. reflexivity. Qed.

Lemma or_opt_float_absent (fallback : option float) :
  Py.or_opt_float None fallback = fallback.
Proof. reflexivity. Qed.

Lemma merged_empty : merged DynamicMetrics.empty DynamicMetrics.empty = DynamicMetrics.empty.
Proof. reflexivity. Qed.

Lemma check_result_dynamic (conn : Conn) (res : QueryResult.t) :
  QueryResult.query (check_result conn res) = QueryResult.query res
  /\ exists m, QueryResult.dynamic (check_result conn res) = Some m
               /\ (run_explain_analyze (QueryResult.query res) conn = None ->
                   run_latency_probe (QueryResult.query res) conn 3 = None ->
                   m = DynamicMetrics.empty).
Proof.
  split; [reflexivity|]. unfold check_result; simpl.
  eexists. split; [reflexivity|].
  intros -> ->. reflexivity.
Qed.

(** C10.  With a database configured, a connection that opens and
    closes, the stage of the dynamic checks returns, and in the state
    it leaves every result carries metrics: the results are those of
    the state before, in order, each with a [DynamicMetrics] attached,
    the empty one where both probes raised. *)
Theorem dynamic_checks_attach_metrics (dsn : string) (conn : Conn) (state : GraphState.t) :
  Py.truthy_str dsn = true ->
  _connect_mysql dsn = Some conn ->
  conn_close conn = true ->
  exists state' results,
    dynamic_checks_stage (Some dsn) state = Some state'
    /\ GraphState.results state' = Some results
    /\ List.map QueryResult.query results
       = List.map QueryResult.query (default [] (GraphState.results state))
    /\ Forall (fun r => exists m,
                   QueryResult.dynamic r = Some m
                   /\ (run_explain_analyze (QueryResult.query r) conn = None ->
                       run_latency_probe (QueryResult.query r) conn 3 = None ->
                       m = DynamicMetrics.empty))
              results.
Proof.
  intros Hdsn Hconn Hclose.
  unfold dynamic_checks_stage, dynamic_checks_node. simpl.
  rewrite Hdsn, Hconn, Hclose. simpl.
  eexists. eexists. split; [reflexivity|]. split; [reflexivity|].
  generalize (default [] (GraphState.results state)) as rs.
  induction rs as [|r rs [IHq IHf]]; simpl.
  - split; [reflexivity|constructor].
  - split; [rewrite IHq; reflexivity|].
    constructor; [|exact IHf].
    destruct (check_result_dynamic conn r) as (Hq & m & Hm & He).
    exists m. split; [exact Hm|]. rewrite Hq. exact He.
Qed.

(** *** baseline.py: the comparison *)

Lemma compare_rows_true (dynamic : DynamicMetrics.t) (baseline : BaselineEntry.t)
      (threshold : float) :
  (exists reason, compare_rows dynamic baseline threshold = PyNum.Returned (true, reason))
  <-> rows_regresses dynamic baseline threshold.
Proof.
  unfold compare_rows, rows_regresses.
  destruct (DynamicMetrics.rows_examined dynamic) as [current|];
    destruct (BaselineEntry.rows_examined baseline) as [base|];
    try (split; [intros (r & H); discriminate H
                |intros (c & b & l & H1 & H2 & _); discriminate]).
  destruct (PyNum.int_mul_float base (PyNum.one_plus threshold)) as [limit|] eqn:Hl.
  - destruct (PyNum.int_gt_float current limit) eqn:Hgt.
    + split; [intros _; exists current, base, limit; auto|eauto].
    + split; [intros (r & H); discriminate H|].
      intros (c & b & l & H1 & H2 & H3 & H4). congruence.
  - split; [intros (r & H); discriminate H|].
    intros (c & b & l & _ & H2 & H3 & _). congruence.
Qed.

Lemma compare_to_baseline_p95 (dynamic : DynamicMetrics.t) (baseline : BaselineEntry.t)
      (threshold current base : float) :
  DynamicMetrics.p95_ms dynamic = Some current ->
  BaselineEntry.p95_ms baseline = Some base ->
  PyNum.float_gt current (base * PyNum.one_plus threshold)%float = true ->
  compare_to_baseline dynamic baseline threshold
  = PyNum.Returned (true, p95_reason current base).
Proof.
  intros Hc Hb Hgt. unfold compare_to_baseline. rewrite Hc, Hb, Hgt. reflexivity.
Qed.

(** The comparison raises only where the rows of the baseline have no
    float value. *)
Lemma compare_to_baseline_overflow (dynamic : DynamicMetrics.t)
      (baseline : BaselineEntry.t) (threshold : float) :
  compare_to_baseline dynamic baseline threshold = PyNum.OverflowError ->
  exists base, BaselineEntry.rows_examined baseline = Some base
               /\ PyNum.float_of_int base = PyNum.OverflowError.
Proof.
  assert (Hrows : compare_rows dynamic baseline threshold = PyNum.OverflowError ->
                  exists base, BaselineEntry.rows_examined baseline = Some base
                               /\ PyNum.float_of_int base = PyNum.OverflowError).
  { unfold compare_rows, PyNum.int_mul_float.
    destruct (DynamicMetrics.rows_examined dynamic) as [current|]; [|discriminate].
    destruct (BaselineEntry.rows_examined baseline) as [base|]; [|discriminate].
    destruct (PyNum.float_of_int base) as [f|] eqn:Hf.
    - destruct (PyNum.int_gt_float current _); discriminate.
    - intros _. exists base. auto. }
  unfold compare_to_baseline.
  destruct (DynamicMetrics.p95_ms dynamic) as [current|]; [|exact Hrows].
  destruct (BaselineEntry.p95_ms baseline) as [base|]; [|exact Hrows].
  destruct (PyNum.float_gt current _); [discriminate|exact Hrows].
Qed.

(** C2.  A regression is flagged exactly when the current latency or
    the current rows examined exceed the baseline times one plus the
    threshold, a metric absent on either side being skipped; where the
    latency regresses the reason is the one of the latency, whatever
    the rows; at the threshold 0.2 a latency of 130 against 100 is a
    regression and one of 120 against 100 is none. *)
Theorem compare_to_baseline_regression (dynamic : DynamicMetrics.t)
        (baseline : BaselineEntry.t) (threshold : float) :
  ((exists reason,
       compare_to_baseline dynamic baseline threshold = PyNum.Returned (true, reason))
   <-> p95_regresses dynamic baseline threshold
       \/ rows_regresses dynamic baseline threshold)
  /\ (p95_regresses dynamic baseline threshold ->
      exists current base,
        DynamicMetrics.p95_ms dynamic = Some current
        /\ BaselineEntry.p95_ms baseline = Some base
        /\ compare_to_baseline dynamic baseline threshold
           = PyNum.Returned (true, p95_reason current base)
        /\ Py.startswith "p95_ms regression" (p95_reason current base) = true)
  /\ compare_to_baseline (p95_only 130) (baseline_p95 100) 0.2
     = PyNum.Returned (true, "p95_ms regression: 130.00ms > baseline 100.00ms")
  /\ compare_to_baseline (p95_only 120) (baseline_p95 100) 0.2
     = PyNum.Returned (false, "").
Proof.
  split; [|split; [|split; reflexivity]].
  - split.
    + intros (reason & H). unfold compare_to_baseline in H.
      destruct (DynamicMetrics.p95_ms dynamic) as [current|] eqn:Hc;
        [destruct (BaselineEntry.p95_ms baseline) as [base|] eqn:Hb;
         [destruct (PyNum.float_gt current _) eqn:Hgt|]|].
      * left. exists current, base. auto.
      * right. apply compare_rows_true. eauto.
      * right. apply compare_rows_true. eauto.
      * right. apply compare_rows_true. eauto.
    + intros [(current & base & Hc & Hb & Hgt) | Hrows].
      * eexists. eapply compare_to_baseline_p95; eassumption.
      * apply compare_rows_true in Hrows as (reason & Hr).
        unfold compare_to_baseline.
        destruct (DynamicMetrics.p95_ms dynamic) as [current|]; [|eauto].
        destruct (BaselineEntry.p95_ms baseline) as [base|]; [|eauto].
        destruct (PyNum.float_gt current _); eauto.
  - intros (current & base & Hc & Hb & Hgt).
    exists current, base. repeat split; try assumption.
    eapply compare_to_baseline_p95; eassumption.
Qed.

(** *** optimizer.py: the OR chains *)

Lemma values_of_app (col : string) (l1 l2 : list (string * string)) :
  values_of col (l1 ++ l2) = values_of col l1 ++ values_of col l2.
Proof.
  unfold values_of. rewrite List.filter_app, List.map_app. reflexivity.
Qed.

Lemma values_of_flat_map {A : Type} (col : string) (f : A -> list (string * string))
      (l : list A) :
  values_of col (flat_map f l) = flat_map (fun a => values_of col (f a)) l.
Proof.
  induction l as [|a l IH]; simpl; [reflexivity|].
  rewrite values_of_app, IH. reflexivity.
Qed.

Lemma length_flat_map_ge {A B : Type} (g : A -> list B) (l : list A) (a : A) :
  In a l -> (List.length (g a) <= List.length (flat_map g l))%nat.
Proof.
  induction l as [|b l IH]; simpl; [contradiction|].
  rewrite List.length_app. intros [-> | Hin]; [lia|].
  specialize (IH Hin). lia.
Qed.

(** The values collected for a column are the literals compared with
    it below the OR nodes of the tree, node after node. *)
Lemma values_of_collected (col : string) (expression : Sqlglot.Expression) :
  values_of col (collected_eqs expression)
  = flat_map (comparisons_on col) (Sqlglot.find_all "or" expression).
Proof. unfold collected_eqs. apply values_of_flat_map. Qed.

Lemma or_chain_to_in_some (expression : Sqlglot.Expression) (col : string)
      (values : list string) :
  _or_chain_to_in expression = Some (col, values) ->
  (exists v rest, collected_eqs expression = (col, v) :: rest)
  /\ values = values_of col (collected_eqs expression)
  /\ (3 <= List.length values)%nat.
Proof.
  unfold _or_chain_to_in.
  destruct (collected_eqs expression) as [|[c v] rest] eqn:Heqs; [discriminate|].
  destruct (3 <=? _)%nat eqn:Hlen; [|discriminate].
  intros H. injection H as <- <-.
  apply Nat.leb_le in Hlen. eauto.
Qed.

Lemma or_chain_to_in_enough (expression or_expr : Sqlglot.Expression) (col v : string)
      (rest : list (string * string)) :
  collected_eqs expression = (col, v) :: rest ->
  In or_expr (Sqlglot.find_all "or" expression) ->
  (3 <= List.length (comparisons_on col or_expr))%nat ->
  _or_chain_to_in expression = Some (col, values_of col (collected_eqs expression)).
Proof.
  intros Heqs Hor Hlen. unfold _or_chain_to_in.
  pose proof (length_flat_map_ge (comparisons_on col) _ _ Hor) as Hge.
  rewrite <- values_of_collected in Hge.
  rewrite Heqs in *.
  destruct (3 <=? _)%nat eqn:Hleb; [reflexivity|].
  apply Nat.leb_gt in Hleb. lia.
Qed.

Lemma in_optimize_query (query : Query.t) (dynamic : option DynamicMetrics.t)
      (conn : option Conn) (expression : Sqlglot.Expression) (s : Suggestion.t) :
  parse_one (Query.sql query) = Some expression ->
  In s (optimize_query query dynamic conn)
  <-> exists s0, s = validate query conn s0
                 /\ (In s0 (index_part query dynamic expression)
                     \/ In s0 (date_part query expression)
                     \/ In s0 (offset_part query expression)
                     \/ In s0 (in_part query expression)
                     \/ In s0 (fulltext_part query expression)).
Proof.
  intros Hparse. unfold optimize_query. rewrite Hparse.
  rewrite List.in_map_iff. split.
  - intros (s0 & Hs & Hin). exists s0. split; [auto|].
    rewrite !List.in_app_iff in Hin. exact Hin.
  - intros (s0 & Hs & Hin). exists s0. split; [auto|].
    rewrite !List.in_app_iff. exact Hin.
Qed.

Ltac other_tag H :=
  simpl in H; apply append_inj_prefix in H; discriminate H.

(** The suggestion with the tag "in" comes from the OR chains alone. *)
Lemma in_suggestion_emitted (query : Query.t) (dynamic : option DynamicMetrics.t)
      (conn : option Conn) (expression : Sqlglot.Expression) :
  parse_one (Query.sql query) = Some expression ->
  (exists s, In s (optimize_query query dynamic conn)
             /\ Suggestion.suggestion_id s = Query.id query +:+ "-in")
  <-> exists col values, _or_chain_to_in expression = Some (col, values).
Proof.
  intros Hparse. split.
  - intros (s & Hin & Hid).
    apply (in_optimize_query _ _ _ _ _ Hparse) in Hin as (s0 & -> & Hin).
    destruct (validate_preserves query conn s0) as (Hv & _). rewrite Hv in Hid.
    destruct Hin as [Hin|[Hin|[Hin|[Hin|Hin]]]].
    + destruct (index_part_cases query dynamic expression) as [E|(t & c & E)];
        rewrite E in Hin; simpl in Hin; [contradiction|].
      destruct Hin as [<-|[]]. other_tag Hid.
    + destruct (date_part_cases query expression) as [E|(c & E)];
        rewrite E in Hin; simpl in Hin; [contradiction|].
      destruct Hin as [<-|[]]. other_tag Hid.
    + destruct (offset_part_cases query expression) as [E|E];
        rewrite E in Hin; simpl in Hin; [contradiction|].
      destruct Hin as [<-|[]]. other_tag Hid.
    + unfold in_part in Hin.
      destruct (_or_chain_to_in expression) as [[col values]|]; [eauto|contradiction].
    + destruct (fulltext_part_cases query expression) as [E|E];
        rewrite E in Hin; simpl in Hin; [contradiction|].
      destruct Hin as [<-|[]]. other_tag Hid.
  - intros (col & values & Hsome).
    exists (validate query conn (in_suggestion query col values)). split.
    + apply (in_optimize_query _ _ _ _ _ Hparse). eexists. split; [reflexivity|].
      do 3 right. left. unfold in_part. rewrite Hsome. left. reflexivity.
    + destruct (validate_preserves query conn (in_suggestion query col values))
        as (Hv & _). rewrite Hv. reflexivity.
Qed.

(** C3, amended.  The optimizer emits the OR-to-IN suggestion exactly
    when the detector returns a column and values.  The detector
    returns them whenever some OR node has three or more equalities
    of the first collected column with a literal below it; the column
    it returns is always the first collected one (that of the first
    equality of a column with a literal found below the first OR
    node), whether or not another column qualifies, at least three
    values are listed, and each is a literal compared with that
    column below an OR node of the tree. *)
Theorem or_to_in_first_collected_column (query : Query.t)
        (dynamic : option DynamicMetrics.t) (conn : option Conn)
        (expression : Sqlglot.Expression) :
  parse_one (Query.sql query) = Some expression ->
  ((exists s, In s (optimize_query query dynamic conn)
              /\ Suggestion.suggestion_id s = Query.id query +:+ "-in")
   <-> exists col values, _or_chain_to_in expression = Some (col, values))
  /\ (forall or_expr col v rest,
         collected_eqs expression = (col, v) :: rest ->
         In or_expr (Sqlglot.find_all "or" expression) ->
         (3 <= List.length (comparisons_on col or_expr))%nat ->
         exists values, _or_chain_to_in expression = Some (col, values))
  /\ (forall col values,
         _or_chain_to_in expression = Some (col, values) ->
         (exists v rest, collected_eqs expression = (col, v) :: rest)
         /\ (3 <= List.length values)%nat
         /\ Forall (fun v => exists or_expr,
                        In or_expr (Sqlglot.find_all "or" expression)
                        /\ In v (comparisons_on col or_expr)) values).
Proof.
  intros Hparse. split; [|split].
  - apply in_suggestion_emitted. exact Hparse.
  - intros or_expr col v rest Heqs Hor Hlen. eexists.
    eapply or_chain_to_in_enough; eassumption.
  - intros col values Hsome.
    apply or_chain_to_in_some in Hsome as (Hfirst & -> & Hlen).
    split; [exact Hfirst|]. split; [exact Hlen|].
    rewrite values_of_collected. apply List.Forall_forall.
    intros v Hv. apply List.in_flat_map in Hv. exact Hv.
Qed.

(** *** optimizer.py: the index suggestion *)

(** A zero is not above 500. *)
Lemma zero_not_above_500 (x : float) :
  PrimFloat.is_zero x = true -> PyNum.float_gt_const x 500 = false.
Proof.
  unfold PrimFloat.is_zero, PyNum.float_gt_const.
  rewrite FloatAxioms.eqb_spec, FloatAxioms.ltb_spec.
  replace (Prim2SF zero) with (S754_zero false) by reflexivity.
  replace (Prim2SF (SF2Prim (binary_normalize prec emax 500 0 false)))
    with (S754_finite false 8796093022208000 (-44)) by (vm_compute; reflexivity).
  destruct (Prim2SF x) as [s| s | | s m e]; try discriminate.
  - intros _. destruct s; reflexivity.
  - destruct s; discriminate.
  - destruct s; discriminate.
Qed.

Lemma slow_flag_iff (metrics : DynamicMetrics.t) :
  slow_flag (Some metrics) = true
  <-> (exists x, DynamicMetrics.p95_ms metrics = Some x
                 /\ PyNum.float_gt_const x 500 = true)
      \/ (exists rows, DynamicMetrics.rows_examined metrics = Some rows /\ 10000 < rows)
      \/ DynamicMetrics.using_filesort metrics = Some true
      \/ DynamicMetrics.using_temp_table metrics = Some true.
Proof.
  unfold slow_flag. rewrite !orb_true_iff.
  assert (Hp : match DynamicMetrics.p95_ms metrics with
               | Some x => if Py.truthy_float x then PyNum.float_gt_const x 500 else false
               | None => false
               end = true
               <-> exists x, DynamicMetrics.p95_ms metrics = Some x
                             /\ PyNum.float_gt_const x 500 = true).
  { destruct (DynamicMetrics.p95_ms metrics) as [x|].
    - unfold Py.truthy_float. destruct (PrimFloat.is_zero x) eqn:Hz; simpl.
      + apply zero_not_above_500 in Hz. split; [discriminate|].
        intros (y & Hy & Hgt). injection Hy as <-. congruence.
      + split; [eauto|]. intros (y & Hy & Hgt). injection Hy as <-. exact Hgt.
    - split; [discriminate|]. intros (y & Hy & _). discriminate. }
  assert (Hr : (10000 <? default 0 (DynamicMetrics.rows_examined metrics)) = true
               <-> exists rows, DynamicMetrics.rows_examined metrics = Some rows
                                /\ 10000 < rows).
  { destruct (DynamicMetrics.rows_examined metrics) as [r|]; simpl.
    - rewrite Z.ltb_lt. split; [eauto|]. intros (y & Hy & Hlt). injection Hy as <-. exact Hlt.
    - split; [discriminate|]. intros (y & Hy & _). discriminate. }
  assert (Hb : forall o : option bool, Py.truthy_opt_bool o = true <-> o = Some true).
  { intros [[|]|]; simpl; split; congruence. }
  rewrite Hp, Hr, !Hb, !Logic.or_assoc. reflexivity.
Qed.

(** The table of the index is the first table node found, where its
    name is not empty. *)
Lemma table_name_iff (expression : Sqlglot.Expression) (table : string) :
  _table_name expression = Some table
  <-> exists node rest,
        Sqlglot.find_all "table" expression = node :: rest
        /\ Sqlglot.name node = table /\ table <> "".
Proof.
  unfold _table_name, Sqlglot.find.
  destruct (Sqlglot.find_all "table" expression) as [|node rest]; simpl.
  - split; [discriminate|]. intros (n & r & H & _). discriminate.
  - unfold Py.truthy_str.
    destruct (String.eqb_spec (Sqlglot.name node) ""); simpl.
    + split; [discriminate|].
      intros (n & r & H & Hn & Hne). injection H as <- <-. congruence.
    + split.
      * intros H. injection H as <-. eauto.
      * intros (n' & r & H & Hn & Hne). injection H as <- <-. congruence.
Qed.

Lemma fold_where_columns (nodes : list Sqlglot.Expression) (acc : list string) :
  fold_left (fun cols col =>
               if Py.truthy_str (Sqlglot.name col) && negb (mem_str (Sqlglot.name col) cols)
               then cols ++ [Sqlglot.name col]
               else cols)
            nodes acc
  = acc ++ distinct_from acc (List.map Sqlglot.name nodes).
Proof.
  revert acc. induction nodes as [|n nodes IH]; intros acc; simpl.
  - rewrite List.app_nil_r. reflexivity.
  - rewrite IH.
    destruct (Py.truthy_str (Sqlglot.name n) && negb (mem_str (Sqlglot.name n) acc)).
    + rewrite <- List.app_assoc. reflexivity.
    + reflexivity.
Qed.

(** The columns of the index are the non-empty names of the column
    nodes of the WHERE clause, each once, in the order they are
    found. *)
Lemma where_columns_in_order (expression : Sqlglot.Expression) :
  _where_columns expression
  = match Sqlglot.get_exp "where" expression with
    | Some where_ =>
        distinct_in_order (List.map Sqlglot.name (Sqlglot.find_all "column" where_))
    | None => []
    end.
Proof.
  unfold _where_columns, distinct_in_order.
  destruct (Sqlglot.get_exp "where" expression) as [w|]; [|reflexivity].
  rewrite fold_where_columns. reflexivity.
Qed.

Lemma mem_str_In (n : string) (l : list string) : mem_str n l = true <-> In n l.
Proof.
  unfold mem_str. rewrite existsb_exists. split.
  - intros (m & Hin & Heq). apply String.eqb_eq in Heq. subst m. exact Hin.
  - intros Hin. exists n. split; [exact Hin|apply String.eqb_refl].
Qed.

Lemma distinct_from_not_nil (seen names : list string) :
  distinct_from seen names <> []
  <-> exists n, In n names /\ n <> "" /\ ~ In n seen.
Proof.
  revert seen. induction names as [|n names IH]; intros seen; simpl.
  - split; [contradiction|]. intros (n & [] & _).
  - destruct (Py.truthy_str n && negb (mem_str n seen)) eqn:Hc.
    + apply andb_true_iff in Hc as (Ht & Hm).
      apply negb_true_iff in Ht. apply String.eqb_neq in Ht.
      apply negb_true_iff in Hm.
      split; [|discriminate]. intros _. exists n. split; [left; reflexivity|].
      split; [exact Ht|]. intros Hin. apply mem_str_In in Hin. congruence.
    + rewrite IH. split.
      * intros (m & Hin & Hne & Hs). exists m. auto.
      * intros (m & [<-|Hin] & Hne & Hs); [|eauto].
        exfalso. apply andb_false_iff in Hc as [Ht|Hm].
        -- apply negb_false_iff in Ht. apply String.eqb_eq in Ht. contradiction.
        -- apply negb_false_iff in Hm. apply mem_str_In in Hm. contradiction.
Qed.

(** There is a column to index exactly when some column node of the
    WHERE clause has a non-empty name. *)
Lemma where_columns_not_nil (expression : Sqlglot.Expression) :
  _where_columns expression <> []
  <-> exists where_ col,
        Sqlglot.get_exp "where" expression = Some where_
        /\ In col (Sqlglot.find_all "column" where_)
        /\ Sqlglot.name col <> "".
Proof.
  rewrite where_columns_in_order.
  destruct (Sqlglot.get_exp "where" expression) as [w|].
  - unfold distinct_in_order. rewrite distinct_from_not_nil. split.
    + intros (n & Hin & Hne & _). apply List.in_map_iff in Hin as (col & <- & Hin).
      exists w, col. auto.
    + intros (w' & col & Hw & Hin & Hne). injection Hw as <-.
      exists (Sqlglot.name col). split; [apply List.in_map; exact Hin|].
      split; [exact Hne|]. intros [].
  - split; [contradiction|]. intros (w & col & Hw & _). discriminate.
Qed.

Lemma index_part_emits (query : Query.t) (dynamic : option DynamicMetrics.t)
      (expression : Sqlglot.Expression) (s : Suggestion.t) :
  In s (index_part query dynamic expression)
  <-> exists table, _table_name expression = Some table
                    /\ _where_columns expression <> []
                    /\ slow_flag dynamic = true
                    /\ s = index_suggestion query table (_where_columns expression).
Proof.
  unfold index_part.
  destruct (_table_name expression) as [table|].
  - destruct (_where_columns expression) as [|c cols].
    + split; [contradiction|]. intros (t & _ & H & _). contradiction.
    + destruct (slow_flag dynamic).
      * simpl. split.
        -- intros [<-|[]]. exists table. repeat split. discriminate.
        -- intros (t & Ht & _ & _ & ->). injection Ht as <-. left. reflexivity.
      * split; [contradiction|]. intros (t & _ & _ & H & _). discriminate.
  - split; [contradiction|]. intros (t & H & _). discriminate.
Qed.

Lemma rewrite_parts_type (query : Query.t) (expression : Sqlglot.Expression)
      (s : Suggestion.t) :
  In s (date_part query expression)
  \/ In s (offset_part query expression)
  \/ In s (in_part query expression)
  \/ In s (fulltext_part query expression) ->
  Suggestion.type s = SuggestionType.query_rewrite.
Proof.
  intros [Hin|[Hin|[Hin|Hin]]].
  - destruct (date_part_cases query expression) as [E|(c & E)];
      rewrite E in Hin; simpl in Hin; [contradiction|].
    destruct Hin as [<-|[]]. reflexivity.
  - destruct (offset_part_cases query expression) as [E|E];
      rewrite E in Hin; simpl in Hin; [contradiction|].
    destruct Hin as [<-|[]]. reflexivity.
  - destruct (in_part_cases query expression) as [E|(c & v & E)];
      rewrite E in Hin; simpl in Hin; [contradiction|].
    destruct Hin as [<-|[]]. reflexivity.
  - destruct (fulltext_part_cases query expression) as [E|E];
      rewrite E in Hin; simpl in Hin; [contradiction|].
    destruct Hin as [<-|[]]. reflexivity.
Qed.

(** C5, amended.  With metrics, the optimizer emits an [index_ddl]
    suggestion exactly when the slow flag holds (a latency above 500,
    or more than 10000 rows examined, or the filesort flag, or the
    temp-table flag; an absent metric does not contribute), the first
    table node found in the statement has a non-empty name, and the
    WHERE clause has a column with a non-empty name; the statement
    may reference other tables.  The DDL is the composite index named
    from that first table over the distinct names of the WHERE
    columns in the order they are found. *)
Theorem index_suggestion_first_table (query : Query.t) (metrics : DynamicMetrics.t)
        (conn : option Conn) (expression : Sqlglot.Expression) :
  parse_one (Query.sql query) = Some expression ->
  (emits_index (optimize_query query (Some metrics) conn)
   <-> ((exists x, DynamicMetrics.p95_ms metrics = Some x
                   /\ PyNum.float_gt_const x 500 = true)
        \/ (exists rows, DynamicMetrics.rows_examined metrics = Some rows
                         /\ 10000 < rows)
        \/ DynamicMetrics.using_filesort metrics = Some true
        \/ DynamicMetrics.using_temp_table metrics = Some true)
       /\ (exists node rest,
              Sqlglot.find_all "table" expression = node :: rest
              /\ Sqlglot.name node <> "")
       /\ (exists where_ col,
              Sqlglot.get_exp "where" expression = Some where_
              /\ In col (Sqlglot.find_all "column" where_)
              /\ Sqlglot.name col <> ""))
  /\ (forall s,
         In s (optimize_query query (Some metrics) conn) ->
         Suggestion.type s = SuggestionType.index_ddl ->
         exists node rest where_,
           Sqlglot.find_all "table" expression = node :: rest
           /\ Sqlglot.get_exp "where" expression = Some where_
           /\ Suggestion.ddl s
              = Some (index_ddl (Sqlglot.name node)
                                (distinct_in_order
                                   (List.map Sqlglot.name
                                             (Sqlglot.find_all "column" where_))))).
Proof.
  intros Hparse.
  assert (Hidx : forall s,
             In s (optimize_query query (Some metrics) conn)
             /\ Suggestion.type s = SuggestionType.index_ddl
             <-> exists table,
                   _table_name expression = Some table
                   /\ _where_columns expression <> []
                   /\ slow_flag (Some metrics) = true
                   /\ s = validate query conn
                                   (index_suggestion query table (_where_columns expression))).
  { intros s. rewrite (in_optimize_query _ _ _ _ _ Hparse). split.
    - intros ((s0 & -> & Hin) & Hty).
      destruct (validate_preserves query conn s0) as (_ & Hv & _). rewrite Hv in Hty.
      destruct Hin as [Hin|Hin].
      + apply index_part_emits in Hin as (t & Ht & Hc & Hs & ->). eauto 6.
      + apply rewrite_parts_type in Hin. congruence.
    - intros (t & Ht & Hc & Hs & ->). split.
      + eexists. split; [reflexivity|]. left. apply index_part_emits. eauto 6.
      + destruct (validate_preserves
                    query conn (index_suggestion query t (_where_columns expression)))
          as (_ & Hv & _). rewrite Hv. reflexivity. }
  split.
  - unfold emits_index. rewrite <- slow_flag_iff. split.
    + intros (s & Hs). apply Hidx in Hs as (t & Ht & Hc & Hslow & _).
      split; [exact Hslow|].
      apply table_name_iff in Ht as (node & rest & Hf & Hn & Hne).
      split; [exists node, rest; split; [exact Hf|congruence]|].
      apply where_columns_not_nil. exact Hc.
    + intros (Hslow & (node & rest & Hf & Hne) & Hc).
      eexists. apply Hidx. exists (Sqlglot.name node).
      split; [apply table_name_iff; eauto 6|].
      split; [apply where_columns_not_nil; exact Hc|].
      split; [exact Hslow|reflexivity].
  - intros s Hin Hty.
    destruct (proj1 (Hidx s) (conj Hin Hty)) as (t & Ht & Hc & _ & ->).
    apply table_name_iff in Ht as (node & rest & Hf & Hn & Hne).
    rewrite where_columns_in_order in Hc |- *.
    destruct (Sqlglot.get_exp "where" expression) as [w|]; [|contradiction].
    exists node, rest, w. split; [exact Hf|]. split; [reflexivity|].
    destruct (validate_preserves
                query conn
                (index_suggestion
                   query t
                   (distinct_in_order
                      (List.map Sqlglot.name (Sqlglot.find_all "column" w)))))
      as (_ & _ & Hd & _).
    rewrite Hd. simpl. rewrite Hn. reflexivity.
Qed.

(** *** The walk of a tree visits each node once *)

Lemma forest_size_app (q1 q2 : list Sqlglot.Expression) :
  Sqlglot.forest_size (q1 ++ q2)
  = (Sqlglot.forest_size q1 + Sqlglot.forest_size q2)%nat.
Proof.
  induction q1 as [|e q1 IH]; simpl; [reflexivity|]. rewrite IH. lia.
Qed.

Lemma size_children (e : Sqlglot.Expression) :
  Sqlglot.size e = S (Sqlglot.forest_size (Sqlglot.iter_expressions e)).
Proof.
  destruct e as [k a]. unfold Sqlglot.iter_expressions. simpl. f_equal.
  induction a as [|[name arg] rest IH]; simpl; [reflexivity|].
  rewrite forest_size_app.
  destruct arg as [c|cs|s|b]; simpl; rewrite IH; try reflexivity.
  lia.
Qed.

Lemma size_positive (e : Sqlglot.Expression) : (1 <= Sqlglot.size e)%nat.
Proof. rewrite size_children. lia. Qed.

(** With fuel for each node of the queue, the loop ends on the empty
    queue: it yields as many nodes as the queue holds with their
    descendants, and more fuel changes nothing. *)
Lemma bfs_length (fuel : nat) (queue : list Sqlglot.Expression) :
  (Sqlglot.forest_size queue <= fuel)%nat ->
  List.length (Sqlglot.bfs fuel queue) = Sqlglot.forest_size queue.
Proof.
  revert queue. induction fuel as [|n IH]; intros queue Hle.
  - destruct queue as [|e rest]; simpl in *; [reflexivity|].
    pose proof (size_positive e). lia.
  - destruct queue as [|e rest]; simpl in *; [reflexivity|].
    rewrite IH.
    + rewrite forest_size_app, (size_children e). lia.
    + rewrite forest_size_app. rewrite (size_children e) in Hle. lia.
Qed.

Lemma bfs_enough_fuel (fuel : nat) (queue : list Sqlglot.Expression) :
  (Sqlglot.forest_size queue <= fuel)%nat ->
  Sqlglot.bfs fuel queue = Sqlglot.bfs (Sqlglot.forest_size queue) queue.
Proof.
  revert queue. induction fuel as [|n IH]; intros queue Hle.
  - destruct queue as [|e rest]; simpl in *; [reflexivity|].
    pose proof (size_positive e). lia.
  - destruct queue as [|e rest]; simpl in *; [reflexivity|].
    rewrite (size_children e) in *. simpl. f_equal.
    rewrite IH by (rewrite forest_size_app; lia).
    rewrite forest_size_app. f_equal. lia.
Qed.

Lemma walk_length (e : Sqlglot.Expression) :
  List.length (Sqlglot.walk e) = Sqlglot.size e.
Proof.
  unfold Sqlglot.walk. rewrite bfs_length; simpl; lia.
Qed.

(** *** baseline.py: saving and loading *)

Lemma distinct_keys_NoDup (keys : list string) :
  List.NoDup keys -> distinct_keys keys = true.
Proof.
  induction 1 as [|k keys Hnotin Hnodup IH]; simpl; [reflexivity|].
  rewrite IH, andb_true_r, negb_true_iff.
  destruct (existsb (String.eqb k) keys) eqn:He; [|reflexivity].
  apply existsb_exists in He as (k' & Hin & Heq).
  apply String.eqb_eq in Heq. subst k'. contradiction.
Qed.

Lemma model_dump_well_formed (v : BaselineEntry.t) : well_formed (model_dump v) = true.
Proof.
  destruct v as [[x|] [r|] [c|] [h|]]; reflexivity.
Qed.

Lemma validate_entry_model_dump (v : BaselineEntry.t) :
  validate_entry (model_dump v) = Some v.
Proof.
  destruct v as [[x|] [r|] [c|] [h|]]; reflexivity.
Qed.

Lemma validate_items_dump (items : list (string * BaselineEntry.t)) :
  validate_items (List.map dump_item items) = Some items.
Proof.
  induction items as [|[k v] items IH]; [reflexivity|].
  cbn [List.map validate_items dump_item fst snd].
  rewrite validate_entry_model_dump, IH. reflexivity.
Qed.

Lemma dumped_items_well_formed (items : list (string * BaselineEntry.t)) :
  List.NoDup (List.map fst items) ->
  well_formed (JObject (List.map dump_item items)) = true.
Proof.
  intros Hnodup. simpl. apply andb_true_iff. split.
  - rewrite List.map_map. simpl. apply distinct_keys_NoDup. exact Hnodup.
  - clear Hnodup. induction items as [|[k v] items IH]; [reflexivity|].
    cbn [List.map dump_item fst snd].
    rewrite model_dump_well_formed, IH. reflexivity.
Qed.

Lemma load_after_save (path : string) (data : gmap string BaselineEntry.t)
      (fs : FileSystem) :
  load_baseline path (save_baseline path data fs) = Some data.
Proof.
  unfold load_baseline, save_baseline, FileSystem in *.
  rewrite lookup_insert_eq.
  rewrite json_round_trip.
  - rewrite validate_items_dump. rewrite list_to_map_to_list. reflexivity.
  - apply dumped_items_well_formed.
    apply NoDup_ListNoDup. apply NoDup_fst_map_to_list.
Qed.

Lemma eq_opt_float_refl (p : option float) :
  eq_opt PrimFloat.eqb p p = true
  <-> forall x, p = Some x -> PrimFloat.is_nan x = false.
Proof.
  destruct p as [x|]; simpl.
  - unfold PrimFloat.is_nan. split.
    + intros H y Hy. injection Hy as <-. rewrite H. reflexivity.
    + intros H. specialize (H x eq_refl). apply negb_false_iff in H. exact H.
  - split; [discriminate|reflexivity].
Qed.

Lemma entry_eq_refl (e : BaselineEntry.t) :
  entry_eq e e = true
  <-> forall x, BaselineEntry.p95_ms e = Some x -> PrimFloat.is_nan x = false.
Proof.
  unfold entry_eq. rewrite <- eq_opt_float_refl.
  assert (Hz : eq_opt Z.eqb (BaselineEntry.rows_examined e)
                      (BaselineEntry.rows_examined e) = true).
  { destruct (BaselineEntry.rows_examined e); simpl; [apply Z.eqb_refl|reflexivity]. }
  assert (Hs : forall o : option string, eq_opt String.eqb o o = true).
  { intros [s|]; simpl; [apply String.eqb_refl|reflexivity]. }
  rewrite Hz, !Hs, !andb_true_r. reflexivity.
Qed.

(** A baseline map is equal to itself exactly when none of its
    latencies is a NaN. *)
Lemma dict_eq_refl (data : gmap string BaselineEntry.t) :
  dict_eq data data = true <-> nan_free data.
Proof.
  unfold dict_eq, nan_free. rewrite Nat.eqb_refl. simpl.
  rewrite List.forallb_forall. split.
  - intros H k e x Hk Hp.
    assert (Hin : In (k, e) (map_to_list data)).
    { apply list_elem_of_In. apply elem_of_map_to_list. exact Hk. }
    specialize (H _ Hin). simpl in H. rewrite Hk in H.
    exact (proj1 (entry_eq_refl e) H x Hp).
  - intros H [k e] Hin. simpl.
    apply list_elem_of_In in Hin. apply elem_of_map_to_list in Hin.
    rewrite Hin. apply (proj2 (entry_eq_refl e)). intros x Hp. exact (H k e x Hin Hp).
Qed.

(** C8, amended.  For every baseline map, path and file system,
    loading the path after saving the map to it returns a map with
    the same keys and the same fields in each entry; this map is
    equal to the original one under [==] exactly when no latency of
    the map is a NaN. *)
Theorem baseline_round_trip (path : string) (data : gmap string BaselineEntry.t)
        (fs : FileSystem) :
  exists loaded,
    load_baseline path (save_baseline path data fs) = Some loaded
    /\ loaded = data
    /\ (dict_eq loaded data = true <-> nan_free data).
Proof.
  exists data. split; [apply load_after_save|]. split; [reflexivity|].
  apply dict_eq_refl.
Qed.

(** *** static_rules.py: the findings of a query *)

Lemma rule_select_star_cases (query : Query.t) (config : PolicyConfig.t)
      (expression : Sqlglot.Expression) :
  rule_select_star query config expression = []
  \/ (rule_select_star query config expression
      = [StaticFinding.Make "select_star" (_severity config "select_star")
                            "Query selects all columns with '*'."]
      /\ rule_enabled config "select_star" = true
      /\ Sqlglot.isinstance expression "select" = true).
Proof.
  unfold rule_select_star, rule_enabled. simpl.
  destruct (StaticRuleSettings.forbid_select_star _); simpl; [|left; reflexivity].
  destruct (Sqlglot.isinstance expression "select"); simpl; [|left; reflexivity].
  destruct (existsb _ _); [right|left]; auto.
Qed.

Lemma rule_update_delete_cases (query : Query.t) (config : PolicyConfig.t)
      (expression : Sqlglot.Expression) :
  rule_update_delete_without_where query config expression = []
  \/ (rule_update_delete_without_where query config expression
      = [StaticFinding.Make "update_delete_without_where"
                            (_severity config "update_delete_without_where")
                            "UPDATE/DELETE statement without WHERE clause."]
      /\ rule_enabled config "update_delete_without_where" = true
      /\ (Sqlglot.isinstance expression "update" = true
          \/ Sqlglot.isinstance expression "delete" = true)).
Proof.
  unfold rule_update_delete_without_where, rule_enabled. simpl.
  destruct (StaticRuleSettings.forbid_update_delete_without_where _); simpl;
    [|left; reflexivity].
  destruct (Sqlglot.isinstance expression "update") eqn:Hu;
    destruct (Sqlglot.isinstance expression "delete") eqn:Hd; simpl;
    try (left; reflexivity);
    destruct (negb _); try (left; reflexivity); right; auto.
Qed.

Lemma rule_like_shape (query : Query.t) (config : PolicyConfig.t)
      (expression : Sqlglot.Expression) :
  exists n,
    rule_leading_wildcard_like query config expression
    = List.repeat (StaticFinding.Make
                     "leading_wildcard_like" (_severity config "leading_wildcard_like")
                     "LIKE pattern starts with a wildcard, which is non-sargable.") n
    /\ (n <> O -> rule_enabled config "leading_wildcard_like" = true).
Proof.
  unfold rule_leading_wildcard_like, rule_enabled. simpl.
  destruct (StaticRuleSettings.forbid_leading_wildcard_like _); simpl;
    [|exists O; split; [reflexivity|congruence]].
  induction (Sqlglot.find_all "like" expression) as [|like likes (n & IH & _)]; simpl.
  - exists O. split; [reflexivity|congruence].
  - rewrite IH. destruct (like_pattern like) as [pattern|].
    + destruct (Py.startswith _ _).
      * exists (S n). split; reflexivity.
      * exists n. split; reflexivity.
    + exists n. split; reflexivity.
Qed.

Lemma rule_non_sargable_cases (query : Query.t) (config : PolicyConfig.t)
      (expression : Sqlglot.Expression) :
  rule_non_sargable_predicate query config expression = []
  \/ rule_non_sargable_predicate query config expression
     = [StaticFinding.Make "non_sargable_predicate"
                           (_severity config "non_sargable_predicate")
                           "Non-sargable predicate using a function on a column."].
Proof.
  unfold rule_non_sargable_predicate.
  destruct (Sqlglot.get_exp "where" expression); [|left; reflexivity].
  destruct (existsb _ _); [right|left]; reflexivity.
Qed.

Lemma rule_long_in_list_ids (query : Query.t) (config : PolicyConfig.t)
      (expression : Sqlglot.Expression) :
  List.map StaticFinding.rule_id (rule_long_in_list query config expression)
  = List.repeat "long_in_list" (List.length (long_in_lists config expression))
  /\ Forall (fun f => StaticFinding.severity f = _severity config "long_in_list")
            (rule_long_in_list query config expression).
Proof.
  unfold rule_long_in_list, long_in_lists.
  induction (Sqlglot.find_all "in" expression) as [|in_expr rest [IHi IHs]]; simpl.
  - split; [reflexivity|constructor].
  - destruct (in_list_items in_expr) as [es|]; simpl; [|split; assumption].
    destruct (_ <? _); simpl; [|split; assumption].
    split; [rewrite IHi; reflexivity|]. constructor; [reflexivity|assumption].
Qed.

Lemma analyze_query_parsed (query : Query.t) (config : PolicyConfig.t)
      (expression : Sqlglot.Expression) :
  parse_one (Query.sql query) = Some expression ->
  analyze_query query config
  = rule_select_star query config expression
    ++ rule_update_delete_without_where query config expression
    ++ rule_leading_wildcard_like query config expression
    ++ rule_non_sargable_predicate query config expression
    ++ rule_long_in_list query config expression.
Proof.
  intros H. unfold analyze_query. rewrite H. simpl. rewrite List.app_nil_r. reflexivity.
Qed.

Lemma select_is_not_update (expression : Sqlglot.Expression) :
  Sqlglot.isinstance expression "select" = true ->
  Sqlglot.isinstance expression "update" = true
  \/ Sqlglot.isinstance expression "delete" = true ->
  False.
Proof.
  unfold Sqlglot.isinstance. intros Hs [H|H];
    apply String.eqb_eq in Hs; rewrite Hs in H; discriminate H.
Qed.

(** X1.  The rule ids of the findings of a query, in the order the rules are
    declared: at most one select_star or one update_delete_without_where
    (never both), then the leading_wildcard_like findings, at most one
    non_sargable_predicate, and the long_in_list findings. *)
Theorem findings_follow_rule_order (query : Query.t) (config : PolicyConfig.t) :
  exists (star update sargable : bool) (likes lists : nat),
    List.map StaticFinding.rule_id (analyze_query query config)
    = (if star then ["select_star"] else [])
      ++ (if update then ["update_delete_without_where"] else [])
      ++ List.repeat "leading_wildcard_like" likes
      ++ (if sargable then ["non_sargable_predicate"] else [])
      ++ List.repeat "long_in_list" lists
    /\ star && update = false.
Proof.
  destruct (parse_one (Query.sql query)) as [expression|] eqn:Hparse.
  - rewrite (analyze_query_parsed _ _ _ Hparse), !List.map_app.
    destruct (rule_like_shape query config expression) as (n & -> & _).
    destruct (rule_long_in_list_ids query config expression) as (-> & _).
    rewrite List.map_repeat. simpl StaticFinding.rule_id.
    destruct (rule_select_star_cases query config expression) as [-> | (-> & _ & Hs)];
      destruct (rule_update_delete_cases query config expression)
        as [-> | (-> & _ & Hu)];
      destruct (rule_non_sargable_cases query config expression) as [-> | ->].
    all: try (exfalso; exact (select_is_not_update _ Hs Hu)).
    + exists false, false, false, n; eexists; split; reflexivity.
    + exists false, false, true, n; eexists; split; reflexivity.
    + exists false, true, false, n; eexists; split; reflexivity.
    + exists false, true, true, n; eexists; split; reflexivity.
    + exists true, false, false, n; eexists; split; reflexivity.
    + exists true, false, true, n; eexists; split; reflexivity.
  - unfold analyze_query. rewrite Hparse.
    exists false, false, false, O, O. split; reflexivity.
Qed.

(** X2.  Every finding carries the key of one of the five rules, the
    severity the policy gives to that rule, and comes from a rule that
    the policy has not switched off. *)
Theorem findings_carry_policy (query : Query.t) (config : PolicyConfig.t) :
  Forall (fun f =>
            In (StaticFinding.rule_id f) rule_keys
            /\ StaticFinding.severity f = _severity config (StaticFinding.rule_id f)
            /\ rule_enabled config (StaticFinding.rule_id f) = true)
         (analyze_query query config).
Proof.
  destruct (parse_one (Query.sql query)) as [expression|] eqn:Hparse.
  - rewrite (analyze_query_parsed _ _ _ Hparse).
    repeat (apply List.Forall_app; split).
    + destruct (rule_select_star_cases query config expression) as [-> | (-> & He & _)];
        [constructor|].
      constructor; [|constructor]. simpl. split; [auto|]. split; [reflexivity|exact He].
    + destruct (rule_update_delete_cases query config expression)
        as [-> | (-> & He & _)]; [constructor|].
      constructor; [|constructor]. simpl. split; [auto|]. split; [reflexivity|exact He].
    + destruct (rule_like_shape query config expression) as (n & -> & He).
      destruct n as [|n]; [constructor|]. specialize (He ltac:(discriminate)).
      apply List.Forall_forall. intros f Hf. apply List.repeat_spec in Hf. subst f.
      simpl. split; [auto 6|]. split; [reflexivity|exact He].
    + destruct (rule_non_sargable_cases query config expression) as [-> | ->];
        [constructor|].
      constructor; [|constructor]. simpl. split; [auto 6|]. split; reflexivity.
    + destruct (rule_long_in_list_ids query config expression) as (Hi & Hs).
      apply List.Forall_forall. intros f Hf.
      assert (Hid : StaticFinding.rule_id f = "long_in_list").
      { apply (List.in_map StaticFinding.rule_id) in Hf. rewrite Hi in Hf.
        apply List.repeat_spec in Hf. exact Hf. }
      rewrite List.Forall_forall in Hs. rewrite Hid, (Hs f Hf).
      simpl. split; [auto 8|]. split; reflexivity.
  - unfold analyze_query. rewrite Hparse. constructor.
Qed.

(** X3.  The rule of the IN lists reports each offending list once: a query
    has as many long_in_list findings as its tree has IN nodes with more
    items than the policy allows, and none where it does not parse. *)
Theorem one_finding_per_long_in_list (query : Query.t) (config : PolicyConfig.t) :
  List.length (List.filter (has_rule "long_in_list") (analyze_query query config))
  = match parse_one (Query.sql query) with
    | Some expression => List.length (long_in_lists config expression)
    | None => O
    end.
Proof.
  destruct (parse_one (Query.sql query)) as [expression|] eqn:Hparse.
  - rewrite (analyze_query_parsed _ _ _ Hparse), !List.filter_app, !List.length_app.
    assert (Hnone : forall l : list StaticFinding.t,
               Forall (fun f => String.eqb (StaticFinding.rule_id f) "long_in_list" = false) l ->
               List.length (List.filter (has_rule "long_in_list") l) = O).
    { induction 1 as [|f l Hf _ IH]; simpl; [reflexivity|].
      unfold has_rule at 1. rewrite Hf. exact IH. }
    rewrite (Hnone (rule_select_star query config expression)),
            (Hnone (rule_update_delete_without_where query config expression)),
            (Hnone (rule_leading_wildcard_like query config expression)),
            (Hnone (rule_non_sargable_predicate query config expression)).
    + simpl. destruct (rule_long_in_list_ids query config expression) as (Hi & _).
      rewrite <- (List.length_map StaticFinding.rule_id).
      assert (Hf : forall l : list StaticFinding.t,
                 List.map StaticFinding.rule_id (List.filter (has_rule "long_in_list") l)
                 = List.filter (fun id => String.eqb id "long_in_list")
                               (List.map StaticFinding.rule_id l)).
      { induction l as [|f l IH]; simpl; [reflexivity|].
        unfold has_rule at 1. destruct (String.eqb _ _); simpl; rewrite IH; reflexivity. }
      rewrite Hf, Hi.
      generalize (List.length (long_in_lists config expression)) as n.
      induction n as [|n IH]; simpl; [reflexivity|]. rewrite IH. reflexivity.
    + destruct (rule_non_sargable_cases query config expression) as [-> | ->];
        repeat constructor.
    + destruct (rule_like_shape query config expression) as (n & -> & _).
      apply List.Forall_forall. intros f Hf. apply List.repeat_spec in Hf. subst f.
      reflexivity.
    + destruct (rule_update_delete_cases query config expression) as [-> | (-> & _)];
        repeat constructor.
    + destruct (rule_select_star_cases query config expression) as [-> | (-> & _)];
        repeat constructor.
  - unfold analyze_query. rewrite Hparse. reflexivity.
Qed.

(** *** optimizer.py: the suggestions of a query *)

Lemma append_not_empty (a b : string) : b <> "" -> Py.truthy_str (a +:+ b) = true.
Proof.
  intros Hb. unfold Py.truthy_str. apply negb_true_iff.
  destruct a as [|c a]; simpl.
  - destruct b; [contradiction|reflexivity].
  - reflexivity.
Qed.

Lemma parts_well_shaped (query : Query.t) (dynamic : option DynamicMetrics.t)
      (expression : Sqlglot.Expression) :
  Forall (fun s => well_shaped query s /\ Suggestion.validated_improvement s = None)
         (index_part query dynamic expression
            ++ date_part query expression
            ++ offset_part query expression
            ++ in_part query expression
            ++ fulltext_part query expression).
Proof.
  repeat (apply List.Forall_app; split).
  - destruct (index_part_cases query dynamic expression) as [-> | (t & c & ->)];
      repeat constructor. simpl. eauto.
  - destruct (date_part_cases query expression) as [-> | (c & ->)];
      repeat constructor. simpl. eexists. reflexivity.
  - destruct (offset_part_cases query expression) as [-> | ->];
      repeat constructor. simpl. eexists. reflexivity.
  - destruct (in_part_cases query expression) as [-> | (c & v & ->)];
      repeat constructor. simpl.
    exists ("Consider " +:+ c +:+ " IN (" +:+ Py.join ", " v +:+ ")"). reflexivity.
  - destruct (fulltext_part_cases query expression) as [-> | ->];
      repeat constructor. simpl. eexists. reflexivity.
Qed.

Lemma validate_well_shaped (query : Query.t) (conn : option Conn) (s : Suggestion.t) :
  well_shaped query s -> well_shaped query (validate query conn s).
Proof.
  intros (Hb & Hs).
  destruct (validate_preserves query conn s) as (_ & Hty & Hddl & Haft).
  unfold well_shaped. rewrite Hty, Hddl, Haft. split.
  - rewrite <- Hb. unfold validate.
    destruct conn as [c|]; [|reflexivity].
    destruct (Suggestion.sql_after s) as [after|]; [|reflexivity].
    destruct (Py.truthy_str after); reflexivity.
  - destruct (Suggestion.type s); [exact Hs|].
    destruct Hs as (Ha & Hd & Hv). split; [exact Ha|]. split; [exact Hd|].
    unfold validate. rewrite Ha. destruct conn; exact Hv.
Qed.

(** X4.  A suggestion never alters the statement: each one carries the
    normalized SQL as [sql_before]; an index suggestion has a DDL, no
    rewritten text and no validated metrics; a rewrite has no DDL and
    its rewritten text is the statement followed by a line comment. *)
Theorem suggestions_are_well_shaped (query : Query.t)
        (dynamic : option DynamicMetrics.t) (conn : option Conn) :
  Forall (well_shaped query) (optimize_query query dynamic conn).
Proof.
  unfold optimize_query.
  destruct (parse_one (Query.sql query)) as [expression|]; [|constructor].
  apply List.Forall_map.
  eapply List.Forall_impl; [|apply parts_well_shaped].
  intros s (Hs & _). apply validate_well_shaped. exact Hs.
Qed.

(** X5.  Without a connection no suggestion carries validated metrics.  With
    one, every rewrite carries what the plan probe returns for its
    rewritten text, sent under the id of the suggestion and the place
    of the query, and nothing where the probe raises; the index
    suggestion is never probed. *)
Theorem validation_probes_rewrites (query : Query.t)
        (dynamic : option DynamicMetrics.t) (conn : option Conn) :
  Forall (fun s =>
            Suggestion.validated_improvement s
            = match conn, Suggestion.sql_after s with
              | Some c, Some after =>
                  run_explain_analyze (validation_query query s after) c
              | _, _ => None
              end)
         (optimize_query query dynamic conn).
Proof.
  unfold optimize_query.
  destruct (parse_one (Query.sql query)) as [expression|]; [|constructor].
  apply List.Forall_map.
  eapply List.Forall_impl; [|apply parts_well_shaped].
  intros s ((Hb & Hs) & Hnone).
  destruct (validate_preserves query conn s) as (_ & _ & _ & Hafter).
  rewrite Hafter. unfold validate.
  destruct conn as [c|]; [|exact Hnone].
  destruct (Suggestion.sql_after s) as [after|] eqn:Ha; [|exact Hnone].
  destruct (Suggestion.type s).
  - destruct Hs as (_ & note & Hn). injection Hn as ->.
    rewrite append_not_empty by discriminate. reflexivity.
  - destruct Hs as (Hn & _). discriminate Hn.
Qed.

(** X6.  The suggestions come in the order of the heuristics: index, date,
    offset, IN list, full text, each at most once. *)
Theorem suggestions_follow_heuristic_order (query : Query.t)
        (dynamic : option DynamicMetrics.t) (conn : option Conn) :
  exists index date offset in_list fulltext : bool,
    List.map Suggestion.suggestion_id (optimize_query query dynamic conn)
    = (if index then [Query.id query +:+ "-idx"] else [])
      ++ (if date then [Query.id query +:+ "-date"] else [])
      ++ (if offset then [Query.id query +:+ "-offset"] else [])
      ++ (if in_list then [Query.id query +:+ "-in"] else [])
      ++ (if fulltext then [Query.id query +:+ "-fulltext"] else []).
Proof.
  unfold optimize_query.
  destruct (parse_one (Query.sql query)) as [expression|];
    [|exists false, false, false, false, false; reflexivity].
  rewrite map_validate_ids, !List.map_app.
  destruct (index_part_cases query dynamic expression) as [-> | (t & c & ->)];
    destruct (date_part_cases query expression) as [-> | (cs & ->)];
    destruct (offset_part_cases query expression) as [-> | ->];
    destruct (in_part_cases query expression) as [-> | (col & vs & ->)];
    destruct (fulltext_part_cases query expression) as [-> | ->].
  all: match goal with
       | |- context [index_suggestion] => exists true
       | _ => exists false
       end;
       match goal with
       | |- context [date_suggestion] => exists true
       | _ => exists false
       end;
       match goal with
       | |- context [offset_suggestion] => exists true
       | _ => exists false
       end;
       match goal with
       | |- context [in_suggestion] => exists true
       | _ => exists false
       end;
       match goal with
       | |- context [fulltext_suggestion] => exists true
       | _ => exists false
       end; reflexivity.
Qed.

(** *** The wildcard test of the optimizer and that of the rule *)

Lemma string_of_list_app (l1 l2 : list ascii) :
  string_of_list_ascii (l1 ++ l2) = string_of_list_ascii l1 +:+ string_of_list_ascii l2.
Proof.
  induction l1 as [|c l1 IH]; [reflexivity|]. exact (f_equal (String c) IH).
Qed.

Lemma list_of_string_app (a b : string) :
  list_ascii_of_string (a +:+ b) = list_ascii_of_string a ++ list_ascii_of_string b.
Proof.
  induction a as [|c a IH]; [reflexivity|]. exact (f_equal (cons c) IH).
Qed.

Lemma rev_string_app (a b : string) :
  Py.rev_string (a +:+ b) = Py.rev_string b +:+ Py.rev_string a.
Proof.
  unfold Py.rev_string.
  rewrite list_of_string_app, List.rev_app_distr. apply string_of_list_app.
Qed.

Lemma rev_string_cons (c : ascii) (s : string) :
  Py.rev_string (String c s) = Py.rev_string s +:+ String c "".
Proof. apply (rev_string_app (String c "") s). Qed.

Lemma rev_string_involutive (s : string) : Py.rev_string (Py.rev_string s) = s.
Proof.
  unfold Py.rev_string.
  rewrite list_ascii_of_string_of_list_ascii, List.rev_involutive.
  apply string_of_list_ascii_of_string.
Qed.

Lemma append_assoc (a b c : string) : (a +:+ b) +:+ c = a +:+ (b +:+ c).
Proof.
  induction a as [|x a IH]; [reflexivity|]. exact (f_equal (String x) IH).
Qed.

Lemma append_empty_r (a : string) : a +:+ "" = a.
Proof.
  induction a as [|x a IH]; [reflexivity|]. exact (f_equal (String x) IH).
Qed.

(** Stripping on the left stops at the first character outside the set. *)
Lemma lstrip_chars_stops (cs : list ascii) (x : string) (c : ascii) (y : string) :
  Py.mem_ascii c cs = false ->
  Py.lstrip_chars cs (x +:+ String c y) = Py.lstrip_chars cs x +:+ String c y.
Proof.
  intros Hc. induction x as [|d x IH]; simpl.
  - rewrite Hc. reflexivity.
  - destruct (Py.mem_ascii d cs); [exact IH|reflexivity].
Qed.

Lemma lstrip_chars_suffix (cs : list ascii) (s : string) :
  exists stripped, s = stripped +:+ Py.lstrip_chars cs s
                   /\ Py.lstrip_chars cs stripped = "".
Proof.
  induction s as [|d s (w & Hw & He)]; simpl.
  - exists "". split; reflexivity.
  - destruct (Py.mem_ascii d cs) eqn:Hd.
    + exists (String d w). split; [exact (f_equal (String d) Hw)|].
      simpl. rewrite Hd. exact He.
    + exists "". split; reflexivity.
Qed.

Lemma lstrip_chars_head (cs : list ascii) (s : string) (c : ascii) (r : string) :
  Py.lstrip_chars cs s = String c r -> Py.mem_ascii c cs = false.
Proof.
  induction s as [|d s IH]; simpl; [discriminate|].
  destruct (Py.mem_ascii d cs) eqn:Hd; [exact IH|].
  intros H. injection H as <- _. exact Hd.
Qed.

(** Stripping on the right keeps everything up to the last character
    outside the set. *)
Lemma rstrip_chars_keeps (cs : list ascii) (a : string) (c : ascii) (b : string) :
  Py.mem_ascii c cs = false ->
  Py.rev_string (Py.lstrip_chars cs (Py.rev_string (a +:+ String c b)))
  = a +:+ String c (Py.rev_string (Py.lstrip_chars cs (Py.rev_string b))).
Proof.
  intros Hc.
  rewrite rev_string_app, rev_string_cons, append_assoc.
  change (String c "" +:+ Py.rev_string a) with (String c (Py.rev_string a)).
  rewrite (lstrip_chars_stops _ _ _ _ Hc), rev_string_app, rev_string_cons.
  rewrite rev_string_involutive, append_assoc. reflexivity.
Qed.

Lemma rstrip_chars_prefix (cs : list ascii) (u : string) :
  exists w, u = Py.rev_string (Py.lstrip_chars cs (Py.rev_string u)) +:+ w.
Proof.
  destruct (lstrip_chars_suffix cs (Py.rev_string u)) as (w & Hw & _).
  exists (Py.rev_string w).
  rewrite <- rev_string_app, <- Hw. symmetry. apply rev_string_involutive.
Qed.

Lemma quote_is_not_whitespace (x : ascii) :
  Py.mem_ascii x Py.quote_chars = true -> Py.mem_ascii x Py.whitespace = false.
Proof.
  unfold Py.mem_ascii. intros H. apply existsb_exists in H as (q & Hq & He).
  apply Ascii.eqb_eq in He. subst q.
  simpl in Hq. destruct Hq as [<-|[<-|[]]]; reflexivity.
Qed.

Lemma startswith_percent (s : string) :
  Py.startswith "%" s = true <-> exists r, s = String "%" r.
Proof.
  unfold Py.startswith. destruct s as [|c r].
  - split; [discriminate|]. intros (r & H). discriminate H.
  - change (String.prefix "%" (String c r))
      with (if ascii_dec "%" c then String.prefix "" r else false).
    destruct (ascii_dec "%" c) as [<-|Hne].
    + split; [eauto|]. intros _. destruct r; reflexivity.
    + split; [discriminate|]. intros (r' & H). congruence.
Qed.

(** A text that starts with a percent sign once its quotes are stripped
    still does when its white space is stripped first. *)
Lemma wildcard_test_of_rule (text : string) :
  Py.startswith "%" (Py.strip_chars Py.quote_chars text) = true ->
  Py.startswith "%" (Py.strip_chars Py.quote_chars (Py.strip text)) = true.
Proof.
  unfold Py.strip, Py.strip_chars. intros H.
  assert (Hpercent_q : Py.mem_ascii "%" Py.quote_chars = false) by reflexivity.
  assert (Hpercent_w : Py.mem_ascii "%" Py.whitespace = false) by reflexivity.
  (* the text is quotes, a percent sign, and the rest *)
  destruct (rstrip_chars_prefix Py.quote_chars (Py.lstrip_chars Py.quote_chars text))
    as (w & Hw).
  apply startswith_percent in H as (p & Hp). rewrite Hp in Hw.
  destruct (lstrip_chars_suffix Py.quote_chars text) as (quotes & Htext & Hquotes).
  rewrite Hw in Htext. clear Hp Hw.
  change (String "%" p +:+ w) with (String "%" (p +:+ w)) in Htext.
  set (rest := p +:+ w) in *. clearbody rest. clear p w.
  (* white space on the left: none *)
  assert (Hleft : Py.lstrip_chars Py.whitespace text = text).
  { rewrite Htext. destruct quotes as [|x quotes].
    - change ("" +:+ ?y) with y. cbn [Py.lstrip_chars].
      rewrite Hpercent_w. reflexivity.
    - change (String x quotes +:+ ?y) with (String x (quotes +:+ y)).
      cbn [Py.lstrip_chars]. cbn [Py.lstrip_chars] in Hquotes.
      destruct (Py.mem_ascii x Py.quote_chars) eqn:Hx.
      + rewrite (quote_is_not_whitespace _ Hx). reflexivity.
      + discriminate Hquotes. }
  rewrite Hleft, Htext.
  rewrite (rstrip_chars_keeps _ _ _ _ Hpercent_w).
  rewrite (lstrip_chars_stops _ _ _ _ Hpercent_q), Hquotes.
  change ("" +:+ ?y) with y.
  change (String "%" ?r) with ("" +:+ String "%" r).
  rewrite (rstrip_chars_keeps Py.quote_chars "" _ _ Hpercent_q).
  apply startswith_percent. eexists. reflexivity.
Qed.

Lemma fulltext_suggestion_emitted (query : Query.t) (dynamic : option DynamicMetrics.t)
      (conn : option Conn) (expression : Sqlglot.Expression) :
  parse_one (Query.sql query) = Some expression ->
  In (Query.id query +:+ "-fulltext")
     (List.map Suggestion.suggestion_id (optimize_query query dynamic conn)) ->
  _leading_wildcard_like expression = true.
Proof.
  intros Hparse Hin.
  apply List.in_map_iff in Hin as (s & Hid & Hin).
  apply (in_optimize_query _ _ _ _ _ Hparse) in Hin as (s0 & -> & Hin).
  destruct (validate_preserves query conn s0) as (Hv & _). rewrite Hv in Hid.
  destruct Hin as [Hin|[Hin|[Hin|[Hin|Hin]]]].
  - destruct (index_part_cases query dynamic expression) as [E|(t & c & E)];
      rewrite E in Hin; simpl in Hin; [contradiction|].
    destruct Hin as [<-|[]]. other_tag Hid.
  - destruct (date_part_cases query expression) as [E|(c & E)];
      rewrite E in Hin; simpl in Hin; [contradiction|].
    destruct Hin as [<-|[]]. other_tag Hid.
  - destruct (offset_part_cases query expression) as [E|E];
      rewrite E in Hin; simpl in Hin; [contradiction|].
    destruct Hin as [<-|[]]. other_tag Hid.
  - destruct (in_part_cases query expression) as [E|(c & v & E)];
      rewrite E in Hin; simpl in Hin; [contradiction|].
    destruct Hin as [<-|[]]. other_tag Hid.
  - unfold fulltext_part in Hin.
    destruct (_leading_wildcard_like expression); [reflexivity|contradiction].
Qed.

(** X7.  Whenever the optimizer suggests a full-text index for a parsed
    query, the rule engine, with the rule of the leading wildcards
    switched on, reports a leading_wildcard_like finding for it. *)
Theorem fulltext_suggestion_has_finding (query : Query.t) (config : PolicyConfig.t)
        (dynamic : option DynamicMetrics.t) (conn : option Conn)
        (expression : Sqlglot.Expression) :
  parse_one (Query.sql query) = Some expression ->
  StaticRuleSettings.forbid_leading_wildcard_like (PolicyConfig.static_rules config)
  = true ->
  In (Query.id query +:+ "-fulltext")
     (List.map Suggestion.suggestion_id (optimize_query query dynamic conn)) ->
  In "leading_wildcard_like"
     (List.map StaticFinding.rule_id (analyze_query query config)).
Proof.
  intros Hparse Hflag Hin.
  apply (fulltext_suggestion_emitted _ _ _ _ Hparse) in Hin.
  rewrite (analyze_query_parsed _ _ _ Hparse), !List.map_app, !List.in_app_iff.
  right. right. left.
  unfold _leading_wildcard_like in Hin. unfold rule_leading_wildcard_like.
  rewrite Hflag. simpl.
  apply existsb_exists in Hin as (like & Hlike & Htest).
  apply List.in_map_iff. eexists. split; [|apply List.in_flat_map; exists like; split;
                                             [exact Hlike|]].
  2: { destruct (like_pattern like) as [pattern|]; [|discriminate Htest].
       rewrite (wildcard_test_of_rule _ Htest). left. reflexivity. }
  reflexivity.
Qed.

(** *** dynamic_runner.py: searching a plan *)

Lemma Json_induction (P : Json -> Prop) :
  P JNull ->
  (forall b, P (JBool b)) ->
  (forall z, P (JInt z)) ->
  (forall x, P (JFloat x)) ->
  (forall s, P (JStr s)) ->
  (forall items, Forall P items -> P (JList items)) ->
  (forall members, Forall (fun kv => P (snd kv)) members -> P (JObject members)) ->
  forall v, P v.
Proof.
  intros Hnull Hbool Hint Hfloat Hstr Hlist Hobj.
  fix IH 1. intros [ |b|z|x|s|items|members].
  - exact Hnull.
  - apply Hbool.
  - apply Hint.
  - apply Hfloat.
  - apply Hstr.
  - apply Hlist. induction items as [|item items IHitems]; constructor.
    + apply IH.
    + exact IHitems.
  - apply Hobj. induction members as [|[k v] members IHmembers]; constructor.
    + apply IH.
    + exact IHmembers.
Qed.

Lemma not_none_some (v found : Json) :
  PyJson.not_none v = Some found -> found = v /\ v <> JNull.
Proof.
  destruct v; simpl; intros H; try discriminate H;
    injection H as <-; split; (reflexivity || discriminate).
Qed.

Lemma search_keys_sound (obj : Json) (keys : list string) (found : Json) :
  _search_keys obj keys = Some found ->
  found <> JNull /\ held_under keys found obj.
Proof.
  revert found. induction obj as [ | | | | |items IH|members IH] using Json_induction;
    intros found; simpl; try discriminate.
  - induction IH as [|item items Hitem _ IHitems]; [discriminate|].
    destruct (_search_keys item keys) as [f|] eqn:Hf.
    + intros H. injection H as ->. destruct (Hitem _ eq_refl) as (Hn & Hh).
      split; [exact Hn|]. apply held_in_item with item; [left; reflexivity|exact Hh].
    + intros H. destruct (IHitems H) as (Hn & Hh). split; [exact Hn|].
      inversion Hh as [| |items' child Hin Hc]; subst.
      apply held_in_item with child; [right; exact Hin|exact Hc].
  - induction IH as [|[k v] members Hv _ IHmembers]; [discriminate|].
    simpl in Hv. destruct (mem_str k keys) eqn:Hk.
    + intros H. apply not_none_some in H as (-> & Hn). split; [exact Hn|].
      apply held_here with k; [left; reflexivity|apply mem_str_In; exact Hk].
    + destruct (_search_keys v keys) as [f|] eqn:Hf.
      * intros H. injection H as ->. destruct (Hv _ eq_refl) as (Hn & Hh).
        split; [exact Hn|]. apply held_in_member with k v; [left; reflexivity|exact Hh].
      * intros H. destruct (IHmembers H) as (Hn & Hh). split; [exact Hn|].
        inversion Hh as [members' k' Hin Hkeys|members' k' child Hin Hc| ]; subst.
        -- apply held_here with k'; [right; exact Hin|exact Hkeys].
        -- apply held_in_member with k' child; [right; exact Hin|exact Hc].
Qed.

Lemma held_under_mentions (keys : list string) (v obj : Json) :
  held_under keys v obj -> mentions keys obj = true.
Proof.
  induction 1 as [members k Hin Hk|members k child Hin _ IH|items child Hin _ IH]; simpl.
  - induction members as [|[k' v'] members IHm]; [contradiction|].
    destruct Hin as [Heq|Hin].
    + injection Heq as -> ->. apply mem_str_In in Hk. rewrite Hk. reflexivity.
    + rewrite (IHm Hin). apply orb_true_r.
  - induction members as [|[k' v'] members IHm]; [contradiction|].
    destruct Hin as [Heq|Hin].
    + injection Heq as -> ->. rewrite IH, orb_true_r. reflexivity.
    + rewrite (IHm Hin). apply orb_true_r.
  - induction items as [|item items IHi]; [contradiction|].
    destruct Hin as [->|Hin].
    + rewrite IH. reflexivity.
    + rewrite (IHi Hin). apply orb_true_r.
Qed.

(** X8.  What the search of a plan returns is never [None] in disguise and
    is the value held under one of the keys, in the plan or in an
    object nested in it; a plan that mentions none of the keys gives
    [None]. *)
Theorem search_keys_finds_held_values (obj : Json) (keys : list string) :
  match _search_keys obj keys with
  | Some found => found <> JNull /\ held_under keys found obj
  | None => True
  end
  /\ (mentions keys obj = false -> _search_keys obj keys = None).
Proof.
  split.
  - destruct (_search_keys obj keys) as [found|] eqn:H; [|exact I].
    apply search_keys_sound. exact H.
  - intros Hm. destruct (_search_keys obj keys) as [found|] eqn:H; [|reflexivity].
    apply search_keys_sound in H as (_ & Hh).
    apply held_under_mentions in Hh. congruence.
Qed.

(** X9.  A member of an object whose key is searched and whose value is
    [null] ends the search of the object: the members after it are not
    looked at, whatever they hold. *)
Theorem null_member_ends_search (k : string) (before rest : list (string * Json))
        (keys : list string) :
  In k keys ->
  _search_keys (JObject (before ++ (k, JNull) :: rest)) keys
  = _search_keys (JObject before) keys.
Proof.
  intros Hk. apply mem_str_In in Hk. simpl.
  induction before as [|[k' v'] before IH]; simpl.
  - rewrite Hk. reflexivity.
  - destruct (mem_str k' keys); [reflexivity|].
    destruct (_search_keys v' keys); [reflexivity|]. exact IH.
Qed.

(** *** dynamic_runner.py: the metrics of a plan *)

Lemma search_keys_held (plan : Json) (keys : list string) (found : Json) :
  _search_keys plan keys = Some found -> held_under keys found plan.
Proof. intros H. apply search_keys_sound in H. apply H. Qed.

(** X10.  Whatever [parse_explain_plan] returns for a plan that is not empty
    keeps the plan and its hash, and every other field it sets comes
    from the plan: the rows are the integer of a value held under one
    of the row keys, each flag is the truth of a value held under one
    of its keys, and the chosen key is a string held under one of the
    key names. *)
Theorem parsed_metrics_come_from_plan (plan : Json) :
  PyJson.truthy plan = true ->
  match parse_explain_plan plan with
  | Some metrics =>
      DynamicMetrics.plan_json metrics = Some plan
      /\ DynamicMetrics.plan_hash metrics = Some (_compute_plan_hash plan)
      /\ (forall rows, DynamicMetrics.rows_examined metrics = Some rows ->
                       exists v, held_under rows_names v plan /\ int_of_json v = Some rows)
      /\ (forall flag, DynamicMetrics.using_filesort metrics = Some flag ->
                       exists v, held_under filesort_names v plan /\ PyJson.truthy v = flag)
      /\ (forall flag, DynamicMetrics.using_temp_table metrics = Some flag ->
                       exists v, held_under temp_table_names v plan
                                 /\ PyJson.truthy v = flag)
      /\ (forall key, DynamicMetrics.chosen_key metrics = Some key ->
                      held_under key_names (JStr key) plan)
  | None => True
  end.
Proof.
  intros Htruthy. unfold parse_explain_plan. rewrite Htruthy. simpl negb. cbv iota.
  destruct plan as [ | | | | | |members]; try exact I.
  remember (JObject members) as plan eqn:Hplan.
  destruct (plan_latency plan _ "p95" p95_names) as [p95|]; [|exact I].
  destruct (plan_latency plan _ "avg" avg_names) as [avg|]; [|exact I].
  destruct (_search_keys plan rows_names) as [rows_candidate|] eqn:Hrows;
    [destruct (int_of_json rows_candidate) as [rows|] eqn:Hint; [|exact I]|];
    destruct (_search_keys plan filesort_names) as [filesort|] eqn:Hfilesort;
    destruct (_search_keys plan temp_table_names) as [temp|] eqn:Htemp;
    destruct (_search_keys plan key_names) as [key_candidate|] eqn:Hkey;
    cbn [option_map DynamicMetrics.plan_json DynamicMetrics.plan_hash
         DynamicMetrics.rows_examined DynamicMetrics.using_filesort
         DynamicMetrics.using_temp_table DynamicMetrics.chosen_key];
    repeat apply conj; try reflexivity;
    try (intros r Hr; discriminate Hr).
  all: try (intros r Hr; injection Hr as <-; exists rows_candidate;
            split; [exact (search_keys_held _ _ _ Hrows)|exact Hint]).
  all: try (intros flag Hf; injection Hf as <-; exists filesort;
            split; [exact (search_keys_held _ _ _ Hfilesort)|reflexivity]).
  all: try (intros flag Hf; injection Hf as <-; exists temp;
            split; [exact (search_keys_held _ _ _ Htemp)|reflexivity]).
  all: intros key Hk; destruct key_candidate; try discriminate Hk;
    injection Hk as <-; exact (search_keys_held _ _ _ Hkey).
Qed.

(** *** reporter.py: truncation *)

Lemma len_nonneg (s : string) : 0 <= PyText.len s.
Proof.
  induction s as [|c s IH]; simpl; [lia|].
  destruct (PyText.is_continuation c); lia.
Qed.

Lemma len_append (a b : string) : PyText.len (a +:+ b) = PyText.len a + PyText.len b.
Proof.
  induction a as [|c a IH]; [reflexivity|].
  change (String c a +:+ b) with (String c (a +:+ b)). simpl.
  destruct (PyText.is_continuation c); lia.
Qed.

Lemma len_take (n : nat) (s : string) :
  PyText.len (PyText.take n s) = Z.min (Z.of_nat n) (PyText.len s).
Proof.
  revert n. induction s as [|c s IH]; intros n; simpl.
  - lia.
  - destruct (PyText.is_continuation c) eqn:Hc.
    + simpl. rewrite Hc. apply IH.
    + destruct n as [|n].
      * simpl. pose proof (len_nonneg s). lia.
      * simpl. rewrite Hc, IH. lia.
Qed.



(** X12.  Below three characters the cut counts from the end of the text,
    and the result is longer than the limit: a text of more than
    [limit] characters comes back with [limit] characters more than it
    had where that makes three at least, and as the three dots
    otherwise. *)
Theorem truncate_below_three_exceeds (text : string) (limit : Z) :
  limit < 3 ->
  limit < PyText.len text ->
  PyText.len (_truncate text limit) = Z.max (PyText.len text + limit) 3.
Proof.
  intros Hlimit Hlong. unfold _truncate.
  replace (PyText.len text <=? limit) with false by (symmetry; apply Z.leb_gt; lia).
  unfold PyText.slice_to.
  replace (0 <=? limit - 3) with false by (symmetry; apply Z.leb_gt; lia).
  rewrite len_append, len_take. change (PyText.len "...") with 3.
  pose proof (len_nonneg text) as Hlen.
  destruct (Z_le_gt_dec 0 (PyText.len text + (limit - 3))) as [Hfits|Hshort].
  - rewrite Z2Nat.id by exact Hfits. lia.
  - replace (Z.to_nat (PyText.len text + (limit - 3))) with O by lia. simpl Z.of_nat. lia.
Qed.

(** *** reporter.py: the lines of the report *)

Lemma prefix_append (p a b : string) :
  (String.length p <= String.length a)%nat ->
  String.prefix p (a +:+ b) = String.prefix p a.
Proof.
  revert a. induction p as [|c p IH]; intros a Hlen.
  - destruct a as [|x a]; [destruct b; reflexivity|reflexivity].
  - destruct a as [|x a]; [simpl in Hlen; lia|].
    change (String x a +:+ b) with (String x (a +:+ b)). simpl.
    destruct (ascii_dec c x); [|reflexivity]. apply IH. simpl in Hlen. lia.
Qed.

Ltac plain_lines :=
  unfold Py.startswith; repeat constructor;
  try (rewrite prefix_append by (simpl; lia); reflexivity).

Lemma filter_heading_nil (lines : list string) :
  Forall (fun line => Py.startswith "## " line = false) lines ->
  List.filter (Py.startswith "## ") lines = [].
Proof.
  induction 1 as [|line lines Hline _ IH]; [reflexivity|].
  simpl. rewrite Hline. exact IH.
Qed.

Lemma dynamic_lines_plain (dynamic : option DynamicMetrics.t) :
  Forall (fun line => Py.startswith "## " line = false) (dynamic_lines dynamic).
Proof.
  destruct dynamic as [d|]; simpl; plain_lines.
Qed.

Lemma regression_lines_plain (regression : option string) :
  Forall (fun line => Py.startswith "## " line = false) (regression_lines regression).
Proof.
  destruct regression as [reason|]; simpl; [|constructor].
  destruct (Py.truthy_str reason); plain_lines.
Qed.

Lemma findings_lines_plain (findings : list StaticFinding.t) :
  Forall (fun line => Py.startswith "## " line = false) (findings_lines findings).
Proof.
  destruct findings as [|f findings]; [repeat constructor|].
  unfold findings_lines. constructor; [reflexivity|].
  apply List.Forall_forall. intros line Hin. apply List.in_map_iff in Hin as (g & <- & _).
  reflexivity.
Qed.

Lemma suggestion_lines_plain (s : Suggestion.t) :
  Forall (fun line => Py.startswith "## " line = false) (suggestion_lines s).
Proof.
  unfold suggestion_lines. constructor; [reflexivity|].
  repeat apply Forall_app_2.
  - destruct (Suggestion.ddl s) as [ddl|]; [|constructor].
    destruct (Py.truthy_str ddl); plain_lines.
  - destruct (Suggestion.sql_after s) as [after|]; [|constructor].
    destruct (Py.truthy_str after); plain_lines.
  - destruct (Suggestion.validated_improvement s) as [improvement|]; [|constructor].
    destruct (DynamicMetrics.p95_ms improvement); plain_lines.
Qed.

Lemma suggestions_lines_plain (suggestions : list Suggestion.t) :
  Forall (fun line => Py.startswith "## " line = false) (suggestions_lines suggestions).
Proof.
  destruct suggestions as [|s suggestions]; [constructor|].
  unfold suggestions_lines. constructor; [reflexivity|].
  apply List.Forall_forall. intros line Hin. apply List.in_flat_map in Hin as (t & _ & Hin).
  pose proof (suggestion_lines_plain t) as Hplain.
  rewrite List.Forall_forall in Hplain. apply Hplain. exact Hin.
Qed.

Lemma result_lines_heading (result : QueryResult.t) :
  List.filter (Py.startswith "## ") (result_lines result) = [heading result].
Proof.
  unfold result_lines.
  change (List.filter (Py.startswith "## ")
            (heading result :: ?a :: ?b :: ?c :: ?rest))
    with (List.filter (Py.startswith "## ") ([heading result; a; b; c] ++ rest)).
  rewrite List.filter_app.
  rewrite (filter_heading_nil (_ ++ _)).
  - rewrite List.app_nil_r. reflexivity.
  - repeat apply Forall_app_2.
    + apply dynamic_lines_plain.
    + apply regression_lines_plain.
    + apply findings_lines_plain.
    + apply suggestions_lines_plain.
    + repeat constructor.
Qed.

(** X13.  The headings of a report are the queries of the results, one for
    each result and in their order: no other line the report appends
    starts as a heading of the second level. *)
Theorem report_has_one_heading_per_result (results : list QueryResult.t) :
  List.filter (Py.startswith "## ") (report_lines results) = List.map heading results.
Proof.
  unfold report_lines.
  change (List.filter (Py.startswith "## ") (?a :: ?b :: ?c :: ?d :: ?e :: ?rest))
    with (List.filter (Py.startswith "## ") ([a; b; c; d; e] ++ rest)).
  rewrite !List.filter_app.
  rewrite (filter_heading_nil (_ :: _)) by plain_lines.
  simpl app.
  assert (Hrest : List.filter (Py.startswith "## ") ("" :: flat_map result_lines results)
                  = List.map heading results).
  2:{ destruct (count_regressions results =? 0); [exact Hrest|].
      rewrite (filter_heading_nil [_]) by plain_lines. exact Hrest. }
  change (List.filter (Py.startswith "## ") ("" :: ?rest))
    with (List.filter (Py.startswith "## ") rest).
  induction results as [|result results IH]; [reflexivity|].
  change (flat_map result_lines (result :: results))
    with (result_lines result ++ flat_map result_lines results).
  rewrite List.filter_app, result_lines_heading, IH. reflexivity.
Qed.

Lemma to_int_normal (z : Z) : Decimal.norm (Z.to_int z) = Z.to_int z.
Proof. rewrite <- DecimalZ.to_of, DecimalZ.of_to. reflexivity. Qed.

Lemma int_of_str_of_int (z : Z) :
  NilZero.int_of_string (Py.str_of_int z) = Some (Z.to_int z).
Proof.
  unfold Py.str_of_int. pose proof (to_int_normal z) as Hnormal.
  apply NilZero.isi; intros Hnil; rewrite Hnil in Hnormal; discriminate Hnormal.
Qed.

Lemma str_of_int_inj (a b : Z) : Py.str_of_int a = Py.str_of_int b -> a = b.
Proof.
  intros H. apply (f_equal NilZero.int_of_string) in H.
  rewrite !int_of_str_of_int in H. injection H as H.
  apply (f_equal Z.of_int) in H. rewrite !DecimalZ.of_to in H. exact H.
Qed.

Lemma has_error_counts (results : list QueryResult.t) :
  existsb (fun r => existsb (fun f => String.eqb (StaticFinding.severity f) "error")
                            (QueryResult.findings r)) results = false
  <-> count_findings "error" results = 0.
Proof.
  unfold count_findings. induction results as [|r results IH]; simpl.
  - split; reflexivity.
  - rewrite orb_false_iff, IH, List.length_app.
    assert (Hr : existsb (fun f => String.eqb (StaticFinding.severity f) "error")
                         (QueryResult.findings r) = false
                 <-> List.length
                       (List.filter
                          (fun f => String.eqb (StaticFinding.severity f) "error")
                          (QueryResult.findings r)) = 0%nat).
    { induction (QueryResult.findings r) as [|f fs IHf]; simpl.
      - split; reflexivity.
      - destruct (String.eqb (StaticFinding.severity f) "error"); simpl.
        + split; discriminate.
        + exact IHf. }
    rewrite Hr. lia.
Qed.

Lemma has_regression_counts (results : list QueryResult.t) :
  existsb (fun r => Py.truthy_opt_str (QueryResult.baseline_regression r)) results = false
  <-> count_regressions results = 0.
Proof.
  unfold count_regressions. induction results as [|r results IH]; simpl.
  - split; reflexivity.
  - destruct (Py.truthy_opt_str (QueryResult.baseline_regression r)); simpl.
    + split; [discriminate|lia].
    + exact IH.
Qed.

(** X14.  The summary of the report shows the decision: the decision is
    [pass] exactly when the report counts no error and has no line of
    regressions, so that its summary ends after the warnings. *)
Theorem report_summary_shows_decision (results : list QueryResult.t) :
  compute_decision results = "pass"
  <-> (nth 3 (report_lines results) "" = "- Errors: 0"
       /\ nth 5 (report_lines results) "" = "").
Proof.
  unfold compute_decision, report_lines. cbv zeta. simpl nth.
  pose proof (has_error_counts results) as Herr.
  pose proof (has_regression_counts results) as Hreg.
  destruct (existsb (fun r => existsb _ (QueryResult.findings r)) results).
  - simpl orb. cbv iota. split; [discriminate|].
    intros (Hline & _).
    change "- Errors: 0" with ("- Errors: " +:+ Py.str_of_int 0) in Hline.
    apply append_inj_prefix, str_of_int_inj in Hline.
    apply Herr in Hline. discriminate Hline.
  - simpl orb.
    destruct (existsb (fun r => Py.truthy_opt_str _) results).
    + split; [discriminate|]. intros (_ & Hline).
      destruct (count_regressions results =? 0) eqn:Hz.
      * apply Z.eqb_eq, Hreg in Hz. discriminate Hz.
      * simpl in Hline. discriminate Hline.
    + split; [|reflexivity]. intros _.
      rewrite (proj1 Herr eq_refl), (proj1 Hreg eq_refl). split; reflexivity.
Qed.


(** *** graph.py: the run *)

Lemma baseline_step_raised (save_baseline_flag : bool) (results : list QueryResult.t) :
  fold_left (baseline_step save_baseline_flag) results None = None.
Proof. induction results as [|res results IH]; [reflexivity|exact IH]. Qed.

Lemma baseline_loop_marks (save_baseline_flag : bool) (results : list QueryResult.t) :
  forall data0 visited0 data visited,
    fold_left (baseline_step save_baseline_flag) results (Some (data0, visited0))
    = Some (data, visited) ->
    exists results', visited = visited0 ++ results' /\ Forall2 marked results results'.
Proof.
  induction results as [|res results IH]; intros data0 visited0 data visited Hfold.
  - simpl in Hfold. injection Hfold as <- <-. exists []. split.
    + symmetry. apply List.app_nil_r.
    + constructor.
  - simpl in Hfold.
    destruct (QueryResult.dynamic res) as [dynamic|] eqn:Hdyn.
    + destruct (data0 !! fingerprint_query (QueryResult.query res)) as [existing|].
      * destruct (compare_to_baseline dynamic existing 0.2) as [[reg reason]|] eqn:Hcmp;
          [|rewrite baseline_step_raised in Hfold; discriminate Hfold].
        apply IH in Hfold as (results' & -> & Hmarked).
        exists ((if reg then with_regression res reason else res) :: results').
        split; [rewrite <- List.app_assoc; reflexivity|].
        constructor; [|exact Hmarked].
        destruct reg; [|left; reflexivity].
        right. exists dynamic, existing, reason. auto.
      * apply IH in Hfold as (results' & -> & Hmarked).
        exists (res :: results').
        split; [rewrite <- List.app_assoc; reflexivity|].
        constructor; [left; reflexivity|exact Hmarked].
    + apply IH in Hfold as (results' & -> & Hmarked).
      exists (res :: results').
      split; [rewrite <- List.app_assoc; reflexivity|].
      constructor; [left; reflexivity|exact Hmarked].
Qed.

(** The keys of a node written over a state. *)
Ltac reduce_state :=
  cbv [option_map GraphState.update GraphState.over GraphState.empty from_option id
       GraphState.config GraphState.queries GraphState.results
       GraphState.decision GraphState.report_md GraphState.baseline
       with_results decision_and_report_node negb].

Ltac reduce_state_in H :=
  cbv [option_map GraphState.update GraphState.over GraphState.empty from_option id
       GraphState.config GraphState.queries GraphState.results
       GraphState.decision GraphState.report_md GraphState.baseline
       with_results decision_and_report_node negb] in H.

(** The steps of a run that returns: the configuration and the queries
    of the first two nodes, the results as each later node leaves them,
    the dictionary of the baseline node, and the final state. *)
Lemma run_inversion (policy_path repo_path : string) (dsn baseline_path : option string)
      (save_baseline_flag : bool) (fs fs' : FileSystem) (st : SQLState.t) :
  run_sqlqa policy_path repo_path dsn baseline_path save_baseline_flag fs = Some (st, fs') ->
  exists config queries measured_results optimized compared baseline,
    load_config policy_path = Some config
    /\ extract_queries repo_path config = Some queries
    /\ ((Py.truthy_opt_str dsn = false
         /\ measured_results = run_static_checks queries config)
        \/ (Py.truthy_opt_str dsn = true
            /\ exists conn, measured_results
                            = List.map (check_result conn)
                                       (run_static_checks queries config)))
    /\ (exists conn, optimized = List.map (suggest conn) measured_results)
    /\ ((Py.truthy_opt_str baseline_path = false
         /\ compared = optimized /\ baseline = None /\ fs' = fs)
        \/ (Py.truthy_opt_str baseline_path = true
            /\ exists loaded data,
                load_baseline (default "" baseline_path) fs = Some loaded
                /\ fold_left (baseline_step save_baseline_flag) optimized
                             (Some (loaded, []))
                   = Some (data, compared)
                /\ baseline = Some data
                /\ fs' = if save_baseline_flag
                         then save_baseline (default "" baseline_path) data fs
                         else fs))
    /\ st = SQLState.Make
              (Some config) queries compared (Some (compute_decision compared))
              (Some (build_markdown_report
                       (SQLState.Make (Some config) queries compared
                                      (Some (compute_decision compared)) None
                                      (default ∅ baseline))))
              (default ∅ baseline).
Proof.
  unfold run_sqlqa, invoke, baseline_stage, baseline_node.
  unfold stage, load_config_node, extract_node, static_checks_node,
    dynamic_checks_node, optimizer_node.
  reduce_state.
  destruct (load_config policy_path) as [config|] eqn:Hconfig; [|discriminate].
  reduce_state.
  destruct (extract_queries repo_path config) as [queries|] eqn:Hqueries;
    [|discriminate].
  reduce_state.
  set (checked := run_static_checks queries config).
  intros Hrun. exists config, queries.
  destruct (Py.truthy_opt_str dsn) eqn:Hdsn.
  - destruct (_connect_mysql _) as [conn|]; [|discriminate Hrun].
    destruct (conn_close conn); [|discriminate Hrun].
    reduce_state_in Hrun.
    exists (List.map (check_result conn) checked),
           (List.map (suggest (Some conn)) (List.map (check_result conn) checked)).
    destruct (Py.truthy_opt_str baseline_path) eqn:Hpath.
    + destruct (load_baseline _ fs) as [loaded|] eqn:Hload; [|discriminate Hrun].
      destruct (fold_left _ _ (Some (loaded, []))) as [[data compared]|] eqn:Hfold;
        [|discriminate Hrun].
      exists compared, (Some data). reduce_state_in Hrun. injection Hrun as <- <-.
      split; [reflexivity|]. split; [exact Hqueries|].
      split; [right; split; [reflexivity|exists conn; reflexivity]|].
      split; [exists (Some conn); reflexivity|]. split; [|reflexivity].
      right. split; [reflexivity|]. exists loaded, data. auto.
    + eexists _, None. reduce_state_in Hrun. injection Hrun as <- <-.
      split; [reflexivity|]. split; [exact Hqueries|].
      split; [right; split; [reflexivity|exists conn; reflexivity]|].
      split; [exists (Some conn); reflexivity|]. split; [|reflexivity].
      left. auto.
  - reduce_state_in Hrun.
    exists checked, (List.map (suggest None) checked).
    destruct (Py.truthy_opt_str baseline_path) eqn:Hpath.
    + destruct (load_baseline _ fs) as [loaded|] eqn:Hload; [|discriminate Hrun].
      destruct (fold_left _ _ (Some (loaded, []))) as [[data compared]|] eqn:Hfold;
        [|discriminate Hrun].
      exists compared, (Some data). reduce_state_in Hrun. injection Hrun as <- <-.
      split; [reflexivity|]. split; [exact Hqueries|].
      split; [left; split; reflexivity|].
      split; [exists None; reflexivity|]. split; [|reflexivity].
      right. split; [reflexivity|]. exists loaded, data. auto.
    + eexists _, None. reduce_state_in Hrun. injection Hrun as <- <-.
      split; [reflexivity|]. split; [exact Hqueries|].
      split; [left; split; reflexivity|].
      split; [exists None; reflexivity|]. split; [|reflexivity].
      left. auto.
Qed.


Lemma static_results_queries (queries : list Query.t) (config : PolicyConfig.t) :
  List.map QueryResult.query (run_static_checks queries config) = queries
  /\ List.map QueryResult.findings (run_static_checks queries config)
     = List.map (fun q => analyze_query q config) queries.
Proof.
  unfold run_static_checks. rewrite !List.map_map. simpl. split.
  - apply List.map_id.
  - reflexivity.
Qed.

Lemma marked_keeps (results results' : list QueryResult.t) :
  Forall2 marked results results' ->
  List.map QueryResult.query results' = List.map QueryResult.query results
  /\ List.map QueryResult.findings results' = List.map QueryResult.findings results
  /\ List.map QueryResult.dynamic results' = List.map QueryResult.dynamic results
  /\ List.map QueryResult.suggestions results'
     = List.map QueryResult.suggestions results.
Proof.
  induction 1 as [|res res' results results' Hm _ (IHq & IHf & IHd & IHs)].
  - repeat split.
  - simpl. rewrite IHq, IHf, IHd, IHs.
    destruct Hm as [->|(dynamic & existing & reason & _ & _ & ->)]; repeat split.
Qed.

Lemma run_results_analysis (config : PolicyConfig.t) (queries : list Query.t)
      (measured_results optimized compared : list QueryResult.t) :
  (measured_results = run_static_checks queries config
   \/ exists conn, measured_results
                   = List.map (check_result conn) (run_static_checks queries config)) ->
  (exists conn, optimized = List.map (suggest conn) measured_results) ->
  Forall2 marked optimized compared ->
  List.map QueryResult.query compared = queries
  /\ List.map QueryResult.findings compared
     = List.map (fun q => analyze_query q config) queries.
Proof.
  intros Hm (conn & ->) Hmarked.
  apply marked_keeps in Hmarked as (-> & -> & _).
  rewrite !List.map_map. simpl.
  destruct (static_results_queries queries config) as (Hq & Hf).
  destruct Hm as [->|(c & ->)].
  - split; [exact Hq|exact Hf].
  - rewrite !List.map_map. simpl. split; [exact Hq|exact Hf].
Qed.

Lemma run_marks (policy_path repo_path : string) (dsn baseline_path : option string)
      (save_baseline_flag : bool) (fs fs' : FileSystem) (st : SQLState.t) :
  run_sqlqa policy_path repo_path dsn baseline_path save_baseline_flag fs = Some (st, fs') ->
  exists config queries measured_results optimized,
    load_config policy_path = Some config
    /\ extract_queries repo_path config = Some queries
    /\ SQLState.config st = Some config
    /\ SQLState.queries st = queries
    /\ SQLState.decision st = Some (compute_decision (SQLState.results st))
    /\ ((Py.truthy_opt_str dsn = false
         /\ measured_results = run_static_checks queries config)
        \/ (Py.truthy_opt_str dsn = true
            /\ exists conn, measured_results
                            = List.map (check_result conn)
                                       (run_static_checks queries config)))
    /\ (exists conn, optimized = List.map (suggest conn) measured_results)
    /\ Forall2 marked optimized (SQLState.results st)
    /\ (Py.truthy_opt_str baseline_path = false -> SQLState.results st = optimized).
Proof.
  intros Hrun. apply run_inversion in Hrun
    as (config & queries & measured_results & optimized & compared & baseline
        & Hconfig & Hqueries & Hm & Ho & Hb & ->).
  exists config, queries, measured_results, optimized. simpl.
  repeat (split; [assumption || reflexivity|]).
  destruct Hb as [(Hpath & -> & _)|(Hpath & loaded & data & _ & Hfold & _)].
  - split; [|reflexivity].
    clear. induction optimized; constructor; [left; reflexivity|assumption].
  - apply baseline_loop_marks in Hfold as (results' & -> & Hmarked).
    split; [exact Hmarked|]. intros Hfalse. congruence.
Qed.

(** X15.  The nodes after the static checks never change what was analysed:
    in the state of a run that returns, the results are those of the
    extracted queries, one for each and in their order, and their
    findings are those of the static analysis under the loaded
    policy. *)
Theorem run_keeps_static_analysis (policy_path repo_path : string)
        (dsn baseline_path : option string) (save_baseline_flag : bool)
        (fs fs' : FileSystem) (st : SQLState.t) :
  run_sqlqa policy_path repo_path dsn baseline_path save_baseline_flag fs = Some (st, fs') ->
  exists config,
    load_config policy_path = Some config
    /\ SQLState.config st = Some config
    /\ extract_queries repo_path config = Some (SQLState.queries st)
    /\ List.map QueryResult.query (SQLState.results st) = SQLState.queries st
    /\ List.map QueryResult.findings (SQLState.results st)
       = List.map (fun q => analyze_query q config) (SQLState.queries st).
Proof.
  intros Hrun. apply run_marks in Hrun
    as (config & queries & measured_results & optimized
        & Hconfig & Hqueries & Hc & Hq & _ & Hm & Ho & Hmarked & _).
  exists config. rewrite Hq.
  split; [exact Hconfig|]. split; [exact Hc|]. split; [exact Hqueries|].
  apply (run_results_analysis config queries measured_results optimized).
  - destruct Hm as [(_ & Hm)|(_ & Hm)]; [left|right]; exact Hm.
  - exact Ho.
  - exact Hmarked.
Qed.

(** X16.  The command [check] exits with 0 or 1 after a run that returns,
    and with 1 exactly when a result of the final state has a finding
    of the severity error or a reason of regression that is not
    empty. *)
Theorem exit_code_follows_results (policy_path repo_path : string)
        (dsn baseline_path : option string) (save_baseline_flag : bool)
        (fs fs' : FileSystem) (st : SQLState.t) :
  run_sqlqa policy_path repo_path dsn baseline_path save_baseline_flag fs = Some (st, fs') ->
  (exit_code st = 0 \/ exit_code st = 1)
  /\ (exit_code st = 1
      <-> (exists r f, In r (SQLState.results st) /\ In f (QueryResult.findings r)
                       /\ StaticFinding.severity f = "error")
          \/ (exists r reason, In r (SQLState.results st)
                               /\ QueryResult.baseline_regression r = Some reason
                               /\ reason <> "")).
Proof.
  intros Hrun. apply run_marks in Hrun
    as (config & queries & measured_results & optimized
        & _ & _ & _ & _ & Hdecision & _).
  unfold exit_code. rewrite Hdecision. unfold compute_decision.
  rewrite <- has_error_true, <- has_regression_true, <- orb_true_iff.
  destruct (_ || _); simpl.
  - split; [right; reflexivity|]. split; reflexivity.
  - split; [left; reflexivity|]. split; discriminate.
Qed.

Lemma static_results_unmeasured (queries : list Query.t) (config : PolicyConfig.t) :
  Forall (fun r => QueryResult.dynamic r = None /\ QueryResult.baseline_regression r = None)
         (run_static_checks queries config).
Proof.
  unfold run_static_checks. apply List.Forall_forall. intros r Hin.
  apply List.in_map_iff in Hin as (q & <- & _). split; reflexivity.
Qed.

Lemma marked_in (results results' : list QueryResult.t) (r' : QueryResult.t) :
  Forall2 marked results results' -> In r' results' ->
  exists r, In r results /\ marked r r'.
Proof.
  induction 1 as [|res res' results results' Hm _ IH]; intros Hin.
  - contradiction.
  - destruct Hin as [<-|Hin].
    + exists res. split; [left; reflexivity|exact Hm].
    + destruct (IH Hin) as (r & Hr & Hmr). exists r. split; [right; exact Hr|exact Hmr].
Qed.

(** X17.  A reason of regression in the state of a run comes from a
    comparison: the run had a DSN and a baseline path, the result has
    metrics, and [compare_to_baseline] at the threshold 0.2 returned
    this reason for them against an entry of the baseline. *)
Theorem regression_comes_from_comparison (policy_path repo_path : string)
        (dsn baseline_path : option string) (save_baseline_flag : bool)
        (fs fs' : FileSystem) (st : SQLState.t) (r : QueryResult.t) (reason : string) :
  run_sqlqa policy_path repo_path dsn baseline_path save_baseline_flag fs = Some (st, fs') ->
  In r (SQLState.results st) ->
  QueryResult.baseline_regression r = Some reason ->
  Py.truthy_opt_str dsn = true
  /\ Py.truthy_opt_str baseline_path = true
  /\ exists dynamic existing,
      QueryResult.dynamic r = Some dynamic
      /\ compare_to_baseline dynamic existing 0.2 = PyNum.Returned (true, reason).
Proof.
  intros Hrun Hin Hreason. apply run_marks in Hrun
    as (config & queries & measured_results & optimized
        & _ & _ & _ & _ & _ & Hm & (oconn & Ho) & Hmarked & Hsame).
  destruct (marked_in _ _ _ Hmarked Hin) as (r0 & Hr0 & Hmr).
  rewrite Ho in Hr0. apply List.in_map_iff in Hr0 as (r1 & <- & Hr1).
  pose proof (static_results_unmeasured queries config) as Hstatic.
  rewrite List.Forall_forall in Hstatic.
  assert (Hnone : QueryResult.baseline_regression r1 = None).
  { destruct Hm as [(_ & ->)|(_ & conn & ->)].
    - exact (proj2 (Hstatic r1 Hr1)).
    - apply List.in_map_iff in Hr1 as (r2 & <- & Hr2). exact (proj2 (Hstatic r2 Hr2)). }
  destruct Hmr as [->|(dynamic & existing & reason' & Hdyn & Hcmp & ->)].
  - simpl in Hreason. congruence.
  - simpl in Hreason. injection Hreason as ->. simpl in Hdyn.
    assert (Hdsn : Py.truthy_opt_str dsn = true).
    { destruct Hm as [(_ & ->)|(Hdsn & _)]; [|exact Hdsn].
      destruct (Hstatic r1 Hr1) as (Hd & _). congruence. }
    split; [exact Hdsn|]. split.
    + destruct (Py.truthy_opt_str baseline_path) eqn:Hpath; [reflexivity|].
      specialize (Hsame eq_refl). rewrite Hsame, Ho in Hin.
      apply List.in_map_iff in Hin as (r3 & Heq & Hr3).
      assert (Hnone3 : QueryResult.baseline_regression r3 = None).
      { destruct Hm as [(_ & ->)|(_ & conn & ->)].
        - exact (proj2 (Hstatic r3 Hr3)).
        - apply List.in_map_iff in Hr3 as (r4 & <- & Hr4).
          exact (proj2 (Hstatic r4 Hr4)). }
      apply (f_equal QueryResult.baseline_regression) in Heq. simpl in Heq. congruence.
    + exists dynamic, existing. split; [exact Hdyn|exact Hcmp].
Qed.

(** X18.  A run writes no file but the baseline it was asked to save: the
    file system is the one it started on unless the run has a baseline
    path and the flag, and then the text at the path is the baseline of
    the final state. *)
Theorem run_writes_only_saved_baseline (policy_path repo_path : string)
        (dsn baseline_path : option string) (save_baseline_flag : bool)
        (fs fs' : FileSystem) (st : SQLState.t) :
  run_sqlqa policy_path repo_path dsn baseline_path save_baseline_flag fs = Some (st, fs') ->
  fs' = if Py.truthy_opt_str baseline_path && save_baseline_flag
        then save_baseline (default "" baseline_path) (SQLState.baseline st) fs
        else fs.
Proof.
  intros Hrun. apply run_inversion in Hrun
    as (config & queries & measured_results & optimized & compared & baseline
        & _ & _ & _ & _ & Hb & ->).
  destruct Hb as [(-> & _ & _ & ->)|(-> & loaded & data & _ & _ & -> & ->)].
  - reflexivity.
  - reflexivity.
Qed.

(** X19.  Without a DSN and without a baseline path the run returns as soon
    as the policy loads and the extraction returns: each query has its
    findings and the suggestions of the optimizer without metrics and
    without a connection, no metrics and no regression, the file
    system is untouched, and [check] exits with 1 exactly when the
    static analysis has a finding of the severity error. *)
Theorem static_run_returns (policy_path repo_path : string)
        (dsn baseline_path : option string) (save_baseline_flag : bool)
        (fs : FileSystem) (config : PolicyConfig.t) (queries : list Query.t) :
  Py.truthy_opt_str dsn = false ->
  Py.truthy_opt_str baseline_path = false ->
  load_config policy_path = Some config ->
  extract_queries repo_path config = Some queries ->
  exists st,
    run_sqlqa policy_path repo_path dsn baseline_path save_baseline_flag fs = Some (st, fs)
    /\ SQLState.results st
       = List.map (fun q => QueryResult.Make q (analyze_query q config) None
                                             (optimize_query q None None) None)
                  queries
    /\ (exit_code st = 1
        <-> exists q f, In q queries /\ In f (analyze_query q config)
                        /\ StaticFinding.severity f = "error").
Proof.
  intros Hdsn Hpath Hconfig Hqueries.
  unfold run_sqlqa, invoke, baseline_stage, baseline_node.
  unfold stage, load_config_node, extract_node, static_checks_node,
    dynamic_checks_node, optimizer_node.
  rewrite Hconfig.
  reduce_state.
  rewrite Hqueries, Hdsn, Hpath.
  reduce_state.
  eexists. split; [reflexivity|]. cbn [SQLState.results].
  split.
  - unfold run_static_checks. rewrite List.map_map. reflexivity.
  - unfold exit_code, compute_decision. cbn [SQLState.decision].
    set (results := List.map (suggest None) (run_static_checks queries config)).
    assert (Hreg : existsb (fun r => Py.truthy_opt_str (QueryResult.baseline_regression r))
                           results = false).
    { unfold results, run_static_checks. rewrite List.map_map.
      clear. induction queries as [|q queries IH]; [reflexivity|exact IH]. }
    rewrite Hreg, orb_false_r.
    assert (Herr : existsb (fun r => existsb (fun f => String.eqb (StaticFinding.severity f)
                                                                  "error")
                                             (QueryResult.findings r)) results = true
                   <-> exists q f, In q queries /\ In f (analyze_query q config)
                                   /\ StaticFinding.severity f = "error").
    { rewrite has_error_true. unfold results, run_static_checks. rewrite List.map_map.
      split.
      - intros (r & f & Hr & Hf & Hs). apply List.in_map_iff in Hr as (q & <- & Hq).
        exists q, f. auto.
      - intros (q & f & Hq & Hf & Hs).
        exists (suggest None (QueryResult.Make q (analyze_query q config) None [] None)), f.
        split; [|split; [exact Hf|exact Hs]].
        apply List.in_map_iff. exists q. split; [reflexivity|exact Hq]. }
    rewrite <- Herr.
    destruct (existsb (fun r => existsb _ (QueryResult.findings r)) results); simpl.
    + split; reflexivity.
    + split; discriminate.
Qed.

(** *** graph.py: the baseline node when it saves *)

Lemma saving_loop_entries (results : list QueryResult.t) :
  forall data0 visited0 data visited,
    fold_left (baseline_step true) results (Some (data0, visited0)) = Some (data, visited) ->
    (forall fp, ~ In fp (measured results) -> data !! fp = data0 !! fp)
    /\ (forall fp, In fp (measured results) ->
                   exists res dynamic,
                     In res results
                     /\ QueryResult.dynamic res = Some dynamic
                     /\ fingerprint_query (QueryResult.query res) = fp
                     /\ data !! fp = Some (build_baseline_entry dynamic)).
Proof.
  induction results as [|res results IH]; intros data0 visited0 data visited Hfold.
  - simpl in Hfold. injection Hfold as <- <-. split; [reflexivity|contradiction].
  - simpl in Hfold. unfold measured. simpl flat_map. fold (measured results).
    destruct (QueryResult.dynamic res) as [dynamic|] eqn:Hdyn.
    + set (fp0 := fingerprint_query (QueryResult.query res)) in *.
      assert (Hstep : exists res',
                 fold_left (baseline_step true) results
                           (Some (<[fp0 := build_baseline_entry dynamic]> data0,
                                  visited0 ++ [res']))
                 = Some (data, visited)).
      { destruct (data0 !! fp0) as [existing|].
        - destruct (compare_to_baseline dynamic existing 0.2) as [[reg reason]|];
            [|rewrite baseline_step_raised in Hfold; discriminate Hfold].
          eexists. exact Hfold.
        - eexists. exact Hfold. }
      destruct Hstep as (res' & Hstep). apply IH in Hstep as (Hout & Hin).
      split.
      * intros fp Hfp. simpl in Hfp. rewrite Hout by auto.
        apply lookup_insert_ne. auto.
      * intros fp Hfp. destruct (in_dec string_dec fp (measured results)) as [Hlater|Hlast].
        -- destruct (Hin fp Hlater) as (r & d & Hr & Hd & Hf & Hl).
           exists r, d. split; [right; exact Hr|auto].
        -- destruct Hfp as [<-|Hfp]; [|contradiction].
           exists res, dynamic. split; [left; reflexivity|].
           split; [exact Hdyn|]. split; [reflexivity|].
           rewrite Hout by exact Hlast. apply lookup_insert_eq.
    + apply IH in Hfold as (Hout & Hin). split; [exact Hout|].
      intros fp Hfp. destruct (Hin fp Hfp) as (r & d & Hr & Hrest).
      exists r, d. split; [right; exact Hr|exact Hrest].
Qed.

(** X20.  When the baseline node saves, the dictionary it returns and writes
    keeps the loaded entry of every fingerprint the run did not
    measure, and holds at the fingerprint of each result with metrics
    the entry built from the metrics of a result with this
    fingerprint. *)
Theorem saved_baseline_covers_measured (baseline_path : option string)
        (state upd : GraphState.t) (results' : option (list QueryResult.t))
        (fs fs' : FileSystem) :
  Py.truthy_opt_str baseline_path = true ->
  baseline_node baseline_path true state fs = Some (upd, results', fs') ->
  exists loaded data,
    load_baseline (default "" baseline_path) fs = Some loaded
    /\ GraphState.baseline upd = Some data
    /\ fs' = save_baseline (default "" baseline_path) data fs
    /\ (forall fp, ~ In fp (measured (default [] (GraphState.results state))) ->
                   data !! fp = loaded !! fp)
    /\ (forall fp, In fp (measured (default [] (GraphState.results state))) ->
                   exists res dynamic,
                     In res (default [] (GraphState.results state))
                     /\ QueryResult.dynamic res = Some dynamic
                     /\ fingerprint_query (QueryResult.query res) = fp
                     /\ data !! fp = Some (build_baseline_entry dynamic)).
Proof.
  intros Hpath. unfold baseline_node. rewrite Hpath. cbn [negb].
  destruct (load_baseline (default "" baseline_path) fs) as [loaded|]; [|discriminate].
  destruct (fold_left _ _ (Some (loaded, []))) as [[data visited]|] eqn:Hfold;
    [|discriminate].
  intros H. injection H as <- _ <-.
  exists loaded, data. split; [reflexivity|]. split; [reflexivity|].
  split; [reflexivity|]. apply saving_loop_entries in Hfold. exact Hfold.
Qed.


(** *** extractor.py *)

Lemma drop_prefix_app (p s rest : string) :
  PyText.drop_prefix p s = Some rest -> s = p +:+ rest.
Proof.
  revert s. induction p as [|a p IH]; intros s H.
  - simpl in H. injection H as ->. reflexivity.
  - destruct s as [|b s]; simpl in H; [discriminate H|].
    destruct (Ascii.eqb a b) eqn:Hab; [|discriminate H].
    apply Ascii.eqb_eq in Hab. subst b.
    change (String a p +:+ rest) with (String a (p +:+ rest)).
    f_equal. apply IH. exact H.
Qed.

Lemma drop_first_app (encodings : list string) (s rest : string) :
  PyText.drop_first encodings s = Some rest ->
  exists e, In e encodings /\ s = e +:+ rest.
Proof.
  induction encodings as [|e encodings IH]; simpl; [discriminate|].
  destruct (PyText.drop_prefix e s) as [s'|] eqn:He.
  - intros H. injection H as ->. exists e. split; [left; reflexivity|].
    apply drop_prefix_app. exact He.
  - intros H. destruct (IH H) as (e' & Hin & Heq). exists e'. split; [right; exact Hin|exact Heq].
Qed.

(** What is stripped on the left is a prefix: the text is the removed
    characters and then the result. *)
Lemma lstrip_fuel_suffix (encodings : list string) (fuel : nat) (s : string) :
  exists removed, s = removed +:+ PyText.lstrip_fuel encodings fuel s.
Proof.
  revert s. induction fuel as [|fuel IH]; intros s; simpl.
  - exists "". reflexivity.
  - destruct (PyText.drop_first encodings s) as [s'|] eqn:Hs; [|exists ""; reflexivity].
    apply drop_first_app in Hs as (e & _ & ->).
    destruct (IH s') as (removed & Hremoved).
    exists (e +:+ removed). rewrite append_assoc, <- Hremoved. reflexivity.
Qed.

Lemma length_append (a b : string) :
  String.length (a +:+ b) = (String.length a + String.length b)%nat.
Proof.
  induction a as [|c a IH]; [reflexivity|].
  change (String c a +:+ b) with (String c (a +:+ b)). simpl. rewrite IH. reflexivity.
Qed.

Lemma drop_first_shorter (encodings : list string) (s rest : string) :
  Forall (fun e => e <> "") encodings ->
  PyText.drop_first encodings s = Some rest ->
  (String.length rest < String.length s)%nat.
Proof.
  intros Hne H. apply drop_first_app in H as (e & Hin & ->).
  rewrite List.Forall_forall in Hne. specialize (Hne e Hin).
  destruct e as [|a e]; [contradiction|].
  rewrite length_append. simpl. lia.
Qed.

(** The length of the text is fuel enough: nothing is left to strip. *)
Lemma lstrip_of_done (encodings : list string) (s : string) :
  Forall (fun e => e <> "") encodings ->
  PyText.drop_first encodings (PyText.lstrip_of encodings s) = None.
Proof.
  intros Hne. unfold PyText.lstrip_of.
  assert (H : forall fuel s, (String.length s <= fuel)%nat ->
                             PyText.drop_first encodings
                               (PyText.lstrip_fuel encodings fuel s) = None).
  { clear s. induction fuel as [|fuel IH]; intros s Hlen; simpl.
    - destruct s; [|simpl in Hlen; lia].
      clear Hlen. induction Hne as [|e encodings He _ IHe]; [reflexivity|].
      simpl. destruct e; [contradiction|]. simpl. exact IHe.
    - destruct (PyText.drop_first encodings s) as [s'|] eqn:Hs; [|exact Hs].
      apply IH. apply (drop_first_shorter _ _ _ Hne) in Hs. lia. }
  apply H. lia.
Qed.

Lemma lower_append (a b : string) : Py.lower (a +:+ b) = Py.lower a +:+ Py.lower b.
Proof.
  induction a as [|c a IH]; [reflexivity|].
  exact (f_equal (String (Py.lower_ascii c)) IH).
Qed.

Lemma contains_append (needle a b : string) :
  Py.contains needle b = true -> Py.contains needle (a +:+ b) = true.
Proof.
  intros H. induction a as [|c a IH]; [exact H|].
  change (String c a +:+ b) with (String c (a +:+ b)).
  simpl. rewrite IH. apply orb_true_r.
Qed.

Lemma startswith_contains (needle s : string) :
  Py.startswith needle s = true -> Py.contains needle s = true.
Proof.
  unfold Py.startswith. intros H. destruct s; cbn [Py.contains]; rewrite H; reflexivity.
Qed.

(** X21.  A statement with a kind looks like SQL: where [_determine_kind]
    finds one of its four keywords at the start of the stripped text,
    [_looks_like_sql] finds a keyword in the text. *)
Theorem kind_looks_like_sql (sql : string) :
  _determine_kind sql <> QueryKind.other -> _looks_like_sql sql = true.
Proof.
  unfold _determine_kind, _looks_like_sql, PyText.lstrip, PyText.lstrip_of.
  destruct (lstrip_fuel_suffix PyText.space_encodings (String.length sql) sql)
    as (removed & Hsql).
  set (stripped := PyText.lstrip_fuel _ _ sql) in *.
  intros Hkind.
  assert (Hfound : forall kw, Py.startswith kw (Py.lower stripped) = true ->
                              Py.contains kw (Py.lower sql) = true).
  { intros kw Hkw. rewrite Hsql at 1. rewrite lower_append.
    apply contains_append, startswith_contains. exact Hkw. }
  cbv zeta in Hkind. unfold SQL_KEYWORDS. cbn [existsb].
  destruct (Py.startswith "select" (Py.lower stripped)) eqn:H1;
    [rewrite (Hfound _ H1); reflexivity|].
  destruct (Py.startswith "update" (Py.lower stripped)) eqn:H2;
    [rewrite (Hfound _ H2), orb_true_r; reflexivity|].
  destruct (Py.startswith "delete" (Py.lower stripped)) eqn:H3;
    [rewrite (Hfound _ H3), !orb_true_r; reflexivity|].
  destruct (Py.startswith "insert" (Py.lower stripped)) eqn:H4;
    [rewrite (Hfound _ H4), !orb_true_r; reflexivity|].
  contradiction.
Qed.

(** The bytes of a text other than [c]. *)
Lemma split_free (sep : ascii) (s : string) :
  Forall (fun piece => Forall (fun c => c <> sep) (list_ascii_of_string piece))
         (PyText.split sep s).
Proof.
  induction s as [|c s IH]; simpl.
  - repeat constructor.
  - destruct (Ascii.eqb c sep) eqn:Hc.
    + constructor; [constructor|exact IH].
    + apply Ascii.eqb_neq in Hc.
      destruct (PyText.split sep s) as [|piece pieces].
      * repeat constructor. exact Hc.
      * inversion IH as [|? ? Hpiece Hpieces]; subst.
        constructor; [|exact Hpieces]. simpl. constructor; [exact Hc|exact Hpiece].
Qed.

Lemma lstrip_of_free (encodings : list string) (sep : ascii) (s : string) :
  Forall (fun c => c <> sep) (list_ascii_of_string s) ->
  Forall (fun c => c <> sep) (list_ascii_of_string (PyText.lstrip_of encodings s)).
Proof.
  unfold PyText.lstrip_of.
  destruct (lstrip_fuel_suffix encodings (String.length s) s) as (removed & Hs).
  intros Hfree. rewrite Hs, list_of_string_app in Hfree.
  apply Forall_app in Hfree. apply Hfree.
Qed.

Lemma rev_string_free (sep : ascii) (s : string) :
  Forall (fun c => c <> sep) (list_ascii_of_string s) ->
  Forall (fun c => c <> sep) (list_ascii_of_string (Py.rev_string s)).
Proof.
  unfold Py.rev_string. rewrite list_ascii_of_string_of_list_ascii.
  intros H. apply List.Forall_rev. exact H.
Qed.

Lemma strip_free (sep : ascii) (s : string) :
  Forall (fun c => c <> sep) (list_ascii_of_string s) ->
  Forall (fun c => c <> sep) (list_ascii_of_string (PyText.strip s)).
Proof.
  intros H. unfold PyText.strip, PyText.rstrip, PyText.lstrip.
  apply rev_string_free, lstrip_of_free, rev_string_free, lstrip_of_free. exact H.
Qed.

Lemma free_not_contained (sep : ascii) (s : string) :
  Forall (fun c => c <> sep) (list_ascii_of_string s) ->
  Py.contains (String sep "") s = false.
Proof.
  induction s as [|c s IH]; intros H.
  - reflexivity.
  - simpl in H. inversion H as [|? ? Hc Hs]; subst. simpl.
    destruct (ascii_dec sep c) as [->|_]; [contradiction|].
    apply IH. exact Hs.
Qed.

Lemma enumerate_indices {A : Type} (l : list A) (start : Z) :
  List.map fst (PyText.enumerate start l)
  = List.map (fun i => start + Z.of_nat i) (List.seq 0 (List.length l))
  /\ List.map snd (PyText.enumerate start l) = l.
Proof.
  revert start. induction l as [|x l IH]; intros start; [split; reflexivity|].
  simpl. destruct (IH (start + 1)) as (Hfst & Hsnd). rewrite Hfst, Hsnd.
  split; [|reflexivity]. f_equal; [lia|].
  rewrite <- List.seq_shift, List.map_map.
  apply List.map_ext. intros i. lia.
Qed.

Lemma map_injective_NoDup {A B : Type} (f : A -> B) (l : list A) :
  (forall x y, f x = f y -> x = y) -> List.NoDup l -> List.NoDup (List.map f l).
Proof.
  intros Hinj. induction 1 as [|x l Hx _ IH]; simpl; constructor; [|exact IH].
  intros Hin. apply List.in_map_iff in Hin as (y & Hy & Hin).
  apply Hinj in Hy. subst y. contradiction.
Qed.

(** X22.  The queries of a SQL file are its pieces between semicolons that
    are not blank: no statement is empty or holds a semicolon, and the
    ids are the path with the numbers from 1 in the order of the file,
    so that no two queries of the file share one. *)
Theorem sql_file_statements (rel content : string) (start_index : Z) :
  let queries := _extract_from_sql_file rel content start_index in
  Forall (fun q => Query.raw_sql q <> ""
                   /\ Py.contains ";" (Query.raw_sql q) = false
                   /\ Query.sql q = _normalize_sql (Query.raw_sql q))
         queries
  /\ List.map Query.id queries
     = List.map (fun i => rel +:+ ":" +:+ Py.str_of_int (Z.of_nat i + 1))
                (List.seq 0 (List.length queries))
  /\ List.NoDup (List.map Query.id queries).
Proof.
  cbv zeta. unfold _extract_from_sql_file.
  destruct (enumerate_indices (sql_parts content) 0) as (Hfst & Hsnd).
  assert (Hids : List.map Query.id
                   (List.map (fun entry =>
                                Query.Make (rel +:+ ":" +:+ Py.str_of_int (fst entry + 1))
                                           (_normalize_sql (snd entry)) (snd entry) rel 1
                                           (_determine_kind (snd entry)))
                             (PyText.enumerate 0 (sql_parts content)))
                 = List.map (fun i => rel +:+ ":" +:+ Py.str_of_int (Z.of_nat i + 1))
                            (List.seq 0 (List.length (sql_parts content)))).
  { rewrite List.map_map. cbn [Query.id].
    rewrite <- (List.map_map fst (fun i => rel +:+ ":" +:+ Py.str_of_int (i + 1))).
    rewrite Hfst, List.map_map. reflexivity. }
  assert (Hlen : List.length
                   (List.map (fun entry =>
                                Query.Make (rel +:+ ":" +:+ Py.str_of_int (fst entry + 1))
                                           (_normalize_sql (snd entry)) (snd entry) rel 1
                                           (_determine_kind (snd entry)))
                             (PyText.enumerate 0 (sql_parts content)))
                 = List.length (sql_parts content)).
  { rewrite List.length_map, <- (List.length_map snd), Hsnd. reflexivity. }
  split; [|split].
  - apply List.Forall_forall. intros q Hq.
    apply List.in_map_iff in Hq as ([idx raw] & <- & Hentry). cbn [Query.raw_sql Query.sql snd].
    assert (Hraw : In raw (sql_parts content)).
    { rewrite <- Hsnd. apply List.in_map_iff. exists (idx, raw).
      split; [reflexivity|exact Hentry]. }
    unfold sql_parts in Hraw. apply List.in_map_iff in Hraw as (part & <- & Hpart).
    apply List.filter_In in Hpart as (Hpart & Htruthy).
    split; [|split; [|reflexivity]].
    + unfold Py.truthy_str in Htruthy. apply negb_true_iff, String.eqb_neq in Htruthy.
      exact Htruthy.
    + apply free_not_contained, strip_free.
      pose proof (split_free ";" content) as Hfree.
      rewrite List.Forall_forall in Hfree. apply Hfree. exact Hpart.
  - rewrite Hlen. exact Hids.
  - rewrite Hids. apply map_injective_NoDup; [|apply List.seq_NoDup].
    intros i j Hij. apply append_inj_prefix, append_inj_prefix, str_of_int_inj in Hij. lia.
Qed.


End Engine.

(** ** The embedding on known values *)

(** The digests of the standard test vectors of SHA-1. *)
Example sha1_test_vectors :
  Sha1.hexdigest (Sha1.bytes_of_string "abc")
  = "a9993e364706816aba3e25717850c26c9cd0d89d"
  /\ Sha1.hexdigest (Sha1.bytes_of_string "")
     = "da39a3ee5e6b4b0d3255bfef95601890afd80709"
  /\ Sha1.hexdigest
       (Sha1.bytes_of_string "abcdbcdecdefdefgefghfghighijhijkijkljklmklmnlmnomnopnopq")
     = "84983e441c3bd26ebaae4aa1f95129e5e54670f1".
Proof. vm_compute. repeat split. Qed.

(** Two decimals, ties to even on the exact value of the float. *)
Example format_2f_values :
  PyNum.format_2f 130 = "130.00"
  /\ PyNum.format_2f 0.125 = "0.12"
  /\ PyNum.format_2f 0.375 = "0.38"
  /\ PyNum.format_2f 2.675 = "2.67"
  /\ PyNum.format_2f (-0.001) = "-0.00".
Proof. vm_compute. repeat split. Qed.

(** An [int] against a [float]: the product [1000 * (1 + 0.2)] is the
    float 1200, and the comparison is exact. *)
Example int_against_float :
  PyNum.int_mul_float 1000 (PyNum.one_plus 0.2) = PyNum.Returned 1200%float
  /\ PyNum.int_gt_float 1201 1200 = true
  /\ PyNum.int_gt_float 1200 1200 = false
  /\ PyNum.int_gt_float 1200 1199.5 = true
  /\ PyNum.float_of_int (2 ^ 1024) = PyNum.OverflowError.
Proof. vm_compute. repeat split. Qed.

(** The walk is breadth first: the node, its children, their children. *)
Example walk_is_breadth_first :
  List.map Sqlglot.key
           (Sqlglot.walk (Examples.mk_or
                            (Examples.mk_eq (Examples.column "a") (Examples.number "1"))
                            (Examples.mk_eq (Examples.column "b") (Examples.number "2"))))
  = ["or"; "eq"; "eq"; "column"; "literal"; "column"; "literal"; "identifier"; "identifier"].
Proof. vm_compute. reflexivity. Qed.

(** The rules on the statement of tests/test_static_rules.py. *)
Example rules_on_test_statement :
  List.map StaticFinding.rule_id
           (analyze_query Examples.parse_one Examples.sql_of
                          (Examples.query_of "test:1" Examples.bad_sql)
                          Examples.strict_config)
  = ["select_star"; "leading_wildcard_like"; "non_sargable_predicate"; "long_in_list"].
Proof. vm_compute. reflexivity. Qed.

(** The optimizer on the statement of tests/test_optimizer.py. *)
Example optimizer_on_test_statement :
  List.map Suggestion.suggestion_id
           (optimize_query Examples.parse_one Examples.sql_of unit Examples.failing_probe
                           (Examples.query_of "q1" Examples.paged_sql)
                           (Some Examples.slow_metrics) None)
  = ["q1-idx"; "q1-offset"; "q1-in"].
Proof. vm_compute. reflexivity. Qed.

(** The comparison of tests/test_baseline.py. *)
Example comparison_of_test :
  compare_to_baseline
    (DynamicMetrics.Make (Some 130%float) None (Some 1200) None None None None None)
    (BaselineEntry.Make (Some 100%float) (Some 1000) None None) 0.2
  = PyNum.Returned (true, "p95_ms regression: 130.00ms > baseline 100.00ms").
Proof. vm_compute. reflexivity. Qed.

(** ** The theorems at the examples *)

(** C4, at the input where it fails.  A latency of 0.0 measured by the
    probe is present, yet the merge takes the latency of the plan in
    its place, and no latency at all where the plan has none; so does
    the stage of the dynamic checks on a connection whose probes return
    these metrics. *)
Theorem merged_drops_zero_latency :
  DynamicMetrics.p95_ms Examples.zero_latency = Some 0%float
  /\ DynamicMetrics.avg_ms Examples.zero_latency = Some 0%float
  /\ DynamicMetrics.p95_ms (merged Examples.plan_metrics Examples.zero_latency)
     = Some 15%float
  /\ DynamicMetrics.avg_ms (merged Examples.plan_metrics Examples.zero_latency)
     = Some 10%float
  /\ DynamicMetrics.p95_ms (merged DynamicMetrics.empty Examples.zero_latency) = None
  /\ option_map
       (fun state' =>
          List.map (fun r => option_map DynamicMetrics.p95_ms (QueryResult.dynamic r))
                   (default [] (GraphState.results state')))
       (dynamic_checks_stage unit Examples.connect Examples.close
                             Examples.plan_probe Examples.zero_latency_probe
                             (Some "mysql://qa@localhost/app") Examples.checked_state)
     = Some [Some (Some 15%float); Some (Some 15%float)].
Proof. vm_compute. repeat split. Qed.

(** C7 at two copies of a query: same text, different ids, raw texts,
    paths, lines and kinds. *)
Lemma fingerprint_of_copies :
  Query.sql Examples.first_copy = Query.sql Examples.second_copy
  /\ fingerprint_query Examples.first_copy = fingerprint_query Examples.second_copy.
Proof.
  split; [reflexivity|].
  apply (fingerprint_query_depends_on_sql_only Examples.first_copy Examples.second_copy).
  reflexivity.
Defined.

(** C6 at a statement whose string is not closed. *)
Lemma unparsable_example_is_skipped :
  Examples.parse_one Examples.unparsable_sql = None
  /\ analyze_query Examples.parse_one Examples.sql_of
                   (Examples.query_of "q0" Examples.unparsable_sql)
                   Examples.default_config = []
  /\ optimize_query Examples.parse_one Examples.sql_of unit Examples.failing_probe
                    (Examples.query_of "q0" Examples.unparsable_sql)
                    (Some Examples.slow_metrics) (Some tt) = [].
Proof.
  split; [reflexivity|].
  apply (unparsable_query_is_skipped
           Examples.parse_one Examples.sql_of unit Examples.failing_probe
           (Examples.query_of "q0" Examples.unparsable_sql)).
  reflexivity.
Defined.

(** C10 on a connection where both probes raise for every query. *)
Lemma dynamic_checks_on_failing_probes :
  Py.truthy_str "mysql://qa@localhost/app" = true
  /\ Examples.connect "mysql://qa@localhost/app" = Some tt
  /\ Examples.close tt = true
  /\ exists state' results,
      dynamic_checks_stage unit Examples.connect Examples.close Examples.failing_probe
                           Examples.failing_latency_probe
                           (Some "mysql://qa@localhost/app") Examples.checked_state
      = Some state'
      /\ GraphState.results state' = Some results
      /\ List.map QueryResult.query results
         = List.map QueryResult.query
                    (default [] (GraphState.results Examples.checked_state))
      /\ Forall (fun r => exists m,
                     QueryResult.dynamic r = Some m
                     /\ (Examples.failing_probe (QueryResult.query r) tt = None ->
                         Examples.failing_latency_probe (QueryResult.query r) tt 3 = None ->
                         m = DynamicMetrics.empty))
                results.
Proof.
  split; [reflexivity|]. split; [reflexivity|]. split; [reflexivity|].
  apply (dynamic_checks_attach_metrics
           unit Examples.connect Examples.close Examples.failing_probe
           Examples.failing_latency_probe
           "mysql://qa@localhost/app" tt Examples.checked_state); reflexivity.
Defined.

(** C3 as stated fails where the first collected column does not
    qualify: the chain in parentheses holds three equalities of [a]
    with a literal, and the detector, which looks at the column [b]
    found first, returns nothing; the optimizer emits the index
    suggestion alone. *)
Lemma or_to_in_misses_qualifying_column :
  or_chain_qualifies Examples.sql_of Examples.or_chain
  /\ List.map (comparisons_on Examples.sql_of "a")
              (Sqlglot.find_all "or" Examples.or_chain)
     = [["3"; "1"; "2"]; ["3"; "1"; "2"]; ["1"; "2"]]
  /\ List.hd_error (collected_eqs Examples.sql_of Examples.or_chain) = Some ("b", "4")
  /\ _or_chain_to_in Examples.sql_of Examples.or_chain = None
  /\ List.map Suggestion.suggestion_id
              (optimize_query Examples.parse_one Examples.sql_of unit Examples.failing_probe
                              (Examples.query_of "q1" Examples.or_chain_sql)
                              (Some Examples.slow_metrics) None)
     = ["q1-idx"].
Proof.
  split; [|repeat split; vm_compute; reflexivity].
  unfold or_chain_qualifies.
  exists (List.hd Examples.star (Sqlglot.find_all "or" Examples.or_chain)), "a".
  split.
  - vm_compute. left. reflexivity.
  - vm_compute. lia.
Qed.

(** C3, amended, at the statement of tests/test_optimizer.py. *)
Lemma or_to_in_on_test_statement :
  Examples.parse_one (Query.sql (Examples.query_of "q1" Examples.paged_sql))
  = Some Examples.paged
  /\ exists s,
      In s (optimize_query Examples.parse_one Examples.sql_of unit Examples.failing_probe
                           (Examples.query_of "q1" Examples.paged_sql)
                           (Some Examples.slow_metrics) None)
      /\ Suggestion.suggestion_id s = "q1-in".
Proof.
  split; [reflexivity|].
  apply (proj1 (or_to_in_first_collected_column
                  Examples.parse_one Examples.sql_of unit Examples.failing_probe
                  (Examples.query_of "q1" Examples.paged_sql)
                  (Some Examples.slow_metrics) None Examples.paged eq_refl)).
  exists "id", ["3"; "1"; "2"; "1"; "2"]. reflexivity.
Defined.

(** C5 as stated fails on a join: the statement references two tables,
    and the optimizer proposes an index on the first of them. *)
Lemma index_suggested_for_join :
  emits_index (optimize_query Examples.parse_one Examples.sql_of unit Examples.failing_probe
                              (Examples.query_of "q2" Examples.join_sql)
                              (Some Examples.slow_metrics) None)
  /\ List.map Sqlglot.name (Sqlglot.find_all "table" Examples.join) = ["a"; "b"]
  /\ ~ references_single_table Examples.join
  /\ List.map Suggestion.ddl
              (optimize_query Examples.parse_one Examples.sql_of unit Examples.failing_probe
                              (Examples.query_of "q2" Examples.join_sql)
                              (Some Examples.slow_metrics) None)
     = [Some "CREATE INDEX idx_a_composite ON a (z);"].
Proof.
  split; [|split; [|split]].
  - eexists. split; [left; reflexivity|reflexivity].
  - vm_compute. reflexivity.
  - unfold references_single_table. vm_compute. discriminate.
  - vm_compute. reflexivity.
Qed.

(** C5, amended, at the join. *)
Lemma index_on_first_table_of_join :
  Examples.parse_one (Query.sql (Examples.query_of "q2" Examples.join_sql))
  = Some Examples.join
  /\ emits_index
       (optimize_query Examples.parse_one Examples.sql_of unit Examples.failing_probe
                       (Examples.query_of "q2" Examples.join_sql)
                       (Some Examples.slow_metrics) None).
Proof.
  split; [reflexivity|].
  apply (proj1 (index_suggestion_first_table
                  Examples.parse_one Examples.sql_of unit Examples.failing_probe
                  (Examples.query_of "q2" Examples.join_sql)
                  Examples.slow_metrics None Examples.join eq_refl)).
  split; [|split].
  - right. right. left. reflexivity.
  - eexists. eexists. split; [vm_compute; reflexivity|]. vm_compute. discriminate.
  - eexists. eexists. split; [reflexivity|].
    split; [vm_compute; left; reflexivity|]. vm_compute. discriminate.
Defined.

(** C8 as stated fails on a baseline with a NaN: the map read back has
    the same entry, and [==] tells it from the one saved. *)
Lemma round_trip_of_nan_is_not_equal :
  option_map (fun loaded => dict_eq loaded Examples.nan_baseline)
             (load_baseline Json Examples.loads Examples.no_coercion Examples.no_coercion
                            Examples.no_coercion "baseline.json"
                            (save_baseline Json Examples.dumps "baseline.json"
                                           Examples.nan_baseline ∅))
  = Some false.
Proof. vm_compute. reflexivity. Qed.

(** C8, amended, at the baseline of tests/test_baseline.py. *)
Lemma round_trip_of_test_baseline :
  (forall v, well_formed v = true -> Examples.loads (Examples.dumps v) = Some v)
  /\ exists loaded,
      load_baseline Json Examples.loads Examples.no_coercion Examples.no_coercion
                    Examples.no_coercion "baseline.json"
                    (save_baseline Json Examples.dumps "baseline.json"
                                   Examples.test_baseline ∅)
      = Some loaded
      /\ loaded = Examples.test_baseline
      /\ (dict_eq loaded Examples.test_baseline = true <-> nan_free Examples.test_baseline).
Proof.
  split; [intros v _; reflexivity|].
  apply (baseline_round_trip Json Examples.dumps Examples.loads
                             Examples.no_coercion Examples.no_coercion Examples.no_coercion).
  intros v _. reflexivity.
Defined.


(** ** The other properties at the examples *)

(** The statement of the tests has a pattern with a leading wildcard:
    the optimizer suggests the full-text index and the rules report
    the finding. *)
Lemma fulltext_suggestion_on_test_statement :
  Examples.parse_one (Query.sql (Examples.query_of "q1" Examples.bad_sql))
  = Some Examples.bad
  /\ In "leading_wildcard_like"
        (List.map StaticFinding.rule_id
                  (analyze_query Examples.parse_one Examples.sql_of
                                 (Examples.query_of "q1" Examples.bad_sql)
                                 Examples.default_config)).
Proof.
  split; [reflexivity|].
  apply (fulltext_suggestion_has_finding
           Examples.parse_one Examples.sql_of unit Examples.failing_probe
           (Examples.query_of "q1" Examples.bad_sql) Examples.default_config
           None None Examples.bad).
  - reflexivity.
  - reflexivity.
  - vm_compute. auto 10.
Defined.

(** A [null] number of rows in a table hides the number in the table
    after it. *)
Lemma null_rows_end_search :
  In "rows" rows_names
  /\ _search_keys (JObject ([("table", JStr "users")]
                              ++ ("rows", JNull) :: [("nested", JObject [("rows", JInt 5)])]))
                  rows_names
     = _search_keys (JObject [("table", JStr "users")]) rows_names.
Proof.
  assert (Hin : In "rows" rows_names) by (vm_compute; auto).
  split; [exact Hin|].
  apply (null_member_ends_search "rows" [("table", JStr "users")]
                                 [("nested", JObject [("rows", JInt 5)])] rows_names).
  exact Hin.
Defined.

(** The plan of tests/test_dynamic_runner.py: the metrics the test
    expects, each from the plan. *)
Lemma metrics_of_test_plan :
  PyJson.truthy Examples.test_plan = true
  /\ option_map (fun m => (DynamicMetrics.p95_ms m, DynamicMetrics.rows_examined m,
                           DynamicMetrics.using_temp_table m,
                           DynamicMetrics.using_filesort m,
                           DynamicMetrics.chosen_key m))
                (parse_explain_plan Examples.no_float Examples.no_int
                                    Examples.plan_text Examples.plan_repr
                                    Examples.test_plan)
     = Some (Some 15%float, Some 100, Some true, Some true, Some "idx_users_email")
  /\ match parse_explain_plan Examples.no_float Examples.no_int
                              Examples.plan_text Examples.plan_repr
                              Examples.test_plan with
     | Some metrics =>
         DynamicMetrics.plan_json metrics = Some Examples.test_plan
         /\ forall key, DynamicMetrics.chosen_key metrics = Some key ->
                        held_under key_names (JStr key) Examples.test_plan
     | None => True
     end.
Proof.
  split; [reflexivity|]. split; [vm_compute; reflexivity|].
  pose proof (parsed_metrics_come_from_plan
                Examples.no_float Examples.no_int Examples.plan_text Examples.plan_repr
                Examples.test_plan eq_refl) as H.
  destruct (parse_explain_plan Examples.no_float Examples.no_int Examples.plan_text
                               Examples.plan_repr Examples.test_plan) as [metrics|];
    [|exact I].
  destruct H as (Hplan & _ & _ & _ & _ & Hkey). split; [exact Hplan|exact Hkey].
Defined.


(** The limit 2 on a text of four characters gives six. *)
Lemma truncate_at_two :
  2 < 3
  /\ 2 < PyText.len "abcd"
  /\ PyText.len (_truncate "abcd" 2) = Z.max (PyText.len "abcd" + 2) 3.
Proof.
  assert (Hlong : 2 < PyText.len "abcd") by (vm_compute; reflexivity).
  split; [lia|]. split; [exact Hlong|].
  apply (truncate_below_three_exceeds "abcd" 2); [lia|exact Hlong].
Defined.

(** A statement in upper case after a blank line has a kind and looks
    like SQL. *)
Lemma kind_of_indented_statement :
  _determine_kind (PyText.newline +:+ "  UPDATE users SET active = 0")
  <> QueryKind.other
  /\ _looks_like_sql (PyText.newline +:+ "  UPDATE users SET active = 0") = true.
Proof.
  assert (Hkind : _determine_kind (PyText.newline +:+ "  UPDATE users SET active = 0")
                  <> QueryKind.other) by (vm_compute; discriminate).
  split; [exact Hkind|].
  apply (kind_looks_like_sql (PyText.newline +:+ "  UPDATE users SET active = 0")).
  exact Hkind.
Defined.

(** A run of the statements of the examples without a DSN and without
    a baseline. *)
Lemma static_run_of_examples :
  Py.truthy_opt_str None = false
  /\ Examples.load_policy "sql-policy.yaml" = Some Examples.default_config
  /\ Examples.extract "." Examples.default_config
     = Some [Examples.query_of "q1" Examples.bad_sql;
             Examples.query_of "q2" Examples.join_sql]
  /\ exists st,
      run_sqlqa Examples.parse_one Examples.sql_of unit Examples.connect Examples.close
                Examples.plan_probe Examples.zero_latency_probe Json Examples.dumps
                Examples.loads Examples.no_coercion Examples.no_coercion
                Examples.no_coercion Examples.float_text Examples.load_policy
                Examples.extract "sql-policy.yaml" "." None None false ∅
      = Some (st, ∅)
      /\ SQLState.results st
         = List.map (fun q => QueryResult.Make
                                q
                                (analyze_query Examples.parse_one Examples.sql_of q
                                               Examples.default_config)
                                None
                                (optimize_query Examples.parse_one Examples.sql_of unit
                                                Examples.plan_probe q None None)
                                None)
                    [Examples.query_of "q1" Examples.bad_sql;
                     Examples.query_of "q2" Examples.join_sql]
      /\ (exit_code st = 1
          <-> exists q f,
              In q [Examples.query_of "q1" Examples.bad_sql;
                    Examples.query_of "q2" Examples.join_sql]
              /\ In f (analyze_query Examples.parse_one Examples.sql_of q
                                     Examples.default_config)
              /\ StaticFinding.severity f = "error").
Proof.
  split; [reflexivity|]. split; [reflexivity|]. split; [reflexivity|].
  apply (static_run_returns
           Examples.parse_one Examples.sql_of unit Examples.connect Examples.close
           Examples.plan_probe Examples.zero_latency_probe Json Examples.dumps
           Examples.loads Examples.no_coercion Examples.no_coercion
           Examples.no_coercion Examples.float_text Examples.load_policy
           Examples.extract "sql-policy.yaml" "." None None false ∅
           Examples.default_config
           [Examples.query_of "q1" Examples.bad_sql;
            Examples.query_of "q2" Examples.join_sql]);
    reflexivity.
Defined.

(** A run against the baseline of the examples on a connection whose
    plans give 15 ms: the results are those of the two statements. *)
Lemma measured_run_keeps_analysis :
  exists st fs',
    run_sqlqa Examples.parse_one Examples.sql_of unit Examples.connect Examples.close
              Examples.plan_probe Examples.zero_latency_probe Json Examples.dumps
              Examples.loads Examples.no_coercion Examples.no_coercion
              Examples.no_coercion Examples.float_text Examples.load_policy
              Examples.extract "sql-policy.yaml" "." (Some "mysql://qa@localhost/app")
              (Some "baseline.json") false Examples.baseline_file
    = Some (st, fs')
    /\ exists config,
        Examples.load_policy "sql-policy.yaml" = Some config
        /\ SQLState.config st = Some config
        /\ Examples.extract "." config = Some (SQLState.queries st)
        /\ List.map QueryResult.query (SQLState.results st) = SQLState.queries st
        /\ List.map QueryResult.findings (SQLState.results st)
           = List.map (fun q => analyze_query Examples.parse_one Examples.sql_of q config)
                      (SQLState.queries st).
Proof.
  eexists. eexists. split; [vm_compute; reflexivity|].
  eapply (run_keeps_static_analysis
           Examples.parse_one Examples.sql_of unit Examples.connect Examples.close
           Examples.plan_probe Examples.zero_latency_probe Json Examples.dumps
           Examples.loads Examples.no_coercion Examples.no_coercion
           Examples.no_coercion Examples.float_text Examples.load_policy
           Examples.extract "sql-policy.yaml" "." (Some "mysql://qa@localhost/app")
           (Some "baseline.json") false Examples.baseline_file).
  vm_compute. reflexivity.
Defined.

(** The same run exits with 1: the first statement regresses. *)
Lemma measured_run_exit_code :
  exists st fs',
    run_sqlqa Examples.parse_one Examples.sql_of unit Examples.connect Examples.close
              Examples.plan_probe Examples.zero_latency_probe Json Examples.dumps
              Examples.loads Examples.no_coercion Examples.no_coercion
              Examples.no_coercion Examples.float_text Examples.load_policy
              Examples.extract "sql-policy.yaml" "." (Some "mysql://qa@localhost/app")
              (Some "baseline.json") false Examples.baseline_file
    = Some (st, fs')
    /\ exit_code st = 1
    /\ (exit_code st = 0 \/ exit_code st = 1)
    /\ (exit_code st = 1
        <-> (exists r f, In r (SQLState.results st) /\ In f (QueryResult.findings r)
                         /\ StaticFinding.severity f = "error")
            \/ (exists r reason, In r (SQLState.results st)
                                 /\ QueryResult.baseline_regression r = Some reason
                                 /\ reason <> "")).
Proof.
  eexists. eexists. split; [vm_compute; reflexivity|]. split; [reflexivity|].
  eapply (exit_code_follows_results
            Examples.parse_one Examples.sql_of unit Examples.connect Examples.close
            Examples.plan_probe Examples.zero_latency_probe Json Examples.dumps
            Examples.loads Examples.no_coercion Examples.no_coercion
            Examples.no_coercion Examples.float_text Examples.load_policy
            Examples.extract "sql-policy.yaml" "." (Some "mysql://qa@localhost/app")
            (Some "baseline.json") false Examples.baseline_file).
  vm_compute. reflexivity.
Defined.

(** The regression of the first statement in this run: its 15 ms
    against the 10 ms of the baseline. *)
Lemma measured_run_regression :
  exists st fs' r,
    run_sqlqa Examples.parse_one Examples.sql_of unit Examples.connect Examples.close
              Examples.plan_probe Examples.zero_latency_probe Json Examples.dumps
              Examples.loads Examples.no_coercion Examples.no_coercion
              Examples.no_coercion Examples.float_text Examples.load_policy
              Examples.extract "sql-policy.yaml" "." (Some "mysql://qa@localhost/app")
              (Some "baseline.json") false Examples.baseline_file
    = Some (st, fs')
    /\ In r (SQLState.results st)
    /\ QueryResult.baseline_regression r
       = Some "p95_ms regression: 15.00ms > baseline 10.00ms"
    /\ Py.truthy_opt_str (Some "mysql://qa@localhost/app") = true
    /\ Py.truthy_opt_str (Some "baseline.json") = true
    /\ exists dynamic existing,
        QueryResult.dynamic r = Some dynamic
        /\ compare_to_baseline dynamic existing 0.2
           = PyNum.Returned (true, "p95_ms regression: 15.00ms > baseline 10.00ms").
Proof.
  eexists. eexists. eexists. split; [vm_compute; reflexivity|].
  split; [left; reflexivity|]. split; [reflexivity|].
  eapply (regression_comes_from_comparison
            Examples.parse_one Examples.sql_of unit Examples.connect Examples.close
            Examples.plan_probe Examples.zero_latency_probe Json Examples.dumps
            Examples.loads Examples.no_coercion Examples.no_coercion
            Examples.no_coercion Examples.float_text Examples.load_policy
            Examples.extract "sql-policy.yaml" "." (Some "mysql://qa@localhost/app")
            (Some "baseline.json") false Examples.baseline_file).
  - vm_compute. reflexivity.
  - left. reflexivity.
  - reflexivity.
Defined.

(** A run that saves on an empty file system writes the baseline of
    its final state, and nothing else. *)
Lemma saving_run_writes_baseline :
  exists st fs',
    run_sqlqa Examples.parse_one Examples.sql_of unit Examples.connect Examples.close
              Examples.plan_probe Examples.zero_latency_probe Json Examples.dumps
              Examples.loads Examples.no_coercion Examples.no_coercion
              Examples.no_coercion Examples.float_text Examples.load_policy
              Examples.extract "sql-policy.yaml" "." (Some "mysql://qa@localhost/app")
              (Some "baseline.json") true ∅
    = Some (st, fs')
    /\ fs' = save_baseline Json Examples.dumps "baseline.json" (SQLState.baseline st) ∅.
Proof.
  eexists. eexists. split; [vm_compute; reflexivity|].
  apply (run_writes_only_saved_baseline
           Examples.parse_one Examples.sql_of unit Examples.connect Examples.close
           Examples.plan_probe Examples.zero_latency_probe Json Examples.dumps
           Examples.loads Examples.no_coercion Examples.no_coercion
           Examples.no_coercion Examples.float_text Examples.load_policy
           Examples.extract "sql-policy.yaml" "." (Some "mysql://qa@localhost/app")
           (Some "baseline.json") true ∅).
  vm_compute. reflexivity.
Defined.

(** The baseline node saving the two measured statements over the
    baseline of the examples. *)
Lemma saved_baseline_of_measured_state :
  Py.truthy_opt_str (Some "baseline.json") = true
  /\ exists upd results' fs',
      baseline_node Json Examples.dumps Examples.loads Examples.no_coercion
                    Examples.no_coercion Examples.no_coercion
                    (Some "baseline.json") true Examples.measured_state
                    Examples.baseline_file
      = Some (upd, results', fs')
      /\ exists loaded data,
          load_baseline Json Examples.loads Examples.no_coercion Examples.no_coercion
                        Examples.no_coercion "baseline.json" Examples.baseline_file
          = Some loaded
          /\ GraphState.baseline upd = Some data
          /\ fs' = save_baseline Json Examples.dumps "baseline.json" data
                                 Examples.baseline_file
          /\ (forall fp,
                 ~ In fp (measured (default [] (GraphState.results Examples.measured_state))) ->
                 data !! fp = loaded !! fp)
          /\ (forall fp,
                 In fp (measured (default [] (GraphState.results Examples.measured_state))) ->
                 exists res dynamic,
                   In res (default [] (GraphState.results Examples.measured_state))
                   /\ QueryResult.dynamic res = Some dynamic
                   /\ fingerprint_query (QueryResult.query res) = fp
                   /\ data !! fp = Some (build_baseline_entry dynamic)).
Proof.
  split; [reflexivity|].
  eexists. eexists. eexists. split; [vm_compute; reflexivity|].
  eapply (saved_baseline_covers_measured
            Json Examples.dumps Examples.loads Examples.no_coercion
            Examples.no_coercion Examples.no_coercion
            (Some "baseline.json") Examples.measured_state).
  - reflexivity.
  - vm_compute. reflexivity.
Defined.

